(** * Dreammaker: the dream-to-image pipeline

    A shallow embedding of [backend.py] (secret resolver, the four stage
    adapters, the [/dream-to-image] orchestrator) and of the pipeline block of
    [app.py] (the interactive orchestrator and its temporary-file cleanup).

    Python [str] values are represented by their UTF-8 encoding, as
    [string]; [bytes] values are [list byte].  Effects (secret lookups,
    upstream calls, the file system, open file handles, the widgets of the
    interactive front end) are threaded through an explicit state; third-party
    services and library tables are oracles gathered in [World].  What the
    libraries the program calls do with its calls (the Groq and Mistral
    clients, Streamlit's secrets) is written out where the program calls
    them. *)

From Stdlib Require Import ZArith List String Ascii QArith Lia.
From Stdlib Require Import Strings.Byte.
From stdpp Require Import base strings pretty gmap.

Set Warnings "-register-all".

Local Open Scope Z_scope.

(* ===================================================================== *)
(** * Text *)
(* ===================================================================== *)

Definition nl : string := String "010" EmptyString.

Module Text.

Definition chars (s : string) : list ascii := list_ascii_of_string s.
Definition of_chars (l : list ascii) : string := string_of_list_ascii l.

Definition ch (n : nat) : ascii := ascii_of_nat n.

(** The characters [str.strip()] removes when called without argument: the
    code points CPython's [str.isspace] accepts, each in UTF-8. *)
Definition whitespace : list (list ascii) :=
  [ [ch 9]; [ch 10]; [ch 11]; [ch 12]; [ch 13];
    [ch 28]; [ch 29]; [ch 30]; [ch 31]; [ch 32];
    [ch 194; ch 133]; [ch 194; ch 160];
    [ch 225; ch 154; ch 128];
    [ch 226; ch 128; ch 128]; [ch 226; ch 128; ch 129];
    [ch 226; ch 128; ch 130]; [ch 226; ch 128; ch 131];
    [ch 226; ch 128; ch 132]; [ch 226; ch 128; ch 133];
    [ch 226; ch 128; ch 134]; [ch 226; ch 128; ch 135];
    [ch 226; ch 128; ch 136]; [ch 226; ch 128; ch 137];
    [ch 226; ch 128; ch 138];
    [ch 226; ch 128; ch 168]; [ch 226; ch 128; ch 169];
    [ch 226; ch 128; ch 175]; [ch 226; ch 129; ch 159];
    [ch 227; ch 128; ch 128] ].

Fixpoint drop_prefix (p l : list ascii) : option (list ascii) :=
  match p, l with
  | [], _ => Some l
  | a :: p', b :: l' => if Ascii.eqb a b then drop_prefix p' l' else None
  | _ :: _, [] => None
  end.

Fixpoint drop_any (toks : list (list ascii)) (l : list ascii)
  : option (list ascii) :=
  match toks with
  | [] => None
  | t :: toks' =>
      match drop_prefix t l with
      | Some r => Some r
      | None => drop_any toks' l
      end
  end.

(** Removes leading tokens; [fuel] bounds the number of removals and
    [length l] always suffices, every token being non-empty. *)
Fixpoint drop_leading (toks : list (list ascii)) (fuel : nat)
         (l : list ascii) : list ascii :=
  match fuel with
  | O => l
  | S fuel' =>
      match drop_any toks l with
      | Some r => drop_leading toks fuel' r
      | None => l
      end
  end.

Definition lstrip (l : list ascii) : list ascii :=
  drop_leading whitespace (length l) l.

Definition rstrip (l : list ascii) : list ascii :=
  rev (drop_leading (map (@rev ascii) whitespace) (length l) (rev l)).

(** [s.strip()] *)
Definition strip (s : string) : string := of_chars (rstrip (lstrip (chars s))).

(** [s.split(sep)[-1]] for a one-character separator: what follows the last
    occurrence of [sep], the whole string when there is none. *)
Fixpoint last_segment_aux (sep : ascii) (l acc : list ascii) : list ascii :=
  match l with
  | [] => rev acc
  | c :: l' =>
      if Ascii.eqb c sep then last_segment_aux sep l' []
      else last_segment_aux sep l' (c :: acc)
  end.

Definition last_segment (sep : ascii) (s : string) : string :=
  of_chars (last_segment_aux sep (chars s) []).

(** [os.path.basename] on a POSIX path. *)
Definition basename (path : string) : string := last_segment "/" path.

End Text.

(* ===================================================================== *)
(** * Base64 (RFC 4648), as [base64.b64encode] produces it *)
(* ===================================================================== *)

Module Base64.

(** Six bits, most significant first. *)
Definition sextet : Type := bool * bool * bool * bool * bool * bool.

Definition bit (b : bool) : nat := if b then 1%nat else 0%nat.

Definition index (s : sextet) : nat :=
  let '(b5, b4, b3, b2, b1, b0) := s in
  (32 * bit b5 + 16 * bit b4 + 8 * bit b3 + 4 * bit b2 + 2 * bit b1 + bit b0)%nat.

Definition alphabet : string :=
  "ABCDEFGHIJKLMNOPQRSTUVWXYZabcdefghijklmnopqrstuvwxyz0123456789+/".

Definition pad : ascii := "="%char.

Definition encode_sextet (s : sextet) : ascii :=
  match String.get (index s) alphabet with
  | Some c => c
  | None => pad
  end.

Definition sextet_of_index (n : nat) : sextet :=
  (Nat.testbit n 5, Nat.testbit n 4, Nat.testbit n 3,
   Nat.testbit n 2, Nat.testbit n 1, Nat.testbit n 0).

Definition in_range (lo hi c : ascii) : bool :=
  (nat_of_ascii lo <=? nat_of_ascii c)%nat && (nat_of_ascii c <=? nat_of_ascii hi)%nat.

Definition decode_sextet (c : ascii) : option sextet :=
  let n := nat_of_ascii c in
  if in_range "A" "Z" c then Some (sextet_of_index (n - 65))
  else if in_range "a" "z" c then Some (sextet_of_index (n - 97 + 26))
  else if in_range "0" "9" c then Some (sextet_of_index (n - 48 + 52))
  else if Ascii.eqb c "+" then Some (sextet_of_index 62)
  else if Ascii.eqb c "/" then Some (sextet_of_index 63)
  else None.

(** The 24 bits of three bytes regrouped into four sextets.  [to_bits]
    lists the bits of a byte least significant first. *)
Definition sextets3 (x y z : byte) : sextet * sextet * sextet * sextet :=
  let '(x0, (x1, (x2, (x3, (x4, (x5, (x6, x7))))))) := to_bits x in
  let '(y0, (y1, (y2, (y3, (y4, (y5, (y6, y7))))))) := to_bits y in
  let '(z0, (z1, (z2, (z3, (z4, (z5, (z6, z7))))))) := to_bits z in
  ((x7, x6, x5, x4, x3, x2),
   (x1, x0, y7, y6, y5, y4),
   (y3, y2, y1, y0, z7, z6),
   (z5, z4, z3, z2, z1, z0)).

Definition bytes3 (s0 s1 s2 s3 : sextet) : byte * byte * byte :=
  let '(x7, x6, x5, x4, x3, x2) := s0 in
  let '(x1, x0, y7, y6, y5, y4) := s1 in
  let '(y3, y2, y1, y0, z7, z6) := s2 in
  let '(z5, z4, z3, z2, z1, z0) := s3 in
  (of_bits (x0, (x1, (x2, (x3, (x4, (x5, (x6, x7))))))),
   of_bits (y0, (y1, (y2, (y3, (y4, (y5, (y6, y7))))))),
   of_bits (z0, (z1, (z2, (z3, (z4, (z5, (z6, z7)))))))).

(** [base64.b64encode(data).decode("utf-8")]: three bytes give four
    characters; a last group of one or two bytes is completed with zero bits
    and padded with [=]. *)
Fixpoint b64encode (data : list byte) : string :=
  match data with
  | [] => EmptyString
  | [x] =>
      let '(s0, s1, _, _) := sextets3 x "000"%byte "000"%byte in
      String (encode_sextet s0) (String (encode_sextet s1)
        (String pad (String pad EmptyString)))
  | [x; y] =>
      let '(s0, s1, s2, _) := sextets3 x y "000"%byte in
      String (encode_sextet s0) (String (encode_sextet s1)
        (String (encode_sextet s2) (String pad EmptyString)))
  | x :: y :: z :: rest =>
      let '(s0, s1, s2, s3) := sextets3 x y z in
      String (encode_sextet s0) (String (encode_sextet s1)
        (String (encode_sextet s2) (String (encode_sextet s3)
          (b64encode rest))))
  end.

Definition zero6 : sextet := (false, false, false, false, false, false).

(** Strict decoding of padded base64: groups of four characters, padding
    only in the last group. *)
Fixpoint b64decode (s : string) : option (list byte) :=
  match s with
  | EmptyString => Some []
  | String c0 (String c1 (String c2 (String c3 rest))) =>
      match decode_sextet c0, decode_sextet c1 with
      | Some s0, Some s1 =>
          if Ascii.eqb c3 pad then
            match rest with
            | EmptyString =>
                if Ascii.eqb c2 pad then
                  let '(x, _, _) := bytes3 s0 s1 zero6 zero6 in Some [x]
                else
                  match decode_sextet c2 with
                  | Some s2 =>
                      let '(x, y, _) := bytes3 s0 s1 s2 zero6 in Some [x; y]
                  | None => None
                  end
            | String _ _ => None
            end
          else
            match decode_sextet c2, decode_sextet c3, b64decode rest with
            | Some s2, Some s3, Some tl =>
                let '(x, y, z) := bytes3 s0 s1 s2 s3 in Some (x :: y :: z :: tl)
            | _, _, _ => None
            end
      | _, _ => None
      end
  | String _ _ => None
  end.

Definition data_uri_prefix : string := "data:image/png;base64,".

(** The payload of a [data:image/png;base64,] URI. *)
Fixpoint strip_prefix (p s : string) : option string :=
  match p, s with
  | EmptyString, _ => Some s
  | String a p', String b s' => if Ascii.eqb a b then strip_prefix p' s' else None
  | String _ _, EmptyString => None
  end.

Definition data_uri_payload (uri : string) : option string :=
  strip_prefix data_uri_prefix uri.

Definition decode_data_uri (uri : string) : option (list byte) :=
  match data_uri_payload uri with
  | Some p => b64decode p
  | None => None
  end.

End Base64.

Definition bytes_of_string (s : string) : list byte := list_byte_of_string s.

(* ===================================================================== *)
(** * Python values, exceptions, requests and responses *)
(* ===================================================================== *)

(** The values that flow between the stages: JSON values, the [Payload]
    wrapper of [app.py], and a coroutine object that was never awaited. *)
Inductive value : Type :=
| VNone
| VBool (b : bool)
| VInt (n : Z)
| VStr (s : string)
| VList (l : list value)
| VDict (d : list (string * value))
| VPayload (text_or_prompt : value)
| VCoroutine.

Inductive exn : Type :=
| RuntimeError (msg : string)
| HTTPException (status_code : Z) (detail : string)
| APIStatusError (status_code : Z) (body : string)
| JSONDecodeError
| AttributeError
| TypeError
| KeyError (key : string)
| IndexError
| FileNotFoundError (path : string)
| PermissionError (path : string)
| StreamlitSecretNotFoundError
| RerunException.

(** [RerunException] derives from [BaseException] only, so that
    [except Exception] lets it through. *)
Definition is_Exception (e : exn) : bool :=
  match e with
  | RerunException => false
  | _ => true
  end.

(** Python truthiness, as tested by [if x:] and [not x]. *)
Definition truthy (v : value) : bool :=
  match v with
  | VNone => false
  | VBool b => b
  | VInt n => negb (n =? 0)
  | VStr s => negb (String.eqb s "")
  | VList l => match l with [] => false | _ => true end
  | VDict d => match d with [] => false | _ => true end
  | VPayload _ => true
  | VCoroutine => true
  end.

Fixpoint assoc {A : Type} (k : string) (d : list (string * A)) : option A :=
  match d with
  | [] => None
  | (k', v) :: d' => if String.eqb k k' then Some v else assoc k d'
  end.

(** [d.get(k, default)] on a dict. *)
Definition dict_get (d : list (string * value)) (k : string) (default : value)
  : value :=
  match assoc k d with
  | Some v => v
  | None => default
  end.

Record http_response : Type := {
  status_code : Z;
  text : string;                 (* [response.text] *)
  content : list byte;           (* [response.content] *)
  json : option value            (* [response.json()]; [None]: not JSON *)
}.

Record stt_request : Type := {
  stt_url : string;
  stt_headers : list (string * string);
  stt_file : string * list byte * string;  (* name, bytes, media type *)
  stt_data : list (string * string)
}.

Record chat_request : Type := {
  chat_api_key : string;
  model : string;
  messages : list (string * string);       (* role, content *)
  max_tokens : Z;
  temperature : Q
}.

Record image_request : Type := {
  img_url : string;
  img_json : list (string * value);
  img_headers : list (string * string)
}.

Inductive stage : Type :=
| Transcriber
| EmotionClassifier
| PromptGenerator
| ImageSynthesizer.

Inductive widget : Type :=
| Spinner (label : string)
| Warning (msg : string)
| Subheader (label : string)
| Success (body : value)
| InfoBox (body : string)
| Code (body : value)
| Image (body : value)
| DownloadButton (data : value)
| Json (body : list (string * value))
| ErrorBox (e : exn)
| RemoveWarning (e : exn).

Inductive event : Type :=
| Invoke (s : stage)                 (* a stage function is entered *)
| Resolve (name : string)            (* [get_secret(name)] *)
| SttPost (rq : stt_request)         (* a request sent to the service *)
| ChatPost (rq : chat_request)       (* likewise, each time it is sent *)
| ImagePost (rq : image_request)
| Display (w : widget)
| Sleep.

(* ===================================================================== *)
(** * The world and the state *)
(* ===================================================================== *)

(** What the program does not own: the three upstream services, the Unicode
    tables behind [str.lower] and [str.capitalize], the name [tempfile]
    picks, and the user's answers to the two input widgets.  A service is
    read as the response it gives to a request that reaches it; the
    completion service is asked again when the Groq client retries, and
    [chat_post n] is its response to the attempt number [n] of a call,
    [chat_should_retry] the client's own table of the responses it asks
    again for. *)
Record World : Type := {
  stt_post : stt_request -> http_response;
  chat_post : nat -> chat_request -> http_response;
  chat_should_retry : http_response -> bool;
  image_post : image_request -> http_response;
  str_lower : string -> string;
  str_capitalize : string -> string;
  mkstemp : gmap string (list byte) -> string -> string;
  button : string -> bool;
  checkbox : string -> bool
}.

Record State : Type := {
  use_streamlit_secrets : bool;           (* did [import streamlit] work *)
  st_secrets : option (gmap string string);
                       (* [st.secrets]; [None]: no secrets file to load *)
  environ : gmap string string;           (* [os.environ] *)
  fs : gmap string (list byte);           (* files, by path *)
  handles : list string;                  (* paths of the open file objects *)
  trace : list event                      (* oldest first *)
}.

Definition with_fs (f : gmap string (list byte) -> gmap string (list byte))
           (s : State) : State :=
  {| use_streamlit_secrets := use_streamlit_secrets s;
     st_secrets := st_secrets s; environ := environ s;
     fs := f (fs s); handles := handles s; trace := trace s |}.

Definition with_handles (f : list string -> list string) (s : State) : State :=
  {| use_streamlit_secrets := use_streamlit_secrets s;
     st_secrets := st_secrets s; environ := environ s;
     fs := fs s; handles := f (handles s); trace := trace s |}.

Definition with_trace (f : list event -> list event) (s : State) : State :=
  {| use_streamlit_secrets := use_streamlit_secrets s;
     st_secrets := st_secrets s; environ := environ s;
     fs := fs s; handles := handles s; trace := f (trace s) |}.

(* ===================================================================== *)
(** * Computations that may raise *)
(* ===================================================================== *)

Inductive result (A : Type) : Type :=
| Ret (a : A)
| Raise (e : exn).
Arguments Ret {A} a.
Arguments Raise {A} e.

Definition M (A : Type) : Type := State -> result A * State.

Definition ret {A} (a : A) : M A := fun s => (Ret a, s).
Definition raise {A} (e : exn) : M A := fun s => (Raise e, s).

Definition bind {A B} (m : M A) (k : A -> M B) : M B :=
  fun s =>
    match m s with
    | (Ret a, s') => k a s'
    | (Raise e, s') => (Raise e, s')
    end.

Notation "'let*' x ':=' m 'in' k" := (bind m (fun x => k))
  (at level 10, x name, m at level 100, k at level 200).
Notation "m ';;' k" := (bind m (fun _ => k))
  (at level 100, k at level 200, right associativity).

Definition get_state : M State := fun s => (Ret s, s).
Definition modify (f : State -> State) : M unit := fun s => (Ret tt, f s).
Definition lift {A} (r : result A) : M A := fun s => (r, s).

Definition log (ev : event) : M unit := modify (with_trace (fun t => t ++ [ev])).

(** [try: body finally: cleanup].  An exception of the cleanup replaces the
    outcome of the body. *)
Definition try_finally {A} (body : M A) (cleanup : M unit) : M A :=
  fun s =>
    let '(r, s1) := body s in
    match cleanup s1 with
    | (Ret _, s2) => (r, s2)
    | (Raise e, s2) => (Raise e, s2)
    end.

(** [try: body except Exception as e: handler(e)] *)
Definition try_except {A} (body : M A) (handler : exn -> M A) : M A :=
  fun s =>
    match body s with
    | (Raise e, s1) => if is_Exception e then handler e s1 else (Raise e, s1)
    | r => r
    end.

(** ** Files *)

Definition remove_first (p : string) (l : list string) : list string :=
  let fix go l :=
    match l with
    | [] => []
    | q :: l' => if String.eqb p q then l' else q :: go l'
    end in go l.

Definition is_open (p : string) (l : list string) : bool :=
  existsb (String.eqb p) l.

(** [open(path, "rb")]: the file object is identified by its path. *)
Definition open_rb (path : string) : M unit :=
  let* s := get_state in
  match fs s !! path with
  | Some _ => modify (with_handles (cons path))
  | None => raise (FileNotFoundError path)
  end.

Definition close (path : string) : M unit :=
  modify (with_handles (remove_first path)).

(** [f.read()] on an open file object. *)
Definition read (path : string) : M (list byte) :=
  let* s := get_state in
  match fs s !! path with
  | Some data => ret data
  | None => ret []
  end.

Definition write (path : string) (data : list byte) : M unit :=
  modify (with_fs (fun m => <[path := data]> m)).

Definition path_exists (path : string) : M bool :=
  let* s := get_state in
  ret (bool_decide (is_Some (fs s !! path))).

(** [os.remove(path)].  A file that is still open can be removed on POSIX
    and not on Windows, where the cleanup of [app.py] waits for the lock to
    go.  The removal is refused here whenever a handle on the path is open,
    the stricter of the two: with no handle open on the path, both platforms
    remove the file, as here. *)
Definition os_remove (path : string) : M unit :=
  let* s := get_state in
  match fs s !! path with
  | None => raise (FileNotFoundError path)
  | Some _ =>
      if is_open path (handles s) then raise (PermissionError path)
      else modify (with_fs (fun m => delete path m))
  end.

(** [with tempfile.NamedTemporaryFile(delete=False, suffix=suffix) as tmp:
       tmp.write(<data>); path = tmp.name]
    where [data] is computed inside the block. *)
Definition named_temporary_file (w : World) (suffix : string)
           (data : M (list byte)) : M string :=
  let* s := get_state in
  let path := mkstemp w (fs s) suffix in
  write path [] ;;
  modify (with_handles (cons path)) ;;
  try_finally
    (let* d := data in write path d ;; ret path)
    (close path).

(** A file object as the Transcriber receives it: FastAPI's [UploadFile] or
    the [DummyUploadFile] of [app.py]. *)
Record upload_file : Type := {
  filename : string;
  content_type : string;
  file_read : M (list byte);
  file_close : M unit
}.

(** [d[k]] *)
Definition subscript (d : value) (k : string) : M value :=
  match d with
  | VDict kvs =>
      match assoc k kvs with
      | Some v => ret v
      | None => raise (KeyError k)
      end
  | _ => raise TypeError
  end.

(** ["literal" + x]: only a [str] can be appended to a [str]. *)
Definition str_add (prefix : string) (x : value) : M string :=
  match x with
  | VStr s => ret (prefix +:+ s)
  | _ => raise TypeError
  end.

(** Can [json.dumps] encode the value. *)
Fixpoint json_serializable (v : value) : bool :=
  match v with
  | VPayload _ | VCoroutine => false
  | VList l => forallb json_serializable l
  | VDict d => forallb (fun kv => match kv with (_, x) => json_serializable x end) d
  | _ => true
  end.

(* ===================================================================== *)
(** * backend.py *)
(* ===================================================================== *)

Module Backend.
Section Backend.

Variable w : World.

Definition CLIPDROP_API_URL : string := "https://clipdrop-api.co/text-to-image/v1".
Definition OPENAI_STT_ENDPOINT : string :=
  "https://api.openai.com/v1/audio/transcriptions".

Definition missing (name : string) : exn :=
  RuntimeError ("Clé API '" +:+ name +:+ "' manquante.").

(** [not value] for the result of [os.environ.get(name)] *)
Definition not_value (value : option string) : bool :=
  match value with
  | None => true
  | Some v => String.eqb v ""
  end.

(** [value = os.environ.get(name)] and what follows it. *)
Definition from_environ (environ : gmap string string) (name : string)
  : result string :=
  let value := environ !! name in
  if not_value value then Raise (missing name)
  else match value with
       | Some v => Ret v
       | None => Raise (missing name)
       end.

(** The lookup of [get_secret], on the stores as they are at the call.
    [name in st.secrets] makes Streamlit load its secrets file, and raises
    Streamlit's error when there is none: the environment is not read then. *)
Definition resolve (use_streamlit_secrets : bool)
           (st_secrets : option (gmap string string))
           (environ : gmap string string) (name : string)
  : result string :=
  if use_streamlit_secrets then
    match st_secrets with
    | None => Raise StreamlitSecretNotFoundError
    | Some secrets =>
        match secrets !! name with
        | Some v => Ret v
        | None => from_environ environ name
        end
    end
  else from_environ environ name.

Definition get_secret (name : string) : M string :=
  log (Resolve name) ;;
  let* s := get_state in
  lift (resolve (use_streamlit_secrets s) (st_secrets s) (environ s) name).

Definition stt_request_of (api_key : string)
           (file : string * list byte * string) : stt_request :=
  {| stt_url := OPENAI_STT_ENDPOINT;
     stt_headers := [("Authorization", "Bearer " +:+ api_key)];
     stt_file := file;
     stt_data := [("model", "whisper-1")] |}.

Definition transcribe_audio_func (file : upload_file) : M value :=
  log (Invoke Transcriber) ;;
  let* api_key := get_secret "OPENAI_API_KEY" in
  let* file_content := file_read file in
  let* tmp_path := named_temporary_file w ".mp3" (ret file_content) in
  try_finally
    (let* file_bytes :=
       (open_rb tmp_path ;; try_finally (read tmp_path) (close tmp_path)) in
     let rq := stt_request_of api_key
                 (filename file, file_bytes, content_type file) in
     log (SttPost rq) ;;
     let response := stt_post w rq in
     if negb (status_code response =? 200) then
       raise (HTTPException (status_code response) (text response))
     else
       match json response with
       | None => raise JSONDecodeError
       | Some (VDict d) =>
           ret (VDict [("transcription", dict_get d "text" (VStr ""))])
       | Some _ => raise AttributeError
       end)
    (try_except (os_remove tmp_path) (fun _ => ret tt)).

(** [response.is_success]: a status in the 2xx range. *)
Definition is_success (response : http_response) : bool :=
  (200 <=? status_code response) && (status_code response <? 300).

(** A completion, seen as the [message.content] of each of its choices;
    [None] for a choice whose message has no text. *)
Definition message_content (choice : value) : option string :=
  match choice with
  | VDict fields =>
      match assoc "message" fields with
      | Some (VDict message) =>
          match assoc "content" message with
          | Some (VStr s) => Some s
          | _ => None
          end
      | _ => None
      end
  | _ => None
  end.

Definition choices_of (response : http_response) : list (option string) :=
  match json response with
  | Some (VDict body) =>
      match assoc "choices" body with
      | Some (VList choices) => map message_content choices
      | _ => []
      end
  | _ => []
  end.

(** [max_retries] of a client built as [Groq(api_key=api_key)]. *)
Definition DEFAULT_MAX_RETRIES : nat := 2.

(** [client.chat.completions.create(...)], [client] being the synchronous
    [Groq] client: the call sends the request and waits for the response.  A
    response that is no success is asked again for when the client holds it
    for retryable and has retries left; otherwise the client raises its
    status error, which carries the status code and the body of that
    response. *)
Fixpoint groq_create (retries attempt : nat) (rq : chat_request)
  : M (list (option string)) :=
  log (ChatPost rq) ;;
  let response := chat_post w attempt rq in
  if is_success response then ret (choices_of response)
  else
    match retries with
    | S retries' =>
        if chat_should_retry w response then groq_create retries' (S attempt) rq
        else raise (APIStatusError (status_code response) (text response))
    | O => raise (APIStatusError (status_code response) (text response))
    end.

(** [await completion]: what the synchronous client returned is the
    completion itself, which is no awaitable. *)
Definition await_completion (completion : list (option string))
  : M (list (option string)) :=
  raise TypeError.

(** [await client.chat.completions.create(...)] *)
Definition chat_completions_create (rq : chat_request)
  : M (list (option string)) :=
  let* completion := groq_create DEFAULT_MAX_RETRIES 0 rq in
  await_completion completion.

(** [completion.choices[0].message.content], about to receive [.strip()] *)
Definition first_content (choices : list (option string)) : M string :=
  match choices with
  | [] => raise IndexError
  | None :: _ => raise AttributeError
  | Some c :: _ => ret c
  end.

Definition emotion_request (api_key prompt : string) : chat_request :=
  {| chat_api_key := api_key;
     model := "mixtral-8x7b-32768";
     messages :=
       [("system", "Tu es un assistant expert en analyse d'émotions de rêves.");
        ("user", prompt)];
     max_tokens := 10;
     temperature := 0 |}.

Definition emotion_instruction : string :=
  "Lis ce rêve et classe-le dans l'une de ces catégories : heureux, stressant, neutre, cauchemar, étrange. "
  +:+ "Réponds uniquement par la catégorie." +:+ nl +:+ "Rêve :" +:+ nl.

Definition detect_emotion_func (text : value) : M value :=
  log (Invoke EmotionClassifier) ;;
  let* api_key := get_secret "GROQ_API_KEY" in
  let* prompt := str_add emotion_instruction text in
  let* choices := chat_completions_create (emotion_request api_key prompt) in
  let* content := first_content choices in
  ret (VDict [("emotion", VStr (str_lower w (Text.strip content)))]).

Definition image_prompt_request (api_key prompt : string) : chat_request :=
  {| chat_api_key := api_key;
     model := "mixtral-8x7b-32768";
     messages :=
       [("system", "Tu es un assistant expert en prompts d’images oniriques.");
        ("user", prompt)];
     max_tokens := 60;
     temperature := 7 # 10 |}.

Definition image_prompt_instruction : string :=
  "Lis ce rêve et écris un prompt descriptif pour générer une image onirique qui l’illustre. "
  +:+ "Sois concis et imagé." +:+ nl +:+ "Rêve :" +:+ nl.

Definition generate_image_prompt_func (text : value) : M value :=
  log (Invoke PromptGenerator) ;;
  let* api_key := get_secret "GROQ_API_KEY" in
  let* prompt := str_add image_prompt_instruction text in
  let* choices := chat_completions_create (image_prompt_request api_key prompt) in
  let* content := first_content choices in
  ret (VDict [("prompt", VStr (Text.strip content))]).

Definition image_request_of (api_key : string) (prompt : value)
  : image_request :=
  {| img_url := CLIPDROP_API_URL;
     img_json := [("prompt", prompt)];
     img_headers := [("x-api-key", api_key)] |}.

Definition generate_image_func (prompt : value) : M value :=
  log (Invoke ImageSynthesizer) ;;
  let* api_key := get_secret "CLIPDROP_API_KEY" in
  let rq := image_request_of api_key prompt in
  if negb (json_serializable prompt) then raise TypeError
  else
    log (ImagePost rq) ;;
    let response := image_post w rq in
    if negb (status_code response =? 200) then
      raise (HTTPException (status_code response) (text response))
    else
      let base64_image := Base64.b64encode (content response) in
      ret (VDict [("image", VStr ("data:image/png;base64," +:+ base64_image))]).

(** [POST /dream-to-image] *)
Definition dream_to_image (file : upload_file) : M value :=
  let* transcription := transcribe_audio_func file in
  let* text := subscript transcription "transcription" in
  let* emotion := detect_emotion_func text in
  let* prompt_data := generate_image_prompt_func text in
  let* prompt := subscript prompt_data "prompt" in
  let* image_data := generate_image_func prompt in
  let* emotion_v := subscript emotion "emotion" in
  let* prompt_v := subscript prompt_data "prompt" in
  let* image_v := subscript image_data "image" in
  ret (VDict [("transcription", text); ("emotion", emotion_v);
              ("prompt", prompt_v); ("image", image_v)]).

End Backend.
End Backend.

(* ===================================================================== *)
(** * app.py *)
(* ===================================================================== *)

Module App.
Section App.

Variable w : World.

Definition show (x : widget) : M unit := log (Display x).

(** Streamlit's [UploadedFile]. *)
Record uploaded : Type := {
  name : string;
  data : list byte
}.

(** The media type [DummyUploadFile] declares for a file name. *)
Definition media_type (filename : string) : string :=
  let ext := str_lower w (Text.last_segment "." filename) in
  if String.eqb ext "mp3" then "audio/mpeg"
  else if String.eqb ext "wav" then "audio/wav"
  else "application/octet-stream".

(** The object [DummyUploadFile(path)] once built. *)
Definition dummy_file (path : string) : upload_file :=
  {| filename := Text.basename path;
     content_type := media_type (Text.basename path);
     file_read := read path;
     file_close := close path |}.

(** [DummyUploadFile(path)]: the constructor opens the file. *)
Definition DummyUploadFile (path : string) : M upload_file :=
  open_rb path ;;
  ret (dummy_file path).

Definition transcribe_audio_sync (audio_path : string) : M value :=
  let* dummy_file := DummyUploadFile audio_path in
  try_finally
    (Backend.transcribe_audio_func w dummy_file)
    (file_close dummy_file).

Definition detect_emotion_sync (text : value) : M value :=
  Backend.detect_emotion_func w (VPayload text).

Definition generate_image_prompt_sync (text : value) : M value :=
  Backend.generate_image_prompt_func w (VPayload text).

(** The coroutine that [generate_image_func] returns is handed back as it
    is: nothing awaits it, its body does not run. *)
Definition generate_image_sync (prompt : value) : M value :=
  ret VCoroutine.

(** [resp.get(k, default) if isinstance(resp, dict) else otherwise] *)
Definition get_if_dict (resp : value) (k : string) (default otherwise : value)
  : value :=
  match resp with
  | VDict d => dict_get d k default
  | _ => otherwise
  end.

(** [x.lower()] *)
Definition lower (x : value) : M string :=
  match x with
  | VStr s => ret (str_lower w s)
  | _ => raise AttributeError
  end.

Definition emojis : list (string * string) :=
  [("heureux", "😊"); ("stressant", "😰"); ("neutre", "😐");
   ("cauchemar", "😱"); ("étrange", "🌌")].

Definition emoji (emotion : string) : string :=
  match assoc emotion emojis with
  | Some e => e
  | None => "🌙"
  end.

(** Steps 2 to 7, run when the transcription is not empty. *)
Definition after_transcription (transcription_resp transcription : value)
  : M unit :=
  (* 2 *)
  show (Spinner "🎭 Analyse de l’émotion du rêve...") ;;
  let* emotion_resp := detect_emotion_sync transcription in
  let* emotion :=
    match emotion_resp with
    | VDict d => lower (dict_get d "emotion" (VStr ""))
    | _ => ret ""
    end in
  show (Subheader (emoji emotion +:+ " Ambiance du rêve :")) ;;
  show (InfoBox (if String.eqb emotion "" then "Indéterminée"
              else str_capitalize w emotion)) ;;
  (* 3 *)
  show (Spinner "🧠 Génération du prompt onirique...") ;;
  let* prompt_resp := generate_image_prompt_sync transcription in
  let prompt := get_if_dict prompt_resp "prompt" VNone VNone in
  (if truthy prompt then
     show (Subheader "🧾 Prompt généré :") ;; show (Code prompt)
   else show (Warning "Pas de prompt généré.")) ;;
  (* 4 *)
  let* image_data_resp :=
    (if truthy prompt then
       show (Spinner "🖼️ Génération de l’image du rêve...") ;;
       let* image_data_resp := generate_image_sync prompt in
       let image_data := get_if_dict image_data_resp "image" VNone VNone in
       (if truthy image_data then
          show (Subheader "🌌 Image générée :") ;; show (Image image_data)
        else show (Warning "Aucun visuel généré.")) ;;
       ret (Some image_data_resp)
     else ret None) in
  (* 5 *)
  show (DownloadButton transcription) ;;
  (* 6 *)
  (if button w "🔁 Recommencer" then raise RerunException else ret tt) ;;
  (* 7 *)
  if checkbox w "🔍 Voir les réponses brutes (debug)" then
    show (Json [("transcription_response", transcription_resp);
                ("emotion_response", emotion_resp);
                ("prompt_response", prompt_resp);
                ("image_response",
                 match image_data_resp with
                 | Some r => r
                 | None => VDict []
                 end)])
  else ret tt.

(** The body of [if uploaded_file:]. *)
Definition pipeline (uploaded_file : uploaded) : M unit :=
  let suffix := "." +:+ Text.last_segment "." (name uploaded_file) in
  let* audio_path :=
    named_temporary_file w suffix (ret (data uploaded_file)) in
  try_finally
    (try_except
       ((* 1 *)
        show (Spinner "🔤 Transcription du rêve en cours...") ;;
        let* transcription_resp := transcribe_audio_sync audio_path in
        let transcription :=
          get_if_dict transcription_resp "transcription" (VStr "") (VStr "") in
        (if negb (truthy transcription) then
           show (Warning "Aucune transcription détectée.")
         else
           show (Subheader "📝 Rêve transcrit :") ;;
           show (Success transcription)) ;;
        if truthy transcription then
          after_transcription transcription_resp transcription
        else ret tt)
       (fun e => show (ErrorBox e)))
    (let* present := path_exists audio_path in
     if present then
       try_except (log Sleep ;; os_remove audio_path)
                  (fun e => show (RemoveWarning e))
     else ret tt).

End App.
End App.

(* ===================================================================== *)
(** * Reading a run *)
(* ===================================================================== *)

Definition invokes (s : stage) (ev : event) : bool :=
  match ev, s with
  | Invoke Transcriber, Transcriber
  | Invoke EmotionClassifier, EmotionClassifier
  | Invoke PromptGenerator, PromptGenerator
  | Invoke ImageSynthesizer, ImageSynthesizer => true
  | _, _ => false
  end.

(** Was the stage entered during the run that left this trace. *)
Definition invoked (s : stage) (t : list event) : bool := existsb (invokes s) t.

Definition is_upstream_call (ev : event) : bool :=
  match ev with
  | SttPost _ | ChatPost _ | ImagePost _ => true
  | _ => false
  end.

(** The calls made to the upstream services, in order. *)
Definition upstream_calls (t : list event) : list event :=
  List.filter is_upstream_call t.

(** FastAPI's [UploadFile]: the bytes are already in memory. *)
Definition in_memory (filename content_type : string) (data : list byte)
  : upload_file :=
  {| filename := filename; content_type := content_type;
     file_read := ret data; file_close := ret tt |}.

Abbreviation St := Build_State (only parsing).

(** What the Transcriber makes of the speech-to-text response. *)
Definition transcription_of (response : http_response) : result value :=
  if negb (status_code response =? 200) then
    Raise (HTTPException (status_code response) (text response))
  else
    match json response with
    | None => Raise JSONDecodeError
    | Some (VDict d) => Ret (VDict [("transcription", dict_get d "text" (VStr ""))])
    | Some _ => Raise AttributeError
    end.

(** How many times the Groq client sends the request of a call again. *)
Fixpoint groq_retries (w : World) (retries attempt : nat) (rq : chat_request)
  : nat :=
  let response := chat_post w attempt rq in
  if Backend.is_success response then 0%nat
  else
    match retries with
    | S retries' =>
        if chat_should_retry w response
        then S (groq_retries w retries' (S attempt) rq)
        else 0%nat
    | O => 0%nat
    end.

(** The response to the last request of a call. *)
Definition groq_last (w : World) (rq : chat_request) : http_response :=
  chat_post w (groq_retries w Backend.DEFAULT_MAX_RETRIES 0 rq) rq.

(** What a completion stage ends with, after that response. *)
Definition awaited (last : http_response) : exn :=
  if Backend.is_success last then TypeError
  else APIStatusError (status_code last) (text last).

(** What the ImageSynthesizer makes of the text-to-image response. *)
Definition image_of (response : http_response) : result value :=
  if negb (status_code response =? 200) then
    Raise (HTTPException (status_code response) (text response))
  else
    Ret (VDict [("image",
                 VStr ("data:image/png;base64,"
                       +:+ Base64.b64encode (content response)))]).

(** A computation that reads the stores and adds to the trace, and leaves
    the stores, the files and the handles as they are. *)
Definition trace_only {A : Type} (m : M A) : Prop :=
  forall u c e f h t, exists r l, m (St u c e f h t) = (r, St u c e f h (t ++ l)).

(** The file system once [transcribe_audio_func] is done with the copy it
    made of the clip [audio]: the copy is gone, unless [tempfile] gave it the
    name of the clip itself, which is still open then. *)
Definition after_copy (w : World) (audio : string) (data : list byte)
           (f : gmap string (list byte)) : gmap string (list byte) :=
  let tmp := mkstemp w f ".mp3" in
  if String.eqb tmp audio then <[tmp := data]> f else delete tmp (<[tmp := data]> f).

(** What [get_secret(name)] would give in this state. *)
Definition credential (s : State) (name : string) : result string :=
  Backend.resolve (use_streamlit_secrets s) (st_secrets s) (environ s) name.

(** The events a run added to the trace. *)
Definition new_events (before after : State) : list event :=
  drop (length (trace before)) (trace after).

Definition initial (use : bool) (secrets : option (gmap string string))
           (env : gmap string string) : State :=
  {| use_streamlit_secrets := use; st_secrets := secrets; environ := env;
     fs := ∅; handles := []; trace := [] |}.

(* ===================================================================== *)
(** * Sample worlds and states *)
(* ===================================================================== *)


Module Sample.

(** [str.lower] and [str.capitalize] on the ASCII letters. *)
Definition lower_char (c : ascii) : ascii :=
  let n := nat_of_ascii c in
  if (65 <=? n)%nat && (n <=? 90)%nat then ascii_of_nat (n + 32) else c.

Definition upper_char (c : ascii) : ascii :=
  let n := nat_of_ascii c in
  if (97 <=? n)%nat && (n <=? 122)%nat then ascii_of_nat (n - 32) else c.

Definition ascii_lower (s : string) : string :=
  Text.of_chars (map lower_char (Text.chars s)).

Definition ascii_capitalize (s : string) : string :=
  match s with
  | EmptyString => EmptyString
  | String c s' => String (upper_char c) (ascii_lower s')
  end.

Definition ok (body : list (string * value)) : http_response :=
  {| status_code := 200; text := ""; content := []; json := Some (VDict body) |}.

Definition png : list byte := bytes_of_string "PNG!".

Definition image_ok : http_response :=
  {| status_code := 200; text := ""; content := png; json := None |}.

Definition failure (status : Z) (body : string) : http_response :=
  {| status_code := status; text := body;
     content := bytes_of_string body; json := None |}.

(** A completion with one choice. *)
Definition completion (content : string) : http_response :=
  {| status_code := 200; text := ""; content := [];
     json :=
       Some (VDict [("choices",
                     VList [VDict [("message",
                                    VDict [("role", VStr "assistant");
                                           ("content", VStr content)])]])]) |}.

(** The completion service answers the classifier (the request with the
    ceiling of 10 tokens) and the prompt generator differently, and every
    attempt alike. *)
Definition answer (emotion prompt : string) (attempt : nat) (rq : chat_request)
  : http_response :=
  if max_tokens rq =? 10 then completion emotion else completion prompt.

(** The responses the Groq client asks again for, by their status: 408,
    409, 429 and the 5xx. *)
Definition retryable (response : http_response) : bool :=
  (status_code response =? 408) || (status_code response =? 409)
  || (status_code response =? 429) || (500 <=? status_code response).

Definition world (stt : http_response)
           (chat : nat -> chat_request -> http_response)
           (img : http_response) : World :=
  {| stt_post := fun _ => stt;
     chat_post := chat;
     chat_should_retry := retryable;
     image_post := fun _ => img;
     str_lower := ascii_lower;
     str_capitalize := ascii_capitalize;
     mkstemp := fun files suffix =>
                  "/tmp/tmp" +:+ pretty (size files) +:+ suffix;
     button := fun _ => false;
     checkbox := fun _ => false |}.

Definition all_keys : gmap string string :=
  <["OPENAI_API_KEY" := "sk-1"]>
    (<["GROQ_API_KEY" := "gsk-2"]> (<["CLIPDROP_API_KEY" := "cd-3"]> ∅)).

Definition no_clipdrop_key : gmap string string :=
  <["OPENAI_API_KEY" := "sk-1"]> (<["GROQ_API_KEY" := "gsk-2"]> ∅).

(** Every credential in the environment, none in the session store. *)
Definition ready : State := initial true (Some ∅) all_keys.

Definition no_clipdrop : State := initial true (Some ∅) no_clipdrop_key.

Definition no_keys : State := initial true (Some ∅) ∅.

(** Empty values: in the session store, and in the environment. *)
Definition empty_in_session : State :=
  initial true (Some (<["OPENAI_API_KEY" := ""]> ∅)) all_keys.

Definition empty_in_environ : State :=
  initial true (Some ∅) (<["OPENAI_API_KEY" := ""]> ∅).


(** Streamlit is installed and the program runs without a secrets file. *)
Definition no_secrets_file : State := initial true None all_keys.

Definition clip : upload_file :=
  in_memory "reve.mp3" "audio/mpeg" (bytes_of_string "ID3").

Definition upload : App.uploaded :=
  {| App.name := "reve.mp3"; App.data := bytes_of_string "ID3" |}.

(** The speech-to-text service hears nothing. *)
Definition silent : World :=
  world (ok [("text", VStr "")]) (answer " Neutre " " une ville ") image_ok.

Definition dream : string := "Je volais au-dessus d'une ville en feu".

Definition nightmare : World :=
  world (ok [("text", VStr dream)])
        (answer (" Cauchemar" +:+ nl) "  une ville en flammes vue du ciel ")
        image_ok.

End Sample.


(* ===================================================================== *)
(** * The rest of backend.py: the Mistral prompt generator, the endpoints *)
(* ===================================================================== *)

Module Api.
Section Api.

Variable w : World.

(** [client.chat.completions.create], [client] being [Mistral(api_key=...)]:
    the chat resource of that client has [complete] and [stream], and no
    [completions].  The attribute lookup fails, before the call is made and
    before any request is sent. *)
Definition mistral_completions_create (rq : chat_request)
  : M (list (option string)) :=
  raise AttributeError.

Definition mistral_instruction : string :=
  "Tu es un assistant qui transforme des rêves en prompts artistiques pour la génération d’images oniriques. "
  +:+ "Utilise un français visuel, poétique et concis." +:+ nl
  +:+ "Voici le rêve :" +:+ nl.

Definition mistral_request (api_key prompt : string) : chat_request :=
  {| chat_api_key := api_key;
     model := "mistral-tiny";
     messages :=
       [("system", "Assistant pour transformer des rêves en prompts artistiques.");
        ("user", prompt)];
     max_tokens := 60;
     temperature := 7 # 10 |}.

Definition generate_mistral_prompt_func (text : value) : M value :=
  let* api_key := Backend.get_secret "MISTRAL_API_KEY" in
  let* prompt := str_add mistral_instruction text in
  let* choices := mistral_completions_create (mistral_request api_key prompt) in
  let* content := Backend.first_content choices in
  ret (VDict [("prompt", VStr (Text.strip content))]).

(** The request bodies FastAPI validates before it calls an endpoint. *)
Record TextPayload : Type := { payload_text : string }.
Record PromptPayload : Type := { payload_prompt : string }.

(** [POST /transcribe-audio] *)
Definition transcribe_audio (file : upload_file) : M value :=
  Backend.transcribe_audio_func w file.

(** [POST /analyze-emotion] *)
Definition analyze_emotion (payload : TextPayload) : M value :=
  Backend.detect_emotion_func w (VStr (payload_text payload)).

(** [POST /generate-image-prompt] *)
Definition generate_prompt (payload : TextPayload) : M value :=
  Backend.generate_image_prompt_func w (VStr (payload_text payload)).

(** [POST /generate-image] *)
Definition generate_image (payload : PromptPayload) : M value :=
  Backend.generate_image_func w (VStr (payload_prompt payload)).

(** [POST /generate-mistral-prompt] *)
Definition mistral_prompt (payload : TextPayload) : M value :=
  generate_mistral_prompt_func (VStr (payload_text payload)).

End Api.
End Api.

(* ===================================================================== *)
(** * Reading more of a run *)
(* ===================================================================== *)

(** A computation whose outcome is a function of the credential stores (and
    of the world), and which leaves these stores as they are: the files
    present, the open handles and the history do not matter. *)
Definition stateless {A : Type} (m : M A) : Prop :=
  forall u c e, exists r,
    forall f h t, exists f' h' t', m (St u c e f h t) = (r, St u c e f' h' t').

Definition is_stt_post (ev : event) : bool :=
  match ev with
  | SttPost _ => true
  | _ => false
  end.

(** A character of the base64 alphabet, or the padding. *)
Definition b64_character (c : ascii) : Prop :=
  Base64.decode_sextet c <> None \/ c = Base64.pad.

(** The events of a run of the orchestrator of [/dream-to-image] that went
    no further than the EmotionClassifier: it stopped at the key of the
    Transcriber, or at the answer of the speech-to-text service, or in the
    EmotionClassifier, whose client sent its request [n] times. *)
Definition up_to_the_classifier (l : list event) : Prop :=
  l = [Invoke Transcriber; Resolve "OPENAI_API_KEY"]
  \/ (exists rq1, l = [Invoke Transcriber; Resolve "OPENAI_API_KEY"; SttPost rq1])
  \/ (exists rq1 rq2 n,
        l = [Invoke Transcriber; Resolve "OPENAI_API_KEY"; SttPost rq1;
             Invoke EmotionClassifier; Resolve "GROQ_API_KEY"]
            ++ repeat (ChatPost rq2) n).

(** Two states with the same credential stores. *)
Definition same_stores (s1 s2 : State) : Prop :=
  use_streamlit_secrets s1 = use_streamlit_secrets s2
  /\ st_secrets s1 = st_secrets s2
  /\ environ s1 = environ s2.

(** What the pipeline of [app.py] shows and does between its first spinner
    and its cleanup, read off the credentials and the answer of the
    speech-to-text service. *)
Definition pipeline_steps (w : World) (audio : string) (data : list byte)
           (u : bool) (c : option (gmap string string))
           (e : gmap string string) : list event :=
  match Backend.resolve u c e "OPENAI_API_KEY" with
  | Raise x =>
      [Invoke Transcriber; Resolve "OPENAI_API_KEY"; Display (ErrorBox x)]
  | Ret k =>
      let rq := Backend.stt_request_of k
                  (Text.basename audio, data,
                   App.media_type w (Text.basename audio)) in
      [Invoke Transcriber; Resolve "OPENAI_API_KEY"; SttPost rq]
      ++ match transcription_of (stt_post w rq) with
         | Raise x => [Display (ErrorBox x)]
         | Ret resp =>
             let transcription :=
               App.get_if_dict resp "transcription" (VStr "") (VStr "") in
             if truthy transcription then
               [Display (Subheader "📝 Rêve transcrit :");
                Display (Success transcription);
                Display (Spinner "🎭 Analyse de l’émotion du rêve...");
                Invoke EmotionClassifier; Resolve "GROQ_API_KEY";
                Display (ErrorBox
                           match Backend.resolve u c e "GROQ_API_KEY" with
                           | Ret _ => TypeError
                           | Raise x => x
                           end)]
             else [Display (Warning "Aucune transcription détectée.")]
         end
  end.

Module Sample2.

Definition with_mistral_key : State :=
  initial true (Some ∅) (<["MISTRAL_API_KEY" := "mk-4"]> ∅).

(** The speech-to-text service answers with a null text. *)
Definition null_text : World :=
  Sample.world (Sample.ok [("text", VNone)])
               (Sample.answer "neutre" "une ville") Sample.image_ok.

(** The speech-to-text service is over quota. *)
Definition over_quota : World :=
  Sample.world (Sample.failure 429 "quota")
               (Sample.answer "neutre" "une ville") Sample.image_ok.

(** The completion service is down, and stays so. *)
Definition chat_down : World :=
  Sample.world (Sample.ok [("text", VStr Sample.dream)])
               (fun _ _ => Sample.failure 503 "down") Sample.image_ok.

(** The completion service fails each attempt in a different way. *)
Definition chat_degrades : World :=
  Sample.world (Sample.ok [("text", VStr Sample.dream)])
               (fun attempt _ =>
                  match attempt with
                  | O => Sample.failure 503 "down"
                  | S O => Sample.failure 429 "slow down"
                  | _ => Sample.failure 500 "broken"
                  end)
               Sample.image_ok.

(** The completion service refuses the key. *)
Definition chat_refuses : World :=
  Sample.world (Sample.ok [("text", VStr Sample.dream)])
               (fun _ _ => Sample.failure 401 "invalid api key")
               Sample.image_ok.

(** A state in which a file object is open on the name [tempfile] is about
    to give to the copy of the Transcriber. *)
Definition busy : State :=
  {| use_streamlit_secrets := true; st_secrets := Some ∅;
     environ := Sample.all_keys;
     fs := <["/tmp/tmp1.mp3" := []]> (<["/tmp/other" := []]> ∅);
     handles := ["/tmp/tmp2.mp3"]; trace := [] |}.

(** Only the speech-to-text key is set. *)
Definition only_openai : State :=
  initial true (Some ∅) (<["OPENAI_API_KEY" := "sk-1"]> ∅).

End Sample2.

(* ===================================================================== *)
(** * Sanity checks of the text and base64 models *)
(* ===================================================================== *)

Example strip_example :
  Text.strip (" " +:+ nl +:+ "Cauchemar " +:+ nl) = "Cauchemar".
Proof. reflexivity. Qed.

(** A no-break space (U+00A0) and an ideographic space (U+3000) are
    stripped; an accented letter at the end is kept. *)
Example strip_unicode_example :
  Text.strip (Text.of_chars [Text.ch 227; Text.ch 128; Text.ch 128]
              +:+ "étrangé"
              +:+ Text.of_chars [Text.ch 194; Text.ch 160; Text.ch 32])
  = "étrangé".
Proof. reflexivity. Qed.

Example strip_blank_example :
  Text.strip ("  " +:+ nl) = "" /\ Text.strip "" = "".
Proof. split; reflexivity. Qed.

Example media_type_example :
  map (App.media_type Sample.silent) ["reve.MP3"; "reve.wav"; "reve"]
  = ["audio/mpeg"; "audio/wav"; "application/octet-stream"].
Proof. reflexivity. Qed.

Example b64_rfc4648_vectors :
  map (fun s => Base64.b64encode (bytes_of_string s))
      [""; "f"; "fo"; "foo"; "foob"; "fooba"; "foobar"]
  = [""; "Zg=="; "Zm8="; "Zm9v"; "Zm9vYg=="; "Zm9vYmE="; "Zm9vYmFy"].
Proof. reflexivity. Qed.

Example b64_decode_vectors :
  map Base64.b64decode ["Zg=="; "Zm8="; "Zm9vYmFy"; "Zm9"; "Z=9v"]
  = [Some (bytes_of_string "f"); Some (bytes_of_string "fo");
     Some (bytes_of_string "foobar"); None; None].
Proof. reflexivity. Qed.

(* ===================================================================== *)
(** * Base64 decoding inverts encoding *)
(* ===================================================================== *)

Section ListInd3.
Context {A : Type} (P : list A -> Prop).
Hypothesis P0 : P [].
Hypothesis P1 : forall x, P [x].
Hypothesis P2 : forall x y, P [x; y].
Hypothesis P3 : forall x y z l, P l -> P (x :: y :: z :: l).

Lemma list_ind3 : forall l, P l.
Proof.
  fix IH 1. intros [|x [|y [|z l]]].
  - exact P0.
  - apply P1.
  - apply P2.
  - apply P3, IH.
Qed.
End ListInd3.

Lemma decode_encode_sextet (s : Base64.sextet) :
  Base64.decode_sextet (Base64.encode_sextet s) = Some s.
Proof.
  destruct s as [[[[[b5 b4] b3] b2] b1] b0].
  destruct b5, b4, b3, b2, b1, b0; reflexivity.
Qed.

Lemma encode_sextet_not_pad (s : Base64.sextet) :
  Ascii.eqb (Base64.encode_sextet s) Base64.pad = false.
Proof.
  destruct s as [[[[[b5 b4] b3] b2] b1] b0].
  destruct b5, b4, b3, b2, b1, b0; reflexivity.
Qed.

Lemma bytes3_sextets3 (x y z : byte) s0 s1 s2 s3 :
  Base64.sextets3 x y z = (s0, s1, s2, s3) ->
  Base64.bytes3 s0 s1 s2 s3 = (x, y, z).
Proof.
  unfold Base64.sextets3.
  destruct (to_bits x) as (x0 & x1 & x2 & x3 & x4 & x5 & x6 & x7) eqn:Ex.
  destruct (to_bits y) as (y0 & y1 & y2 & y3 & y4 & y5 & y6 & y7) eqn:Ey.
  destruct (to_bits z) as (z0 & z1 & z2 & z3 & z4 & z5 & z6 & z7) eqn:Ez.
  intros E. injection E as <- <- <- <-.
  unfold Base64.bytes3.
  rewrite <- Ex, <- Ey, <- Ez, !of_bits_to_bits. reflexivity.
Qed.

(** A last group of two bytes: the two bits completing the third sextet are
    zero, as the decoder assumes. *)
Lemma bytes3_sextets3_two (x y : byte) s0 s1 s2 s3 :
  Base64.sextets3 x y "000"%byte = (s0, s1, s2, s3) ->
  exists z, Base64.bytes3 s0 s1 s2 Base64.zero6 = (x, y, z).
Proof.
  unfold Base64.sextets3.
  destruct (to_bits x) as (x0 & x1 & x2 & x3 & x4 & x5 & x6 & x7) eqn:Ex.
  destruct (to_bits y) as (y0 & y1 & y2 & y3 & y4 & y5 & y6 & y7) eqn:Ey.
  cbn [to_bits]. intros E. injection E as <- <- <- <-.
  unfold Base64.bytes3, Base64.zero6.
  rewrite <- Ex, <- Ey, !of_bits_to_bits. eauto.
Qed.

Lemma bytes3_sextets3_one (x : byte) s0 s1 s2 s3 :
  Base64.sextets3 x "000"%byte "000"%byte = (s0, s1, s2, s3) ->
  exists y z, Base64.bytes3 s0 s1 Base64.zero6 Base64.zero6 = (x, y, z).
Proof.
  unfold Base64.sextets3.
  destruct (to_bits x) as (x0 & x1 & x2 & x3 & x4 & x5 & x6 & x7) eqn:Ex.
  cbn [to_bits]. intros E. injection E as <- <- <- <-.
  unfold Base64.bytes3, Base64.zero6.
  rewrite <- Ex, !of_bits_to_bits. eauto.
Qed.

Lemma b64decode_group c0 c1 c2 c3 rest :
  Base64.b64decode (String c0 (String c1 (String c2 (String c3 rest)))) =
  match Base64.decode_sextet c0, Base64.decode_sextet c1 with
  | Some s0, Some s1 =>
      if Ascii.eqb c3 Base64.pad then
        match rest with
        | EmptyString =>
            if Ascii.eqb c2 Base64.pad then
              let '(x, _, _) := Base64.bytes3 s0 s1 Base64.zero6 Base64.zero6 in
              Some [x]
            else
              match Base64.decode_sextet c2 with
              | Some s2 =>
                  let '(x, y, _) := Base64.bytes3 s0 s1 s2 Base64.zero6 in
                  Some [x; y]
              | None => None
              end
        | String _ _ => None
        end
      else
        match Base64.decode_sextet c2, Base64.decode_sextet c3,
              Base64.b64decode rest with
        | Some s2, Some s3, Some tl =>
            let '(x, y, z) := Base64.bytes3 s0 s1 s2 s3 in
            Some (x :: y :: z :: tl)
        | _, _, _ => None
        end
  | _, _ => None
  end.
Proof. reflexivity. Qed.

Lemma b64decode_b64encode (data : list byte) :
  Base64.b64decode (Base64.b64encode data) = Some data.
Proof.
  induction data as [|x|x y|x y z rest IH] using list_ind3.
  - reflexivity.
  - cbn [Base64.b64encode].
    destruct (Base64.sextets3 x "000" "000") as [[[s0 s1] s2] s3] eqn:E.
    destruct (bytes3_sextets3_one _ _ _ _ _ E) as (y & z & Hb).
    rewrite b64decode_group, !decode_encode_sextet, Hb.
    reflexivity.
  - cbn [Base64.b64encode].
    destruct (Base64.sextets3 x y "000") as [[[s0 s1] s2] s3] eqn:E.
    destruct (bytes3_sextets3_two _ _ _ _ _ _ E) as (z & Hb).
    rewrite b64decode_group, !decode_encode_sextet, encode_sextet_not_pad, Hb.
    reflexivity.
  - cbn [Base64.b64encode].
    destruct (Base64.sextets3 x y z) as [[[s0 s1] s2] s3] eqn:E.
    rewrite b64decode_group, !decode_encode_sextet, encode_sextet_not_pad.
    rewrite IH, (bytes3_sextets3 _ _ _ _ _ _ _ E).
    reflexivity.
Qed.

Lemma strip_prefix_app (p s : string) :
  Base64.strip_prefix p (p +:+ s) = Some s.
Proof.
  induction p as [|a p IH]; [reflexivity|].
  change (String a p +:+ s) with (String a (p +:+ s)).
  cbn [Base64.strip_prefix]. rewrite Ascii.eqb_refl. exact IH.
Qed.

Lemma decode_data_uri_b64encode (data : list byte) :
  Base64.decode_data_uri (Base64.data_uri_prefix +:+ Base64.b64encode data)
  = Some data.
Proof.
  unfold Base64.decode_data_uri, Base64.data_uri_payload.
  rewrite strip_prefix_app. apply b64decode_b64encode.
Qed.

(* ===================================================================== *)
(** * Running the primitives *)
(* ===================================================================== *)

Lemma remove_first_head (p : string) (l : list string) :
  remove_first p (p :: l) = l.
Proof. unfold remove_first. rewrite String.eqb_refl. reflexivity. Qed.

Lemma bind_eq {A B} (m : M A) (k : A -> M B) (s : State) :
  bind m k s = match m s with
               | (Ret a, s') => k a s'
               | (Raise e, s') => (Raise e, s')
               end.
Proof. reflexivity. Qed.

Lemma try_finally_eq {A} (body : M A) (cleanup : M unit) (s : State) :
  try_finally body cleanup s =
  let '(r, s1) := body s in
  match cleanup s1 with
  | (Ret _, s2) => (r, s2)
  | (Raise e, s2) => (Raise e, s2)
  end.
Proof. reflexivity. Qed.

Lemma try_except_eq {A} (body : M A) (handler : exn -> M A) (s : State) :
  try_except body handler s =
  match body s with
  | (Raise e, s1) => if is_Exception e then handler e s1 else (Raise e, s1)
  | r => r
  end.
Proof. reflexivity. Qed.

Section Primitives.
Variables (u : bool) (c : option (gmap string string)) (e : gmap string string).
Variables (f : gmap string (list byte)) (h : list string) (t : list event).

Lemma log_run ev : log ev (St u c e f h t) = (Ret tt, St u c e f h (t ++ [ev])).
Proof. reflexivity. Qed.

Lemma get_secret_run name :
  Backend.get_secret name (St u c e f h t)
  = (Backend.resolve u c e name, St u c e f h (t ++ [Resolve name])).
Proof. reflexivity. Qed.

Lemma named_temporary_file_run w suffix data :
  named_temporary_file w suffix (ret data) (St u c e f h t)
  = (Ret (mkstemp w f suffix),
     St u c e (<[mkstemp w f suffix := data]> f) h t).
Proof.
  unfold named_temporary_file, try_finally, write, close, modify,
    get_state, ret, with_fs, with_handles, bind.
  cbn [fs handles trace use_streamlit_secrets st_secrets environ].
  rewrite insert_insert_eq, remove_first_head. reflexivity.
Qed.

(** [with open(path, "rb") as f: f.read()] *)
Lemma read_back_run path data :
  f !! path = Some data ->
  bind (open_rb path) (fun _ => try_finally (read path) (close path))
       (St u c e f h t)
  = (Ret data, St u c e f h t).
Proof.
  intros Hf.
  unfold try_finally, open_rb, read, close, modify, get_state, ret,
    with_handles, bind.
  cbn [fs handles trace use_streamlit_secrets st_secrets environ].
  rewrite Hf.
  cbn [fs handles trace use_streamlit_secrets st_secrets environ].
  rewrite Hf.
  cbn [fs handles trace use_streamlit_secrets st_secrets environ].
  rewrite remove_first_head. reflexivity.
Qed.

Lemma os_remove_run path data :
  f !! path = Some data ->
  os_remove path (St u c e f h t)
  = if is_open path h then (Raise (PermissionError path), St u c e f h t)
    else (Ret tt, St u c e (delete path f) h t).
Proof.
  intros Hf. unfold os_remove, get_state, modify, raise, with_fs, bind.
  cbn [fs handles trace use_streamlit_secrets st_secrets environ].
  rewrite Hf. destruct (is_open path h); reflexivity.
Qed.

Lemma os_remove_absent path :
  f !! path = None ->
  os_remove path (St u c e f h t) = (Raise (FileNotFoundError path), St u c e f h t).
Proof.
  intros Hf. unfold os_remove, get_state, raise, bind.
  cbn [fs]. rewrite Hf. reflexivity.
Qed.

End Primitives.

Lemma transcription_of_run (response : http_response) (s : State) :
  (if negb (status_code response =? 200) then
     raise (HTTPException (status_code response) (text response))
   else
     match json response with
     | None => raise JSONDecodeError
     | Some (VDict d) =>
         ret (VDict [("transcription", dict_get d "text" (VStr ""))])
     | Some _ => raise AttributeError
     end) s
  = (transcription_of response, s).
Proof.
  unfold transcription_of.
  destruct (status_code response =? 200); [|reflexivity].
  destruct (json response) as [[]|]; reflexivity.
Qed.

Lemma transcribe_run (w : World) (file : upload_file) (data : list byte)
      u c e f h t k :
  Backend.resolve u c e "OPENAI_API_KEY" = Ret k ->
  (forall t', file_read file (St u c e f h t') = (Ret data, St u c e f h t')) ->
  let tmp := mkstemp w f ".mp3" in
  let rq := Backend.stt_request_of k (filename file, data, content_type file) in
  Backend.transcribe_audio_func w file (St u c e f h t)
  = (transcription_of (stt_post w rq),
     St u c e (if is_open tmp h then <[tmp := data]> f
               else delete tmp (<[tmp := data]> f)) h
        (t ++ [Invoke Transcriber; Resolve "OPENAI_API_KEY"; SttPost rq])).
Proof.
  intros Hk Hread tmp rq.
  unfold Backend.transcribe_audio_func.
  rewrite bind_eq, log_run.
  rewrite bind_eq, get_secret_run, Hk.
  rewrite bind_eq, Hread.
  rewrite bind_eq, named_temporary_file_run. fold tmp.
  rewrite try_finally_eq.
  rewrite bind_eq, (read_back_run _ _ _ _ _ _ _ data) by apply lookup_insert_eq.
  rewrite bind_eq, log_run. fold rq.
  rewrite transcription_of_run.
  rewrite try_except_eq, (os_remove_run _ _ _ _ _ _ _ data) by apply lookup_insert_eq.
  rewrite <- !app_assoc. cbn [app].
  destruct (is_open tmp h); reflexivity.
Qed.

Lemma transcribe_run_missing (w : World) (file : upload_file) u c e f h t x :
  Backend.resolve u c e "OPENAI_API_KEY" = Raise x ->
  Backend.transcribe_audio_func w file (St u c e f h t)
  = (Raise x, St u c e f h (t ++ [Invoke Transcriber; Resolve "OPENAI_API_KEY"])).
Proof.
  intros Hk. unfold Backend.transcribe_audio_func.
  rewrite bind_eq, log_run.
  rewrite bind_eq, get_secret_run, Hk.
  rewrite <- !app_assoc. reflexivity.
Qed.

(** The call of the Groq client: the request goes out once, and once more
    for each retry; the outcome is read off the last response. *)
Lemma groq_create_run (w : World) (rq : chat_request) u c e f h retries :
  forall attempt t,
    Backend.groq_create w retries attempt rq (St u c e f h t)
    = (let last := chat_post w (groq_retries w retries attempt rq + attempt) rq in
       if Backend.is_success last then Ret (Backend.choices_of last)
       else Raise (APIStatusError (status_code last) (text last)),
       St u c e f h
          (t ++ repeat (ChatPost rq) (S (groq_retries w retries attempt rq)))).
Proof.
  induction retries as [|retries IH]; intros attempt t.
  - cbn [Backend.groq_create groq_retries].
    rewrite bind_eq, log_run.
    destruct (Backend.is_success (chat_post w attempt rq)) eqn:Hs;
      cbn [Nat.add repeat]; rewrite ?Hs; reflexivity.
  - cbn [Backend.groq_create groq_retries].
    rewrite bind_eq, log_run.
    destruct (Backend.is_success (chat_post w attempt rq)) eqn:Hs.
    + cbn [Nat.add repeat]. rewrite Hs. reflexivity.
    + destruct (chat_should_retry w (chat_post w attempt rq)).
      * rewrite IH. rewrite <- app_assoc.
        replace (groq_retries w retries (S attempt) rq + S attempt)%nat
          with (S (groq_retries w retries (S attempt) rq) + attempt)%nat by lia.
        reflexivity.
      * cbn [Nat.add repeat]. rewrite Hs. reflexivity.
Qed.

Lemma groq_retries_bound (w : World) (rq : chat_request) retries :
  forall attempt, (groq_retries w retries attempt rq <= retries)%nat.
Proof.
  induction retries as [|retries IH]; intros attempt; cbn [groq_retries].
  - destruct (Backend.is_success _); lia.
  - destruct (Backend.is_success _); [lia|].
    destruct (chat_should_retry w _); [|lia].
    specialize (IH (S attempt)). lia.
Qed.

(** [await client.chat.completions.create(...)] never gives a completion:
    the client's status error, or the [TypeError] of the [await]. *)
Lemma chat_completions_create_run (w : World) (rq : chat_request) u c e f h t :
  Backend.chat_completions_create w rq (St u c e f h t)
  = (Raise (awaited (groq_last w rq)),
     St u c e f h
        (t ++ repeat (ChatPost rq)
                (S (groq_retries w Backend.DEFAULT_MAX_RETRIES 0 rq)))).
Proof.
  unfold Backend.chat_completions_create.
  rewrite bind_eq, groq_create_run. cbn zeta.
  rewrite Nat.add_0_r. unfold awaited, groq_last.
  destruct (Backend.is_success _); reflexivity.
Qed.

Lemma chat_stage_run {B} (w : World) (rq : chat_request)
      (k : list (option string) -> M B) u c e f h t :
  bind (Backend.chat_completions_create w rq) k (St u c e f h t)
  = (Raise (awaited (groq_last w rq)),
     St u c e f h
        (t ++ repeat (ChatPost rq)
                (S (groq_retries w Backend.DEFAULT_MAX_RETRIES 0 rq)))).
Proof. rewrite bind_eq, chat_completions_create_run. reflexivity. Qed.

Lemma detect_emotion_run (w : World) (text : string) u c e f h t k :
  Backend.resolve u c e "GROQ_API_KEY" = Ret k ->
  let rq := Backend.emotion_request k (Backend.emotion_instruction +:+ text) in
  Backend.detect_emotion_func w (VStr text) (St u c e f h t)
  = (Raise (awaited (groq_last w rq)),
     St u c e f h
        (t ++ [Invoke EmotionClassifier; Resolve "GROQ_API_KEY"]
           ++ repeat (ChatPost rq)
                (S (groq_retries w Backend.DEFAULT_MAX_RETRIES 0 rq)))).
Proof.
  intros Hk rq. unfold Backend.detect_emotion_func.
  rewrite bind_eq, log_run.
  rewrite bind_eq, get_secret_run, Hk.
  rewrite bind_eq. cbn [str_add ret]. fold rq.
  rewrite chat_stage_run.
  rewrite <- !app_assoc. reflexivity.
Qed.

Lemma generate_image_prompt_run (w : World) (text : string) u c e f h t k :
  Backend.resolve u c e "GROQ_API_KEY" = Ret k ->
  let rq := Backend.image_prompt_request k
              (Backend.image_prompt_instruction +:+ text) in
  Backend.generate_image_prompt_func w (VStr text) (St u c e f h t)
  = (Raise (awaited (groq_last w rq)),
     St u c e f h
        (t ++ [Invoke PromptGenerator; Resolve "GROQ_API_KEY"]
           ++ repeat (ChatPost rq)
                (S (groq_retries w Backend.DEFAULT_MAX_RETRIES 0 rq)))).
Proof.
  intros Hk rq. unfold Backend.generate_image_prompt_func.
  rewrite bind_eq, log_run.
  rewrite bind_eq, get_secret_run, Hk.
  rewrite bind_eq. cbn [str_add ret]. fold rq.
  rewrite chat_stage_run.
  rewrite <- !app_assoc. reflexivity.
Qed.

(** Anything but a [str] stops a completion stage at the concatenation, and
    a missing credential stops it before. *)
Lemma detect_emotion_stops (w : World) (text : value) u c e f h t :
  (forall x, text <> VStr x) ->
  Backend.detect_emotion_func w text (St u c e f h t)
  = (match Backend.resolve u c e "GROQ_API_KEY" with
     | Ret _ => Raise TypeError
     | Raise x => Raise x
     end,
     St u c e f h (t ++ [Invoke EmotionClassifier; Resolve "GROQ_API_KEY"])).
Proof.
  intros Htext. unfold Backend.detect_emotion_func.
  rewrite bind_eq, log_run.
  rewrite bind_eq, get_secret_run, <- !app_assoc.
  destruct (Backend.resolve u c e "GROQ_API_KEY") as [k|x]; [|reflexivity].
  rewrite bind_eq.
  destruct text; try reflexivity. now destruct (Htext s).
Qed.

Lemma stage_missing_emotion (w : World) (text : value) u c e f h t x :
  Backend.resolve u c e "GROQ_API_KEY" = Raise x ->
  Backend.detect_emotion_func w text (St u c e f h t)
  = (Raise x,
     St u c e f h (t ++ [Invoke EmotionClassifier; Resolve "GROQ_API_KEY"])).
Proof.
  intros Hk. unfold Backend.detect_emotion_func.
  rewrite bind_eq, log_run.
  rewrite bind_eq, get_secret_run, <- !app_assoc, Hk. reflexivity.
Qed.

Lemma generate_image_run (w : World) (prompt : string) u c e f h t k :
  Backend.resolve u c e "CLIPDROP_API_KEY" = Ret k ->
  let rq := Backend.image_request_of k (VStr prompt) in
  Backend.generate_image_func w (VStr prompt) (St u c e f h t)
  = (image_of (image_post w rq),
     St u c e f h
        (t ++ [Invoke ImageSynthesizer; Resolve "CLIPDROP_API_KEY"; ImagePost rq])).
Proof.
  intros Hk rq. unfold Backend.generate_image_func.
  rewrite bind_eq, log_run.
  rewrite bind_eq, get_secret_run, Hk.
  cbn [json_serializable negb]. fold rq.
  rewrite bind_eq, log_run, <- !app_assoc.
  unfold image_of.
  destruct (negb (status_code (image_post w rq) =? 200)); reflexivity.
Qed.

Lemma generate_image_missing (w : World) (prompt : value) u c e f h t x :
  Backend.resolve u c e "CLIPDROP_API_KEY" = Raise x ->
  Backend.generate_image_func w prompt (St u c e f h t)
  = (Raise x,
     St u c e f h (t ++ [Invoke ImageSynthesizer; Resolve "CLIPDROP_API_KEY"])).
Proof.
  intros Hk. unfold Backend.generate_image_func.
  rewrite bind_eq, log_run.
  rewrite bind_eq, get_secret_run, <- !app_assoc, Hk. reflexivity.
Qed.

Lemma new_events_app u c e f h t u' c' e' f' h' (l : list event) :
  new_events (St u c e f h t) (St u' c' e' f' h' (t ++ l)) = l.
Proof. unfold new_events. cbn [trace]. apply drop_app_length. Qed.

(** The retries of a call, read off the responses: each response before the
    last is a failure the client asks again for, and the last is a success,
    or a failure it does not ask again for, or the answer to the last
    retry. *)
Lemma groq_retries_eq (w : World) (rq : chat_request) retries :
  forall attempt n,
    (n <= retries)%nat ->
    (forall i, (i < n)%nat ->
               Backend.is_success (chat_post w (i + attempt) rq) = false
               /\ chat_should_retry w (chat_post w (i + attempt) rq) = true) ->
    (Backend.is_success (chat_post w (n + attempt) rq) = true
     \/ n = retries
     \/ chat_should_retry w (chat_post w (n + attempt) rq) = false) ->
    groq_retries w retries attempt rq = n.
Proof.
  induction retries as [|retries IH]; intros attempt n Hn Hbefore Hlast;
    cbn [groq_retries].
  - destruct (Backend.is_success (chat_post w attempt rq)); lia.
  - destruct n as [|n].
    + cbn [Nat.add] in Hlast.
      destruct Hlast as [-> | [Hl | Hl]]; [reflexivity | lia |].
      rewrite Hl. now destruct (Backend.is_success (chat_post w attempt rq)).
    + destruct (Hbefore 0%nat ltac:(lia)) as [Hs Hr].
      cbn [Nat.add] in Hs, Hr. rewrite Hs, Hr. f_equal.
      apply IH; [lia | |].
      * intros i Hi. replace (i + S attempt)%nat with (S i + attempt)%nat by lia.
        apply Hbefore. lia.
      * replace (n + S attempt)%nat with (S n + attempt)%nat by lia.
        destruct Hlast as [Hl | [Hl | Hl]];
          [left; exact Hl | right; left; lia | right; right; exact Hl].
Qed.

(** The same, for the call a completion stage makes. *)
Lemma groq_call_retries (w : World) (rq : chat_request) (n : nat) :
  (n <= 2)%nat ->
  (forall i, (i < n)%nat ->
             Backend.is_success (chat_post w i rq) = false
             /\ chat_should_retry w (chat_post w i rq) = true) ->
  (Backend.is_success (chat_post w n rq) = true
   \/ n = 2%nat
   \/ chat_should_retry w (chat_post w n rq) = false) ->
  groq_retries w Backend.DEFAULT_MAX_RETRIES 0 rq = n.
Proof.
  intros Hn Hbefore Hlast. apply groq_retries_eq.
  - exact Hn.
  - intros i Hi. rewrite Nat.add_0_r. now apply Hbefore.
  - rewrite Nat.add_0_r. exact Hlast.
Qed.

Lemma upstream_calls_chat_posts (rq : chat_request) (n : nat) :
  upstream_calls (repeat (ChatPost rq) n) = repeat (ChatPost rq) n.
Proof.
  induction n as [|n IH]; [reflexivity|].
  cbn [repeat]. unfold upstream_calls in *. cbn [List.filter is_upstream_call].
  now rewrite IH.
Qed.

Lemma upstream_calls_app (l1 l2 : list event) :
  upstream_calls (l1 ++ l2) = upstream_calls l1 ++ upstream_calls l2.
Proof. apply List.filter_app. Qed.

Lemma invoked_chat_posts (st : stage) (rq : chat_request) (n : nat) :
  invoked st (repeat (ChatPost rq) n) = false.
Proof.
  induction n as [|n IH]; [reflexivity|].
  cbn [repeat]. unfold invoked in *. cbn [existsb invokes]. exact IH.
Qed.

Lemma generate_image_prompt_stops (w : World) (text : value) u c e f h t :
  (forall x, text <> VStr x) ->
  Backend.generate_image_prompt_func w text (St u c e f h t)
  = (match Backend.resolve u c e "GROQ_API_KEY" with
     | Ret _ => Raise TypeError
     | Raise x => Raise x
     end,
     St u c e f h (t ++ [Invoke PromptGenerator; Resolve "GROQ_API_KEY"])).
Proof.
  intros Htext. unfold Backend.generate_image_prompt_func.
  rewrite bind_eq, log_run.
  rewrite bind_eq, get_secret_run, <- !app_assoc.
  destruct (Backend.resolve u c e "GROQ_API_KEY") as [k|x]; [|reflexivity].
  rewrite bind_eq.
  destruct text; try reflexivity. now destruct (Htext s).
Qed.

Lemma generate_image_prompt_missing (w : World) (text : value) u c e f h t x :
  Backend.resolve u c e "GROQ_API_KEY" = Raise x ->
  Backend.generate_image_prompt_func w text (St u c e f h t)
  = (Raise x,
     St u c e f h (t ++ [Invoke PromptGenerator; Resolve "GROQ_API_KEY"])).
Proof.
  intros Hk. unfold Backend.generate_image_prompt_func.
  rewrite bind_eq, log_run.
  rewrite bind_eq, get_secret_run, <- !app_assoc, Hk. reflexivity.
Qed.

(* ===================================================================== *)
(** * The secret resolver *)
(* ===================================================================== *)

(** The resolver raises nothing that [except Exception] would let through. *)
Lemma resolve_raises_exception u c e name x :
  Backend.resolve u c e name = Raise x -> is_Exception x = true.
Proof.
  unfold Backend.resolve, Backend.from_environ.
  destruct u; [destruct c as [m|]; [destruct (m !! name)|]|];
    try destruct (e !! name) as [v|]; cbn [Backend.not_value];
    try destruct (String.eqb v ""); intros [= <-]; reflexivity.
Qed.


Lemma from_environ_raise e name :
  e !! name = None \/ e !! name = Some "" ->
  Backend.from_environ e name = Raise (Backend.missing name).
Proof.
  intros He. unfold Backend.from_environ.
  destruct He as [-> | ->]; reflexivity.
Qed.

(** The environment is what the resolver reads when Streamlit is not there,
    and when its store can be read and does not hold the name. *)
Lemma resolve_from_environ u c e name :
  u = false \/ (exists m, c = Some m /\ m !! name = None) ->
  Backend.resolve u c e name = Backend.from_environ e name.
Proof.
  unfold Backend.resolve.
  intros [-> | [m [-> Hm]]]; [reflexivity|].
  rewrite Hm. now destruct u.
Qed.




(** C10: an empty value in the session store is returned as it is; an empty
    value in the environment is rejected.  The hypotheses say what the
    lookup in the session store answered: the name bound to the empty
    string, or, the store being out of use or read, no such name. *)
Theorem C10_emptiness_rejected_for_environment_only (s : State) (name : string) :
  (forall secrets,
     use_streamlit_secrets s = true -> st_secrets s = Some secrets ->
     secrets !! name = Some "" ->
     fst (Backend.get_secret name s) = Ret "")
  /\ ((use_streamlit_secrets s = false
       \/ exists secrets, st_secrets s = Some secrets /\ secrets !! name = None) ->
      environ s !! name = Some "" ->
      fst (Backend.get_secret name s) = Raise (Backend.missing name)).
Proof.
  destruct s as [u c e f h t]. rewrite get_secret_run. cbn [fst].
  cbn [use_streamlit_secrets st_secrets environ].
  split.
  - intros secrets -> -> Hv. unfold Backend.resolve. rewrite Hv. reflexivity.
  - intros Hs He.
    rewrite (resolve_from_environ u c e name Hs).
    apply from_environ_raise. now right.
Qed.

Lemma C10_emptiness_rejected_for_environment_only_witness :
  fst (Backend.get_secret "OPENAI_API_KEY"
         Sample.empty_in_session) = Ret ""
  /\ fst (Backend.get_secret "OPENAI_API_KEY"
            Sample.empty_in_environ)
     = Raise (Backend.missing "OPENAI_API_KEY").
Proof.
  split.
  - apply (proj1 (C10_emptiness_rejected_for_environment_only
                    Sample.empty_in_session "OPENAI_API_KEY")
             (<["OPENAI_API_KEY" := ""]> ∅)); reflexivity.
  - apply (proj2 (C10_emptiness_rejected_for_environment_only
                    Sample.empty_in_environ
                    "OPENAI_API_KEY")).
    + right. exists ∅. split; reflexivity.
    + reflexivity.
Defined.

(* ===================================================================== *)
(** * The stage adapters *)
(* ===================================================================== *)

(** C2, as stated, fails for the completion stages: the Groq client they
    build sends the request again after a failure it holds retryable, and
    the error the stage raises is that of the last response.  Here the
    service answers 503, then 429, then 500: the EmotionClassifier sends
    three requests and raises the error of the third. *)
Lemma C2_completion_request_is_sent_again :
  ~ (forall (w : World) (s : State) txt k,
       credential s "GROQ_API_KEY" = Ret k ->
       let rq := Backend.emotion_request k (Backend.emotion_instruction +:+ txt) in
       let response := chat_post w 0 rq in
       status_code response <> 200 ->
       let '(r, s') := Backend.detect_emotion_func w (VStr txt) s in
       (r = Raise (HTTPException (status_code response) (text response))
        \/ r = Raise (APIStatusError (status_code response) (text response)))
       /\ upstream_calls (new_events s s') = [ChatPost rq]).
Proof.
  intros H.
  specialize (H Sample2.chat_degrades Sample.ready Sample.dream "gsk-2" eq_refl).
  cbv zeta in H. specialize (H ltac:(vm_compute; discriminate)).
  vm_compute in H. destruct H as [[H | H] _]; discriminate H.
Qed.

(** C2, amended: the Transcriber and the ImageSynthesizer raise, for every
    response that is not 200, an error carrying the status code and the body
    of that response, after a single request.  The two completion stages
    hand their request to a Groq client built with its defaults: the client
    sends it again, twice at most, after a failure it holds retryable, and
    the stage lets through unchanged the status error of the client, which
    carries the status code and the body of the last response. *)
Theorem C2_upstream_error_passed_through (w : World) (s : State) :
  (forall name media data k,
     credential s "OPENAI_API_KEY" = Ret k ->
     let rq := Backend.stt_request_of k (name, data, media) in
     status_code (stt_post w rq) <> 200 ->
     let '(r, s') := Backend.transcribe_audio_func w (in_memory name media data) s in
     r = Raise (HTTPException (status_code (stt_post w rq)) (text (stt_post w rq)))
     /\ upstream_calls (new_events s s') = [SttPost rq])
  /\ (forall prompt k,
        credential s "CLIPDROP_API_KEY" = Ret k ->
        let rq := Backend.image_request_of k (VStr prompt) in
        status_code (image_post w rq) <> 200 ->
        let '(r, s') := Backend.generate_image_func w (VStr prompt) s in
        r = Raise (HTTPException (status_code (image_post w rq))
                                 (text (image_post w rq)))
        /\ upstream_calls (new_events s s') = [ImagePost rq])
  /\ (forall txt k n,
        credential s "GROQ_API_KEY" = Ret k ->
        let rq := Backend.emotion_request k (Backend.emotion_instruction +:+ txt) in
        (n <= 2)%nat ->
        (forall i, (i < n)%nat ->
                   Backend.is_success (chat_post w i rq) = false
                   /\ chat_should_retry w (chat_post w i rq) = true) ->
        Backend.is_success (chat_post w n rq) = false ->
        (n = 2%nat \/ chat_should_retry w (chat_post w n rq) = false) ->
        let '(r, s') := Backend.detect_emotion_func w (VStr txt) s in
        r = Raise (APIStatusError (status_code (chat_post w n rq))
                                  (text (chat_post w n rq)))
        /\ upstream_calls (new_events s s') = repeat (ChatPost rq) (S n))
  /\ (forall txt k n,
        credential s "GROQ_API_KEY" = Ret k ->
        let rq := Backend.image_prompt_request k
                    (Backend.image_prompt_instruction +:+ txt) in
        (n <= 2)%nat ->
        (forall i, (i < n)%nat ->
                   Backend.is_success (chat_post w i rq) = false
                   /\ chat_should_retry w (chat_post w i rq) = true) ->
        Backend.is_success (chat_post w n rq) = false ->
        (n = 2%nat \/ chat_should_retry w (chat_post w n rq) = false) ->
        let '(r, s') := Backend.generate_image_prompt_func w (VStr txt) s in
        r = Raise (APIStatusError (status_code (chat_post w n rq))
                                  (text (chat_post w n rq)))
        /\ upstream_calls (new_events s s') = repeat (ChatPost rq) (S n)).
Proof.
  destruct s as [u c e f h t]. unfold credential.
  cbn [use_streamlit_secrets st_secrets environ].
  split; [|split; [|split]].
  - intros name media data k Hk Hstatus.
    rewrite (transcribe_run w (in_memory name media data) data _ _ _ _ _ _ k Hk)
      by reflexivity.
    cbn [in_memory filename content_type].
    rewrite new_events_app. unfold transcription_of.
    apply Z.eqb_neq in Hstatus. rewrite Hstatus. split; reflexivity.
  - intros prompt k Hk Hstatus.
    rewrite (generate_image_run w prompt _ _ _ _ _ _ k Hk).
    rewrite new_events_app. unfold image_of.
    apply Z.eqb_neq in Hstatus. rewrite Hstatus. split; reflexivity.
  - intros txt k n Hk Hn Hbefore Hfail Hlast.
    rewrite (detect_emotion_run w txt _ _ _ _ _ _ k Hk).
    rewrite new_events_app. unfold groq_last.
    rewrite (groq_call_retries w _ n Hn Hbefore (or_intror Hlast)).
    unfold awaited. rewrite Hfail. split; [reflexivity|].
    rewrite upstream_calls_app. apply upstream_calls_chat_posts.
  - intros txt k n Hk Hn Hbefore Hfail Hlast.
    rewrite (generate_image_prompt_run w txt _ _ _ _ _ _ k Hk).
    rewrite new_events_app. unfold groq_last.
    rewrite (groq_call_retries w _ n Hn Hbefore (or_intror Hlast)).
    unfold awaited. rewrite Hfail. split; [reflexivity|].
    rewrite upstream_calls_app. apply upstream_calls_chat_posts.
Qed.

Lemma C2_upstream_error_passed_through_witness :
  fst (Backend.transcribe_audio_func Sample2.over_quota Sample.clip Sample.ready)
  = Raise (HTTPException 429 "quota")
  /\ fst (Backend.detect_emotion_func Sample2.chat_refuses
            (VStr Sample.dream) Sample.ready)
     = Raise (APIStatusError 401 "invalid api key")
  /\ fst (Backend.generate_image_prompt_func Sample2.chat_degrades
            (VStr Sample.dream) Sample.ready)
     = Raise (APIStatusError 500 "broken").
Proof.
  split; [|split].
  - pose proof
      (proj1 (C2_upstream_error_passed_through Sample2.over_quota Sample.ready)
             "reve.mp3" "audio/mpeg" (bytes_of_string "ID3") "sk-1"
             eq_refl) as H.
    cbv zeta in H.
    specialize (H ltac:(vm_compute; discriminate)).
    destruct (Backend.transcribe_audio_func _ _ _) as [r s'].
    exact (proj1 H).
  - pose proof
      (proj1 (proj2 (proj2 (C2_upstream_error_passed_through
                              Sample2.chat_refuses Sample.ready)))
             Sample.dream "gsk-2" 0%nat eq_refl) as H.
    cbv zeta in H.
    specialize (H ltac:(lia) ltac:(intros i Hi; lia) eq_refl
                  (or_intror eq_refl)).
    destruct (Backend.detect_emotion_func _ _ _) as [r s'].
    exact (proj1 H).
  - pose proof
      (proj2 (proj2 (proj2 (C2_upstream_error_passed_through
                              Sample2.chat_degrades Sample.ready)))
             Sample.dream "gsk-2" 2%nat eq_refl) as H.
    cbv zeta in H.
    specialize (H ltac:(lia)
                  ltac:(intros [|[|i]] Hi; [split; reflexivity ..|lia])
                  eq_refl (or_introl eq_refl)).
    destruct (Backend.generate_image_prompt_func _ _ _) as [r s'].
    exact (proj1 H).
Defined.

(** C4, as stated, fails: without the speech-to-text credential the
    Transcriber neither returns a string nor raises the upstream error. *)
Lemma C4_missing_credential_is_neither :
  ~ (forall (w : World) (s : State) name media data,
       let r := fst (Backend.transcribe_audio_func w (in_memory name media data) s) in
       (exists txt, r = Ret (VDict [("transcription", VStr txt)]))
       \/ (exists status body, r = Raise (HTTPException status body))).
Proof.
  intros H.
  specialize (H Sample.silent Sample.no_keys "reve.mp3" "audio/mpeg" []).
  vm_compute in H.
  destruct H as [[txt H] | (status & body & H)]; discriminate H.
Qed.

(** C4, amended: when the speech-to-text credential resolves, a 200
    response whose JSON object has no [text] field gives the empty string,
    one whose [text] is a string gives that string, and a response that is
    not 200 gives the upstream error with its status code and body; when the
    credential does not resolve, the Transcriber raises the error of the
    resolver, and that is all it does. *)
Theorem C4_transcriber_outcomes (w : World) (s : State) name media data :
  let run := Backend.transcribe_audio_func w (in_memory name media data) s in
  (forall k, credential s "OPENAI_API_KEY" = Ret k ->
     let response := stt_post w (Backend.stt_request_of k (name, data, media)) in
     (forall d, status_code response = 200 -> json response = Some (VDict d) ->
                assoc "text" d = None ->
                fst run = Ret (VDict [("transcription", VStr "")]))
     /\ (forall d txt, status_code response = 200 ->
                       json response = Some (VDict d) ->
                       assoc "text" d = Some (VStr txt) ->
                       fst run = Ret (VDict [("transcription", VStr txt)]))
     /\ (status_code response <> 200 ->
         fst run = Raise (HTTPException (status_code response) (text response))))
  /\ (forall x, credential s "OPENAI_API_KEY" = Raise x ->
                fst run = Raise x
                /\ upstream_calls (new_events s (snd run)) = []).
Proof.
  intros run. subst run.
  destruct s as [u c e f h t]. unfold credential.
  cbn [use_streamlit_secrets st_secrets environ].
  split.
  - intros k Hk.
    rewrite (transcribe_run w (in_memory name media data) data _ _ _ _ _ _ k Hk)
      by reflexivity.
    cbn [fst in_memory filename content_type].
    set (response := stt_post w (Backend.stt_request_of k (name, data, media))).
    unfold transcription_of.
    split; [|split].
    + intros d -> -> Hd. unfold dict_get. rewrite Hd. reflexivity.
    + intros d txt -> -> Hd. unfold dict_get. rewrite Hd. reflexivity.
    + intros Hne. apply Z.eqb_neq in Hne. rewrite Hne. reflexivity.
  - intros x Hk.
    rewrite (transcribe_run_missing w _ _ _ _ _ _ _ x Hk). cbn [fst snd].
    rewrite new_events_app. split; reflexivity.
Qed.

Lemma C4_transcriber_outcomes_witness :
  fst (Backend.transcribe_audio_func
         (Sample.world (Sample.ok [("language", VStr "fr")])
                       (Sample.answer "" "") Sample.image_ok)
         Sample.clip Sample.ready)
  = Ret (VDict [("transcription", VStr "")])
  /\ fst (Backend.transcribe_audio_func Sample.silent Sample.clip Sample.no_keys)
     = Raise (Backend.missing "OPENAI_API_KEY").
Proof.
  split.
  - pose proof
      (proj1 (C4_transcriber_outcomes
                (Sample.world (Sample.ok [("language", VStr "fr")])
                              (Sample.answer "" "") Sample.image_ok)
                Sample.ready
                "reve.mp3" "audio/mpeg" (bytes_of_string "ID3"))
             "sk-1" eq_refl) as H.
    apply (proj1 H [("language", VStr "fr")]); reflexivity.
  - exact (proj1 (proj2 (C4_transcriber_outcomes
                           Sample.silent Sample.no_keys
                           "reve.mp3" "audio/mpeg" (bytes_of_string "ID3"))
                        (Backend.missing "OPENAI_API_KEY") eq_refl)).
Defined.

(** C5: on a 200 response the ImageSynthesizer returns the data URI made of
    the prefix and the base64 text of the response bytes, and decoding the
    payload of that URI gives the response bytes back. *)
Theorem C5_image_data_uri_round_trip (w : World) (s : State) prompt k :
  credential s "CLIPDROP_API_KEY" = Ret k ->
  let response := image_post w (Backend.image_request_of k (VStr prompt)) in
  status_code response = 200 ->
  exists uri,
    fst (Backend.generate_image_func w (VStr prompt) s)
    = Ret (VDict [("image", VStr uri)])
    /\ uri = "data:image/png;base64," +:+ Base64.b64encode (content response)
    /\ Base64.data_uri_payload uri = Some (Base64.b64encode (content response))
    /\ Base64.decode_data_uri uri = Some (content response).
Proof.
  destruct s as [u c e f h t]. unfold credential.
  cbn [use_streamlit_secrets st_secrets environ].
  intros Hk Hstatus.
  eexists. split; [|split; [reflexivity|split]].
  - rewrite (generate_image_run w prompt _ _ _ _ _ _ k Hk). cbn [fst].
    unfold image_of. rewrite Hstatus. reflexivity.
  - apply strip_prefix_app.
  - apply decode_data_uri_b64encode.
Qed.

Lemma C5_image_data_uri_round_trip_witness :
  exists uri,
    fst (Backend.generate_image_func Sample.nightmare (VStr "une ville") Sample.ready)
    = Ret (VDict [("image", VStr uri)])
    /\ uri = "data:image/png;base64," +:+ Base64.b64encode Sample.png
    /\ Base64.data_uri_payload uri = Some (Base64.b64encode Sample.png)
    /\ Base64.decode_data_uri uri = Some Sample.png.
Proof.
  apply (C5_image_data_uri_round_trip Sample.nightmare Sample.ready
           "une ville" "cd-3"); reflexivity.
Defined.

(** C6: the request of the EmotionClassifier has temperature 0 and a
    ceiling of 10 tokens, and the stage never gives the normalised text: it
    raises on every run.  When the service answers the request with a
    completion, the synchronous client returns it and the [await] applied to
    it raises [TypeError], after the one request; the [strip] and [lower]
    that follow are not reached. *)
Theorem C6_emotion_classifier_raises_on_every_answer (w : World) (s : State) :
  (forall text, exists x, fst (Backend.detect_emotion_func w text s) = Raise x)
  /\ (forall txt k,
        credential s "GROQ_API_KEY" = Ret k ->
        let rq := Backend.emotion_request k (Backend.emotion_instruction +:+ txt) in
        Backend.is_success (chat_post w 0 rq) = true ->
        let '(r, s') := Backend.detect_emotion_func w (VStr txt) s in
        r = Raise TypeError
        /\ upstream_calls (new_events s s') = [ChatPost rq]
        /\ (temperature rq == 0)%Q
        /\ max_tokens rq = 10).
Proof.
  destruct s as [u c e f h t]. unfold credential.
  cbn [use_streamlit_secrets st_secrets environ].
  split.
  - intros text.
    destruct (Backend.resolve u c e "GROQ_API_KEY") as [k|x] eqn:Hk.
    + destruct text as [| | | txt | | | |];
        try (rewrite detect_emotion_stops by discriminate; rewrite Hk;
             eexists; reflexivity).
      rewrite (detect_emotion_run w txt _ _ _ _ _ _ k Hk).
      eexists; reflexivity.
    + rewrite (stage_missing_emotion w _ _ _ _ _ _ _ x Hk).
      eexists; reflexivity.
  - intros txt k Hk Hs.
    rewrite (detect_emotion_run w txt _ _ _ _ _ _ k Hk).
    rewrite new_events_app. unfold groq_last.
    rewrite (groq_call_retries w _ 0%nat ltac:(lia)
               ltac:(intros i Hi; lia) (or_introl Hs)).
    unfold awaited. rewrite Hs.
    split; [reflexivity|]. split; [reflexivity|]. split; reflexivity.
Qed.

Lemma C6_emotion_classifier_raises_on_every_answer_witness :
  fst (Backend.detect_emotion_func
         (Sample.world (Sample.ok []) (Sample.answer "  Bizarre !" "") Sample.image_ok)
         (VStr Sample.dream) Sample.ready)
  = Raise TypeError.
Proof.
  pose proof
    (proj2 (C6_emotion_classifier_raises_on_every_answer
              (Sample.world (Sample.ok []) (Sample.answer "  Bizarre !" "")
                            Sample.image_ok)
              Sample.ready)
           Sample.dream "gsk-2" eq_refl eq_refl) as H.
  destruct (Backend.detect_emotion_func _ _ _) as [r s'].
  exact (proj1 H).
Defined.

(** C7: the request of the PromptGenerator has the model, the credential
    and the two roles of the request of the EmotionClassifier, a higher
    temperature and a larger ceiling, and the stage never gives the stripped
    text: it raises on every run.  When the service answers the request with
    a completion, empty or not, the [await] applied to what the synchronous
    client returned raises [TypeError], after the one request. *)
Theorem C7_prompt_generator_raises_on_every_answer (w : World) (s : State) :
  (forall text,
     exists x, fst (Backend.generate_image_prompt_func w text s) = Raise x)
  /\ (forall txt k,
        credential s "GROQ_API_KEY" = Ret k ->
        let rq := Backend.image_prompt_request k
                    (Backend.image_prompt_instruction +:+ txt) in
        let rq0 := Backend.emotion_request k (Backend.emotion_instruction +:+ txt) in
        Backend.is_success (chat_post w 0 rq) = true ->
        let '(r, s') := Backend.generate_image_prompt_func w (VStr txt) s in
        r = Raise TypeError
        /\ upstream_calls (new_events s s') = [ChatPost rq]
        /\ model rq = model rq0
        /\ chat_api_key rq = chat_api_key rq0
        /\ map fst (messages rq) = map fst (messages rq0)
        /\ (temperature rq0 < temperature rq)%Q
        /\ max_tokens rq0 < max_tokens rq).
Proof.
  destruct s as [u c e f h t]. unfold credential.
  cbn [use_streamlit_secrets st_secrets environ].
  split.
  - intros text.
    destruct (Backend.resolve u c e "GROQ_API_KEY") as [k|x] eqn:Hk.
    + destruct text as [| | | txt | | | |];
        try (rewrite generate_image_prompt_stops by discriminate; rewrite Hk;
             eexists; reflexivity).
      rewrite (generate_image_prompt_run w txt _ _ _ _ _ _ k Hk).
      eexists; reflexivity.
    + rewrite (generate_image_prompt_missing w _ _ _ _ _ _ _ x Hk).
      eexists; reflexivity.
  - intros txt k Hk Hs.
    rewrite (generate_image_prompt_run w txt _ _ _ _ _ _ k Hk).
    rewrite new_events_app. unfold groq_last.
    rewrite (groq_call_retries w _ 0%nat ltac:(lia)
               ltac:(intros i Hi; lia) (or_introl Hs)).
    unfold awaited. rewrite Hs.
    split; [reflexivity|]. split; [reflexivity|].
    split; [reflexivity|]. split; [reflexivity|]. split; [reflexivity|].
    split; reflexivity.
Qed.

Lemma C7_prompt_generator_raises_on_every_answer_witness :
  fst (Backend.generate_image_prompt_func
         (Sample.world (Sample.ok []) (Sample.answer "neutre" "   ") Sample.image_ok)
         (VStr Sample.dream) Sample.ready)
  = Raise TypeError.
Proof.
  pose proof
    (proj2 (C7_prompt_generator_raises_on_every_answer
              (Sample.world (Sample.ok []) (Sample.answer "neutre" "   ")
                            Sample.image_ok)
              Sample.ready)
           Sample.dream "gsk-2" eq_refl eq_refl) as H.
  destruct (Backend.generate_image_prompt_func _ _ _) as [r s'].
  exact (proj1 H).
Defined.

(* ===================================================================== *)
(** * The orchestrator of [/dream-to-image] *)
(* ===================================================================== *)

Lemma transcription_of_ret response v :
  transcription_of response = Ret v ->
  exists x, v = VDict [("transcription", x)].
Proof.
  unfold transcription_of.
  destruct (negb (status_code response =? 200)); [discriminate|].
  destruct (json response) as [[]|]; try discriminate.
  intros [= <-]. eauto.
Qed.

Lemma transcription_of_raise response x :
  transcription_of response = Raise x ->
  forall msg, x <> RuntimeError msg.
Proof.
  unfold transcription_of.
  destruct (negb (status_code response =? 200)); [intros [= <-]; discriminate|].
  destruct (json response) as [[]|]; intros [= <-]; discriminate.
Qed.

Lemma subscript_head k v d (s : State) :
  subscript (VDict ((k, v) :: d)) k s = (Ret v, s).
Proof. unfold subscript. cbn [assoc]. rewrite String.eqb_refl. reflexivity. Qed.

Lemma transcription_of_ok response d :
  status_code response = 200 -> json response = Some (VDict d) ->
  transcription_of response
  = Ret (VDict [("transcription", dict_get d "text" (VStr ""))]).
Proof. unfold transcription_of. intros -> ->. reflexivity. Qed.

(** The head of the orchestrator: the run up to the call of the
    EmotionClassifier, for a transcription that is a string. *)
Lemma dream_to_image_head (w : World) name media data u c e f h t k1 txt :
  Backend.resolve u c e "OPENAI_API_KEY" = Ret k1 ->
  let rq1 := Backend.stt_request_of k1 (name, data, media) in
  transcription_of (stt_post w rq1) = Ret (VDict [("transcription", VStr txt)]) ->
  exists f',
    Backend.dream_to_image w (in_memory name media data) (St u c e f h t)
    = bind (Backend.detect_emotion_func w (VStr txt)) (fun emotion =>
      bind (Backend.generate_image_prompt_func w (VStr txt)) (fun prompt_data =>
      bind (subscript prompt_data "prompt") (fun prompt =>
      bind (Backend.generate_image_func w prompt) (fun image_data =>
      bind (subscript emotion "emotion") (fun emotion_v =>
      bind (subscript prompt_data "prompt") (fun prompt_v =>
      bind (subscript image_data "image") (fun image_v =>
      ret (VDict [("transcription", VStr txt); ("emotion", emotion_v);
                  ("prompt", prompt_v); ("image", image_v)]))))))))
        (St u c e f' h
            (t ++ [Invoke Transcriber; Resolve "OPENAI_API_KEY"; SttPost rq1])).
Proof.
  intros Hk1 rq1 Hstt. eexists.
  unfold Backend.dream_to_image. rewrite bind_eq.
  rewrite (transcribe_run w (in_memory name media data) data _ _ _ _ _ _ k1 Hk1)
    by reflexivity.
  cbn [in_memory filename content_type]. fold rq1. rewrite Hstt.
  rewrite bind_eq, subscript_head. reflexivity.
Qed.

(** The EmotionClassifier never returns: it raises, having logged its
    entry, the lookup of its key and the requests of its client, if any. *)
Lemma detect_emotion_raises (w : World) (text : value) u c e f h t :
  exists x rq n,
    Backend.detect_emotion_func w text (St u c e f h t)
    = (Raise x,
       St u c e f h (t ++ [Invoke EmotionClassifier; Resolve "GROQ_API_KEY"]
                       ++ repeat (ChatPost rq) n))
    /\ (forall k, Backend.resolve u c e "GROQ_API_KEY" = Ret k ->
                  forall msg, x <> RuntimeError msg).
Proof.
  destruct (Backend.resolve u c e "GROQ_API_KEY") as [k|y] eqn:Hk.
  - assert (Hstr : (exists txt, text = VStr txt) \/ (forall txt, text <> VStr txt))
      by (destruct text; eauto; right; discriminate).
    destruct Hstr as [[txt ->] | Hstr].
    + rewrite (detect_emotion_run w txt _ _ _ _ _ _ k Hk).
      eexists _, _, _. split; [reflexivity|].
      intros k' _ msg. unfold awaited.
      destruct (Backend.is_success _); discriminate.
    + rewrite (detect_emotion_stops w text _ _ _ _ _ _ Hstr), Hk.
      exists TypeError, (Backend.emotion_request "" ""), 0%nat.
      cbn [repeat]. rewrite app_nil_r.
      split; [reflexivity | discriminate].
  - rewrite (stage_missing_emotion w _ _ _ _ _ _ _ y Hk).
    exists y, (Backend.emotion_request "" ""), 0%nat.
    cbn [repeat]. rewrite app_nil_r.
    split; [reflexivity | discriminate].
Qed.

Lemma up_to_the_classifier_facts (l : list event) :
  up_to_the_classifier l ->
  invoked PromptGenerator l = false
  /\ invoked ImageSynthesizer l = false
  /\ (forall rq, ~ In (ImagePost rq) l)
  /\ (forall name, In (Resolve name) l ->
                   name = "OPENAI_API_KEY" \/ name = "GROQ_API_KEY").
Proof.
  intros [-> | [[rq1 ->] | (rq1 & rq2 & n & ->)]].
  - split; [reflexivity|]. split; [reflexivity|]. split.
    + intros rq [H|[H|[]]]; discriminate H.
    + intros name [H|[H|[]]]; try discriminate H. injection H as <-. now left.
  - split; [reflexivity|]. split; [reflexivity|]. split.
    + intros rq [H|[H|[H|[]]]]; discriminate H.
    + intros name [H|[H|[H|[]]]]; try discriminate H. injection H as <-. now left.
  - cbn [app]. unfold invoked. cbn [existsb invokes orb].
    split; [apply invoked_chat_posts|]. split; [apply invoked_chat_posts|]. split.
    + intros rq [H|[H|[H|[H|[H|H]]]]]; try discriminate H.
      apply repeat_spec in H. discriminate H.
    + intros name [H|[H|[H|[H|[H|H]]]]]; try discriminate H.
      * injection H as <-. now left.
      * injection H as <-. now right.
      * apply repeat_spec in H. discriminate H.
Qed.

(** The orchestrator never returns: it ends in the Transcriber or, at the
    latest, in the EmotionClassifier, with the error of that stage. *)
Lemma dream_to_image_raises (w : World) name media data u c e f h t :
  exists x f' l,
    Backend.dream_to_image w (in_memory name media data) (St u c e f h t)
    = (Raise x, St u c e f' h (t ++ l))
    /\ up_to_the_classifier l
    /\ (forall k1 k2,
          Backend.resolve u c e "OPENAI_API_KEY" = Ret k1 ->
          Backend.resolve u c e "GROQ_API_KEY" = Ret k2 ->
          forall msg, x <> RuntimeError msg).
Proof.
  destruct (Backend.resolve u c e "OPENAI_API_KEY") as [k1|y] eqn:Hk1.
  2:{ unfold Backend.dream_to_image. rewrite bind_eq.
      rewrite (transcribe_run_missing w _ _ _ _ _ _ _ y Hk1).
      eexists _, _, _. split; [reflexivity|].
      split; [now left | intros; discriminate]. }
  set (rq1 := Backend.stt_request_of k1 (name, data, media)).
  destruct (transcription_of (stt_post w rq1)) as [v|y] eqn:Hstt.
  2:{ unfold Backend.dream_to_image. rewrite bind_eq.
      rewrite (transcribe_run w (in_memory name media data) data _ _ _ _ _ _ k1 Hk1)
        by reflexivity.
      cbn [in_memory filename content_type]. fold rq1. rewrite Hstt.
      eexists _, _, _. split; [reflexivity|]. split.
      - right. left. eauto.
      - intros k1' k2 _ _ msg. exact (transcription_of_raise _ _ Hstt msg). }
  destruct (transcription_of_ret _ _ Hstt) as [tv ->].
  unfold Backend.dream_to_image. rewrite bind_eq.
  rewrite (transcribe_run w (in_memory name media data) data _ _ _ _ _ _ k1 Hk1)
    by reflexivity.
  cbn [in_memory filename content_type]. fold rq1. rewrite Hstt.
  rewrite bind_eq, subscript_head, bind_eq.
  match goal with
  | |- context [Backend.detect_emotion_func w tv (St ?u' ?c' ?e' ?f' ?h' ?t')] =>
      destruct (detect_emotion_raises w tv u' c' e' f' h' t')
        as (x & rq & n & -> & Hx)
  end.
  eexists _, _, _. rewrite <- !app_assoc. split; [reflexivity|].
  split.
  - right. right. exists rq1, rq, n. reflexivity.
  - intros k1' k2 _ Hk2 msg. exact (Hx k2 Hk2 msg).
Qed.

(** C8: with the two other credentials in place and the image-synthesis one
    missing, the orchestrator never fails for the missing credential, because
    it never comes to the ImageSynthesizer: a run ends in the Transcriber or
    in the EmotionClassifier.  When the transcript is a string and the
    completion service answers, the run ends in the EmotionClassifier with
    the [TypeError] of its [await], after two requests; the PromptGenerator
    is not invoked and the key of the ImageSynthesizer is never looked up. *)
Theorem C8_missing_image_credential_is_never_reached
        (w : World) (s : State) name media data k1 k2 :
  credential s "OPENAI_API_KEY" = Ret k1 ->
  credential s "GROQ_API_KEY" = Ret k2 ->
  credential s "CLIPDROP_API_KEY" = Raise (Backend.missing "CLIPDROP_API_KEY") ->
  let rq1 := Backend.stt_request_of k1 (name, data, media) in
  let '(r, s') := Backend.dream_to_image w (in_memory name media data) s in
  (exists x, r = Raise x /\ x <> Backend.missing "CLIPDROP_API_KEY")
  /\ invoked PromptGenerator (new_events s s') = false
  /\ invoked ImageSynthesizer (new_events s s') = false
  /\ ~ In (Resolve "CLIPDROP_API_KEY") (new_events s s')
  /\ (forall d txt,
        status_code (stt_post w rq1) = 200 ->
        json (stt_post w rq1) = Some (VDict d) ->
        dict_get d "text" (VStr "") = VStr txt ->
        let rq2 := Backend.emotion_request k2
                     (Backend.emotion_instruction +:+ txt) in
        Backend.is_success (chat_post w 0 rq2) = true ->
        r = Raise TypeError
        /\ new_events s s'
           = [Invoke Transcriber; Resolve "OPENAI_API_KEY"; SttPost rq1;
              Invoke EmotionClassifier; Resolve "GROQ_API_KEY"; ChatPost rq2]).
Proof.
  intros Hk1 Hk2 Hk3 rq1.
  destruct s as [u c e f h t]. unfold credential in *.
  cbn [use_streamlit_secrets st_secrets environ] in *.
  assert (Hspecific :
    forall d txt,
      status_code (stt_post w rq1) = 200 ->
      json (stt_post w rq1) = Some (VDict d) ->
      dict_get d "text" (VStr "") = VStr txt ->
      Backend.is_success
        (chat_post w 0 (Backend.emotion_request k2
                          (Backend.emotion_instruction +:+ txt))) = true ->
      exists f',
        Backend.dream_to_image w (in_memory name media data) (St u c e f h t)
        = (Raise TypeError,
           St u c e f' h
              (t ++ [Invoke Transcriber; Resolve "OPENAI_API_KEY"; SttPost rq1;
                     Invoke EmotionClassifier; Resolve "GROQ_API_KEY";
                     ChatPost (Backend.emotion_request k2
                                 (Backend.emotion_instruction +:+ txt))]))).
  { intros d txt Hst Hjs Hd Hs.
    assert (Hstt : transcription_of (stt_post w rq1)
                   = Ret (VDict [("transcription", VStr txt)]))
      by (rewrite (transcription_of_ok _ d Hst Hjs), Hd; reflexivity).
    destruct (dream_to_image_head w name media data u c e f h t k1 txt Hk1 Hstt)
      as [f' ->].
    exists f'.
    rewrite bind_eq, (detect_emotion_run w txt _ _ _ _ _ _ k2 Hk2).
    unfold groq_last.
    rewrite (groq_call_retries w _ 0%nat ltac:(lia)
               ltac:(intros i Hi; lia) (or_introl Hs)).
    unfold awaited. rewrite Hs. rewrite <- !app_assoc. reflexivity. }
  destruct (dream_to_image_raises w name media data u c e f h t)
    as (x & f' & l & E & Hl & Hx).
  destruct (up_to_the_classifier_facts l Hl) as (Hp & Hi & _ & Hnames).
  rewrite E in Hspecific |- *. rewrite new_events_app.
  split; [exists x; split; [reflexivity | exact (Hx k1 k2 Hk1 Hk2 _)]|].
  split; [exact Hp|]. split; [exact Hi|]. split.
  - intros Hin. destruct (Hnames _ Hin) as [H|H]; discriminate H.
  - intros d txt Hst Hjs Hd. cbv zeta. intros Hs.
    destruct (Hspecific d txt Hst Hjs Hd Hs) as [f'' [= -> _ Hl']].
    split; [reflexivity|].
    apply app_inv_head in Hl'. exact Hl'.
Qed.

Lemma C8_missing_image_credential_is_never_reached_witness :
  fst (Backend.dream_to_image Sample.nightmare Sample.clip Sample.no_clipdrop)
  = Raise TypeError.
Proof.
  pose proof
    (C8_missing_image_credential_is_never_reached
       Sample.nightmare Sample.no_clipdrop "reve.mp3" "audio/mpeg"
       (bytes_of_string "ID3") "sk-1" "gsk-2" eq_refl eq_refl eq_refl) as H.
  cbv zeta in H.
  change (in_memory "reve.mp3" "audio/mpeg" (bytes_of_string "ID3"))
    with Sample.clip in H.
  destruct (Backend.dream_to_image _ _ _) as [r s'].
  exact (proj1 (proj2 (proj2 (proj2 (proj2 H)))
                 [("text", VStr Sample.dream)] Sample.dream
                 eq_refl eq_refl eq_refl eq_refl)).
Defined.

(* ===================================================================== *)
(** * The pipeline of [app.py] *)
(* ===================================================================== *)

Lemma transcription_of_raise_caught response x :
  transcription_of response = Raise x -> is_Exception x = true.
Proof.
  unfold transcription_of.
  destruct (negb (status_code response =? 200)); [intros [= <-]; reflexivity|].
  destruct (json response) as [[]|]; intros [= <-]; reflexivity.
Qed.

Lemma show_run x u c e f h t :
  App.show x (St u c e f h t) = (Ret tt, St u c e f h (t ++ [Display x])).
Proof. reflexivity. Qed.

Lemma read_run path data u c e f h t :
  f !! path = Some data ->
  read path (St u c e f h t) = (Ret data, St u c e f h t).
Proof.
  intros Hf. unfold read, get_state, ret, bind. cbn [fs]. rewrite Hf. reflexivity.
Qed.

Lemma open_rb_run path data u c e f h t :
  f !! path = Some data ->
  open_rb path (St u c e f h t) = (Ret tt, St u c e f (path :: h) t).
Proof.
  intros Hf. unfold open_rb, get_state, modify, bind. cbn [fs]. rewrite Hf.
  reflexivity.
Qed.

Lemma close_run path u c e f h t :
  close path (St u c e f (path :: h) t) = (Ret tt, St u c e f h t).
Proof.
  unfold close, modify, with_handles. cbn [handles]. rewrite remove_first_head.
  reflexivity.
Qed.

Lemma path_exists_run path data u c e f h t :
  f !! path = Some data ->
  path_exists path (St u c e f h t) = (Ret true, St u c e f h t).
Proof.
  intros Hf. unfold path_exists, get_state, ret, bind. cbn [fs]. rewrite Hf.
  reflexivity.
Qed.

Lemma after_copy_keeps_clip w audio data f :
  f !! audio = Some data -> after_copy w audio data f !! audio = Some data.
Proof.
  intros Hf. unfold after_copy.
  destruct (String.eqb_spec (mkstemp w f ".mp3") audio) as [-> | Hne].
  - apply lookup_insert_eq.
  - rewrite lookup_delete_ne, lookup_insert_ne by exact Hne. exact Hf.
Qed.

Lemma transcribe_audio_sync_run (w : World) audio data u c e f t k :
  Backend.resolve u c e "OPENAI_API_KEY" = Ret k ->
  f !! audio = Some data ->
  let rq := Backend.stt_request_of k
              (Text.basename audio, data, App.media_type w (Text.basename audio)) in
  App.transcribe_audio_sync w audio (St u c e f [] t)
  = (transcription_of (stt_post w rq),
     St u c e (after_copy w audio data f) []
        (t ++ [Invoke Transcriber; Resolve "OPENAI_API_KEY"; SttPost rq])).
Proof.
  intros Hk Hf rq.
  unfold App.transcribe_audio_sync, App.DummyUploadFile.
  rewrite bind_eq, bind_eq, (open_rb_run _ data) by exact Hf.
  cbn [ret]. rewrite try_finally_eq.
  rewrite (transcribe_run w (App.dummy_file w audio) data _ _ _ _ _ _ k Hk)
    by (intros t'; apply read_run, Hf).
  cbn [App.dummy_file filename content_type file_close]. fold rq.
  unfold after_copy. cbn [is_open existsb]. rewrite orb_false_r.
  rewrite close_run. reflexivity.
Qed.

Lemma transcribe_audio_sync_missing (w : World) audio data u c e f t x :
  Backend.resolve u c e "OPENAI_API_KEY" = Raise x ->
  f !! audio = Some data ->
  App.transcribe_audio_sync w audio (St u c e f [] t)
  = (Raise x, St u c e f [] (t ++ [Invoke Transcriber; Resolve "OPENAI_API_KEY"])).
Proof.
  intros Hk Hf.
  unfold App.transcribe_audio_sync, App.DummyUploadFile.
  rewrite bind_eq, bind_eq, (open_rb_run _ data) by exact Hf.
  cbn [ret]. rewrite try_finally_eq.
  rewrite (transcribe_run_missing w _ _ _ _ _ _ _ x Hk).
  cbn [App.dummy_file file_close]. rewrite close_run. reflexivity.
Qed.

(** The wrapper hands a [Payload] to the EmotionClassifier, which cannot
    append it to its instruction: steps 2 to 7 stop in step 2. *)
Lemma after_transcription_run (w : World) resp transcription u c e f h t :
  App.after_transcription w resp transcription (St u c e f h t)
  = (match Backend.resolve u c e "GROQ_API_KEY" with
     | Ret _ => Raise TypeError
     | Raise x => Raise x
     end,
     St u c e f h
        (t ++ [Display (Spinner "🎭 Analyse de l’émotion du rêve...");
               Invoke EmotionClassifier; Resolve "GROQ_API_KEY"])).
Proof.
  unfold App.after_transcription.
  rewrite bind_eq, show_run.
  rewrite bind_eq. unfold App.detect_emotion_sync.
  rewrite detect_emotion_stops by discriminate.
  rewrite <- !app_assoc.
  destruct (Backend.resolve u c e "GROQ_API_KEY"); reflexivity.
Qed.

Lemma after_transcription_caught w resp transcription u c e f h t :
  exists x, fst (App.after_transcription w resp transcription (St u c e f h t))
            = Raise x /\ is_Exception x = true.
Proof.
  rewrite after_transcription_run. cbn [fst].
  destruct (Backend.resolve u c e "GROQ_API_KEY") as [k|x] eqn:Hk.
  - eauto.
  - eexists. split; [reflexivity|].
    exact (resolve_raises_exception _ _ _ _ _ Hk).
Qed.

(** The cleanup of the pipeline, with no handle left open on the clip. *)
Lemma cleanup_run audio data u c e f t :
  f !! audio = Some data ->
  bind (path_exists audio)
       (fun present =>
          if present then
            try_except (bind (log Sleep) (fun _ => os_remove audio))
                       (fun x => App.show (RemoveWarning x))
          else ret tt)
       (St u c e f [] t)
  = (Ret tt, St u c e (delete audio f) [] (t ++ [Sleep])).
Proof.
  intros Hf.
  rewrite bind_eq, (path_exists_run _ data) by exact Hf.
  rewrite try_except_eq, bind_eq, log_run.
  rewrite (os_remove_run _ _ _ _ _ _ _ data) by exact Hf.
  reflexivity.
Qed.

(** The state in which the pipeline of [app.py] ends, and what it invoked on
    the way: never the PromptGenerator nor the ImageSynthesizer, and the
    EmotionClassifier only after a transcription that is not empty. *)
Lemma pipeline_run (w : World) (up : App.uploaded) u c e f t :
  let audio := mkstemp w f ("." +:+ Text.last_segment "." (App.name up)) in
  let f1 := <[audio := App.data up]> f in
  let rq k := Backend.stt_request_of k
                (Text.basename audio, App.data up,
                 App.media_type w (Text.basename audio)) in
  exists l,
    App.pipeline w up (St u c e f [] t)
    = (Ret tt,
       St u c e
          (delete audio
             (match Backend.resolve u c e "OPENAI_API_KEY" with
              | Ret _ => after_copy w audio (App.data up) f1
              | Raise _ => f1
              end))
          [] (t ++ l))
    /\ invoked PromptGenerator l = false
    /\ invoked ImageSynthesizer l = false
    /\ (forall k resp,
          Backend.resolve u c e "OPENAI_API_KEY" = Ret k ->
          transcription_of (stt_post w (rq k)) = Ret resp ->
          truthy (App.get_if_dict resp "transcription" (VStr "") (VStr "")) = false ->
          invoked EmotionClassifier l = false).
Proof.
  intros audio f1 rq.
  assert (Hf1 : f1 !! audio = Some (App.data up)) by apply lookup_insert_eq.
  unfold App.pipeline.
  rewrite bind_eq, named_temporary_file_run. fold audio f1.
  rewrite try_finally_eq, try_except_eq.
  rewrite bind_eq, show_run, bind_eq.
  destruct (Backend.resolve u c e "OPENAI_API_KEY") as [k|x] eqn:Hk.
  - rewrite (transcribe_audio_sync_run w audio (App.data up) _ _ _ _ _ k Hk Hf1).
    fold (rq k).
    destruct (transcription_of (stt_post w (rq k))) as [resp|x] eqn:Hstt.
    + destruct (truthy (App.get_if_dict resp "transcription" (VStr "") (VStr "")))
        eqn:Htruthy; cbn [negb].
      * rewrite bind_eq, bind_eq, show_run, show_run.
        destruct (after_transcription_caught w resp
                    (App.get_if_dict resp "transcription" (VStr "") (VStr ""))
                    u c e (after_copy w audio (App.data up) f1) []
                    (((((t ++ [Display (Spinner "🔤 Transcription du rêve en cours...")])
                         ++ [Invoke Transcriber; Resolve "OPENAI_API_KEY";
                             SttPost (rq k)])
                        ++ [Display (Subheader "📝 Rêve transcrit :")])
                       ++ [Display (Success
                                   (App.get_if_dict resp "transcription"
                                                    (VStr "") (VStr "")))])))
          as (x & Hx & Hcaught).
        rewrite after_transcription_run in Hx |- *. cbn [fst] in Hx.
        rewrite Hx, Hcaught, show_run.
        rewrite (cleanup_run audio (App.data up))
          by apply after_copy_keeps_clip, Hf1.
        rewrite <- !app_assoc. cbn [app].
        eexists. split; [reflexivity|].
        repeat split. intros k' resp' [= <-]. rewrite Hstt. intros [= <-].
        congruence.
      * rewrite bind_eq, show_run. cbn [ret].
        rewrite (cleanup_run audio (App.data up))
          by apply after_copy_keeps_clip, Hf1.
        rewrite <- !app_assoc. cbn [app].
        eexists. split; [reflexivity|]. repeat split.
    + rewrite (transcription_of_raise_caught _ _ Hstt), show_run.
      rewrite (cleanup_run audio (App.data up))
        by apply after_copy_keeps_clip, Hf1.
      rewrite <- !app_assoc. cbn [app].
      eexists. split; [reflexivity|]. repeat split.
  - rewrite (transcribe_audio_sync_missing w audio (App.data up) _ _ _ _ _ x Hk Hf1).
    rewrite (resolve_raises_exception _ _ _ _ _ Hk), show_run.
    rewrite (cleanup_run audio (App.data up)) by exact Hf1.
    rewrite <- !app_assoc. cbn [app].
    eexists. split; [reflexivity|]. repeat split.
Qed.

(* ===================================================================== *)
(** * What only adds to the trace *)
(* ===================================================================== *)

Lemma trace_only_ret {A} (a : A) : trace_only (ret a).
Proof. intros u c e f h t. exists (Ret a), []. now rewrite app_nil_r. Qed.

Lemma trace_only_raise {A} (x : exn) : trace_only (@raise A x).
Proof. intros u c e f h t. exists (Raise x), []. now rewrite app_nil_r. Qed.

Lemma trace_only_log ev : trace_only (log ev).
Proof. intros u c e f h t. exists (Ret tt), [ev]. reflexivity. Qed.

Lemma trace_only_get_secret name : trace_only (Backend.get_secret name).
Proof.
  intros u c e f h t. exists (Backend.resolve u c e name), [Resolve name].
  reflexivity.
Qed.

Lemma trace_only_bind {A B} (m : M A) (k : A -> M B) :
  trace_only m -> (forall a, trace_only (k a)) -> trace_only (bind m k).
Proof.
  intros Hm Hk u c e f h t.
  destruct (Hm u c e f h t) as (r & l & E). rewrite bind_eq, E.
  destruct r as [a|x].
  - destruct (Hk a u c e f h (t ++ l)) as (r' & l' & E'). rewrite E'.
    exists r', (l ++ l'). now rewrite app_assoc.
  - now exists (Raise x), l.
Qed.

Lemma trace_only_subscript d k : trace_only (subscript d k).
Proof.
  unfold subscript. destruct d; try apply trace_only_raise.
  destruct (assoc k d); [apply trace_only_ret | apply trace_only_raise].
Qed.

Lemma trace_only_chat_stage {B} w rq (k : list (option string) -> M B) :
  trace_only (bind (Backend.chat_completions_create w rq) k).
Proof.
  intros u c e f h t. rewrite chat_stage_run. eauto.
Qed.

Lemma trace_only_detect_emotion w text :
  trace_only (Backend.detect_emotion_func w text).
Proof.
  unfold Backend.detect_emotion_func.
  apply trace_only_bind; [apply trace_only_log | intros _].
  apply trace_only_bind; [apply trace_only_get_secret | intros k].
  apply trace_only_bind.
  - destruct text; try apply trace_only_raise. apply trace_only_ret.
  - intros prompt. apply trace_only_chat_stage.
Qed.

Lemma trace_only_generate_image_prompt w text :
  trace_only (Backend.generate_image_prompt_func w text).
Proof.
  unfold Backend.generate_image_prompt_func.
  apply trace_only_bind; [apply trace_only_log | intros _].
  apply trace_only_bind; [apply trace_only_get_secret | intros k].
  apply trace_only_bind.
  - destruct text; try apply trace_only_raise. apply trace_only_ret.
  - intros prompt. apply trace_only_chat_stage.
Qed.

Lemma trace_only_generate_image w prompt :
  trace_only (Backend.generate_image_func w prompt).
Proof.
  unfold Backend.generate_image_func.
  apply trace_only_bind; [apply trace_only_log | intros _].
  apply trace_only_bind; [apply trace_only_get_secret | intros k].
  destruct (negb (json_serializable prompt)); [apply trace_only_raise|].
  apply trace_only_bind; [apply trace_only_log | intros _].
  destruct (negb (status_code _ =? 200));
    [apply trace_only_raise | apply trace_only_ret].
Qed.

(** Past the Transcriber, the orchestrator adds to the trace and nothing
    else. *)
Lemma dream_to_image_files (w : World) (file : upload_file) (s : State) :
  let s1 := snd (Backend.transcribe_audio_func w file s) in
  let s' := snd (Backend.dream_to_image w file s) in
  fs s' = fs s1 /\ handles s' = handles s1.
Proof.
  cbv zeta. unfold Backend.dream_to_image. rewrite bind_eq.
  destruct (Backend.transcribe_audio_func w file s) as [[transcription|x] s1];
    [|split; reflexivity].
  cbn [snd].
  assert (Htail : trace_only
    (bind (subscript transcription "transcription") (fun text =>
     bind (Backend.detect_emotion_func w text) (fun emotion =>
     bind (Backend.generate_image_prompt_func w text) (fun prompt_data =>
     bind (subscript prompt_data "prompt") (fun prompt =>
     bind (Backend.generate_image_func w prompt) (fun image_data =>
     bind (subscript emotion "emotion") (fun emotion_v =>
     bind (subscript prompt_data "prompt") (fun prompt_v =>
     bind (subscript image_data "image") (fun image_v =>
     ret (VDict [("transcription", text); ("emotion", emotion_v);
                 ("prompt", prompt_v); ("image", image_v)]))))))))))).
  { repeat first
      [ apply trace_only_ret
      | apply trace_only_subscript
      | apply trace_only_detect_emotion
      | apply trace_only_generate_image_prompt
      | apply trace_only_generate_image
      | apply trace_only_bind; [|intros ?] ]. }
  destruct s1 as [u c e f h t].
  destruct (Htail u c e f h t) as (r & l & E).
  fold (@bind value value) in E |- *.
  rewrite E. split; reflexivity.
Qed.

(* ===================================================================== *)
(** * Short-circuiting and cleanup *)
(* ===================================================================== *)

(** C1, on the orchestrator of [/dream-to-image]: a transcription that is
    empty does not end the run.  Whatever the services answer after it, the
    EmotionClassifier is invoked on the empty transcription all the same, and
    its request, made of the instruction and nothing after it, is sent to the
    completion service.  The run ends there with an error, no result being
    returned and the two other stages not being invoked: when the completion
    service answers the request, it is the [TypeError] of the [await]. *)
Theorem C1_dream_to_image_does_not_short_circuit
        (w : World) (s : State) name media data k1 k2 d :
  credential s "OPENAI_API_KEY" = Ret k1 ->
  credential s "GROQ_API_KEY" = Ret k2 ->
  let rq1 := Backend.stt_request_of k1 (name, data, media) in
  let rq2 := Backend.emotion_request k2 (Backend.emotion_instruction +:+ "") in
  status_code (stt_post w rq1) = 200 ->
  json (stt_post w rq1) = Some (VDict d) ->
  dict_get d "text" (VStr "") = VStr "" ->
  let '(r, s') := Backend.dream_to_image w (in_memory name media data) s in
  (exists x, r = Raise x)
  /\ invoked EmotionClassifier (new_events s s') = true
  /\ (exists n, (1 <= n <= 3)%nat
                /\ upstream_calls (new_events s s')
                   = SttPost rq1 :: repeat (ChatPost rq2) n)
  /\ invoked PromptGenerator (new_events s s') = false
  /\ invoked ImageSynthesizer (new_events s s') = false
  /\ (Backend.is_success (chat_post w 0 rq2) = true ->
      r = Raise TypeError
      /\ upstream_calls (new_events s s') = [SttPost rq1; ChatPost rq2]).
Proof.
  intros Hk1 Hk2 rq1 rq2 Hst Hjs Hd.
  destruct s as [u c e f h t]. unfold credential in *.
  cbn [use_streamlit_secrets st_secrets environ] in *.
  assert (Hstt : transcription_of (stt_post w rq1)
                 = Ret (VDict [("transcription", VStr "")]))
    by (rewrite (transcription_of_ok _ d Hst Hjs), Hd; reflexivity).
  destruct (dream_to_image_head w name media data u c e f h t k1 "" Hk1 Hstt)
    as [f' ->].
  rewrite bind_eq, (detect_emotion_run w "" _ _ _ _ _ _ k2 Hk2). fold rq1 rq2.
  rewrite <- !app_assoc. cbn [app]. rewrite new_events_app.
  assert (Hcalls : forall n,
            upstream_calls
              (Invoke Transcriber :: Resolve "OPENAI_API_KEY" :: SttPost rq1
               :: Invoke EmotionClassifier :: Resolve "GROQ_API_KEY"
               :: repeat (ChatPost rq2) n)
            = SttPost rq1 :: repeat (ChatPost rq2) n).
  { intros n. unfold upstream_calls. cbn [List.filter is_upstream_call].
    f_equal. apply upstream_calls_chat_posts. }
  split; [eauto|]. split; [reflexivity|]. split; [|split; [|split]].
  - eexists. split; [|apply Hcalls].
    pose proof (groq_retries_bound w rq2 Backend.DEFAULT_MAX_RETRIES 0).
    unfold Backend.DEFAULT_MAX_RETRIES in *. lia.
  - unfold invoked. cbn [existsb invokes orb]. apply invoked_chat_posts.
  - unfold invoked. cbn [existsb invokes orb]. apply invoked_chat_posts.
  - intros Hs. unfold groq_last.
    rewrite (groq_call_retries w rq2 0%nat ltac:(lia)
               ltac:(intros i Hi; lia) (or_introl Hs)).
    unfold awaited. rewrite Hs. split; [reflexivity | apply Hcalls].
Qed.

Lemma C1_dream_to_image_does_not_short_circuit_witness :
  let '(r, s') := Backend.dream_to_image Sample.silent Sample.clip Sample.ready in
  r = Raise TypeError
  /\ invoked EmotionClassifier (trace s') = true
  /\ upstream_calls (trace s')
     = [SttPost (Backend.stt_request_of "sk-1"
                   ("reve.mp3", bytes_of_string "ID3", "audio/mpeg"));
        ChatPost (Backend.emotion_request "gsk-2"
                    (Backend.emotion_instruction +:+ ""))].
Proof.
  pose proof
    (C1_dream_to_image_does_not_short_circuit
       Sample.silent Sample.ready "reve.mp3" "audio/mpeg"
       (bytes_of_string "ID3") "sk-1" "gsk-2" [("text", VStr "")]
       eq_refl eq_refl eq_refl eq_refl eq_refl) as H.
  cbv zeta in H.
  change (in_memory "reve.mp3" "audio/mpeg" (bytes_of_string "ID3"))
    with Sample.clip in H.
  destruct (Backend.dream_to_image Sample.silent Sample.clip Sample.ready)
    as [r s'].
  destruct H as (_ & Hinv & _ & _ & _ & Hans).
  destruct (Hans eq_refl) as [Hr Hcalls].
  split; [exact Hr|]. split; [exact Hinv | exact Hcalls].
Defined.

(** The pipeline of [app.py] on the same world: the empty transcription ends
    the run after the Transcriber. *)
Lemma app_pipeline_stops_on_empty_transcription :
  let '(r, s') := App.pipeline Sample.silent Sample.upload Sample.ready in
  r = Ret tt
  /\ invoked Transcriber (trace s') = true
  /\ invoked EmotionClassifier (trace s') = false
  /\ invoked PromptGenerator (trace s') = false
  /\ invoked ImageSynthesizer (trace s') = false
  /\ length (upstream_calls (trace s')) = 1%nat.
Proof. vm_compute. repeat split. Qed.

(** C9: the pipeline of [app.py] always ends normally, with the clip it
    stored gone, the copy the Transcriber made of it gone, and no file object
    open; when [tempfile] gave new names, the files are those of before.  The
    Transcriber on its own, and the orchestrator of [/dream-to-image], leave
    no copy and no file object either. *)
Theorem C9_temporary_files_are_removed (w : World) (s : State) :
  handles s = [] ->
  (forall up,
     let audio := mkstemp w (fs s) ("." +:+ Text.last_segment "." (App.name up)) in
     let f1 := <[audio := App.data up]> (fs s) in
     let tmp := mkstemp w f1 ".mp3" in
     let '(r, s') := App.pipeline w up s in
     r = Ret tt
     /\ fs s' !! audio = None
     /\ (forall k, credential s "OPENAI_API_KEY" = Ret k -> fs s' !! tmp = None)
     /\ handles s' = []
     /\ (fs s !! audio = None -> f1 !! tmp = None -> fs s' = fs s))
  /\ (forall name media data,
        let tmp := mkstemp w (fs s) ".mp3" in
        let s1 := snd (Backend.transcribe_audio_func w (in_memory name media data) s) in
        let s2 := snd (Backend.dream_to_image w (in_memory name media data) s) in
        (forall k, credential s "OPENAI_API_KEY" = Ret k ->
                   fs s1 !! tmp = None /\ fs s2 !! tmp = None)
        /\ handles s1 = [] /\ handles s2 = []
        /\ (fs s !! tmp = None -> fs s1 = fs s /\ fs s2 = fs s)).
Proof.
  destruct s as [u c e f h t]. unfold credential.
  cbn [use_streamlit_secrets st_secrets environ fs handles].
  intros ->. split.
  - intros up.
    destruct (pipeline_run w up u c e f t) as (l & -> & _).
    cbn [fs handles].
    set (audio := mkstemp w f ("." +:+ Text.last_segment "." (App.name up))).
    set (f1 := <[audio := App.data up]> f).
    set (tmp := mkstemp w f1 ".mp3").
    split; [reflexivity|]. split; [apply lookup_delete_eq|].
    split; [|split; [reflexivity|]].
    + intros k ->. unfold after_copy. fold tmp.
      destruct (String.eqb_spec tmp audio) as [-> | Hne].
      * apply lookup_delete_eq.
      * rewrite lookup_delete_ne by (intros E; apply Hne; symmetry; exact E).
        apply lookup_delete_eq.
    + intros Hnew Hnew1.
      assert (Hne : tmp <> audio).
      { intros E. rewrite E in Hnew1. unfold f1 in Hnew1.
        rewrite lookup_insert_eq in Hnew1. discriminate. }
      destruct (Backend.resolve u c e "OPENAI_API_KEY").
      * unfold after_copy. fold tmp.
        destruct (String.eqb_spec tmp audio) as [E | _]; [contradiction|].
        rewrite (delete_insert_id _ _ _ Hnew1). unfold f1.
        apply delete_insert_id, Hnew.
      * unfold f1. apply delete_insert_id, Hnew.
  - intros name media data.
    pose proof (dream_to_image_files w (in_memory name media data)
                  (St u c e f [] t)) as Hfiles.
    cbv zeta in Hfiles. destruct Hfiles as [-> ->].
    destruct (Backend.resolve u c e "OPENAI_API_KEY") as [k|x] eqn:Hk.
    + rewrite (transcribe_run w (in_memory name media data) data _ _ _ _ _ _ k Hk)
        by reflexivity.
      cbn [snd fs handles is_open existsb].
      repeat split.
      * apply lookup_delete_eq.
      * apply lookup_delete_eq.
      * apply delete_insert_id; assumption.
      * apply delete_insert_id; assumption.
    + rewrite (transcribe_run_missing w _ _ _ _ _ _ _ x Hk).
      cbn [snd fs handles].
      repeat split; intros; discriminate.
Qed.

Lemma C9_temporary_files_are_removed_witness :
  fs (snd (App.pipeline Sample.nightmare Sample.upload Sample.ready)) = ∅
  /\ handles (snd (App.pipeline Sample.nightmare Sample.upload Sample.ready)) = [].
Proof.
  pose proof (proj1 (C9_temporary_files_are_removed Sample.nightmare Sample.ready
                       eq_refl) Sample.upload) as H.
  cbv zeta in H.
  destruct (App.pipeline Sample.nightmare Sample.upload Sample.ready) as [r s'].
  destruct H as (_ & _ & _ & Hh & Hf).
  split; [|exact Hh].
  apply Hf; reflexivity.
Defined.

(* ===================================================================== *)
(** * Further properties of the secret resolver and of the stages *)
(* ===================================================================== *)

(** X1: [get_secret] fails in two ways only: with Streamlit's error when
    the session store is in use and has no secrets file to read, and
    otherwise, the name being in neither store or empty in the environment,
    with the [RuntimeError] that names the key.  And it invents nothing: a
    value it returns is the one of the session store, or the one of the
    environment, which is then not empty. *)
Theorem get_secret_failures_and_returned_values (s : State) (name : string) :
  let in_environ_only :=
    use_streamlit_secrets s = false
    \/ exists secrets, st_secrets s = Some secrets /\ secrets !! name = None in
  (forall x, fst (Backend.get_secret name s) = Raise x ->
             (x = StreamlitSecretNotFoundError
              /\ use_streamlit_secrets s = true /\ st_secrets s = None)
             \/ (x = RuntimeError ("Clé API '" +:+ name +:+ "' manquante.")
                 /\ in_environ_only
                 /\ (environ s !! name = None \/ environ s !! name = Some "")))
  /\ (forall v, fst (Backend.get_secret name s) = Ret v ->
                (use_streamlit_secrets s = true
                 /\ exists secrets,
                      st_secrets s = Some secrets /\ secrets !! name = Some v)
                \/ (in_environ_only /\ environ s !! name = Some v /\ v <> "")).
Proof.
  intros in_environ_only. subst in_environ_only.
  destruct s as [u c e f h t]. rewrite get_secret_run. cbn [fst].
  cbn [use_streamlit_secrets st_secrets environ].
  assert (Henv : forall r,
            Backend.from_environ e name = r ->
            match r with
            | Ret v => e !! name = Some v /\ v <> ""
            | Raise x => x = Backend.missing name
                         /\ (e !! name = None \/ e !! name = Some "")
            end).
  { intros r <-. unfold Backend.from_environ.
    destruct (e !! name) as [v|]; cbn [Backend.not_value]; [|auto].
    destruct (String.eqb_spec v ""); [subst; auto | auto]. }
  unfold Backend.resolve.
  destruct u; [destruct c as [m|]; [destruct (m !! name) as [v'|] eqn:Hm|]|].
  - split; [discriminate|]. intros v [= ->]. left. eauto.
  - split.
    + intros x Hx. destruct (Henv _ Hx) as [-> He]. right. eauto 7.
    + intros v Hv. destruct (Henv _ Hv) as [He Hne]. right. eauto 7.
  - split; [|discriminate]. intros x [= <-]. left. auto.
  - split.
    + intros x Hx. destruct (Henv _ Hx) as [-> He]. right. auto.
    + intros v Hv. destruct (Henv _ Hv) as [He Hne]. right. auto.
Qed.

Lemma get_secret_failures_and_returned_values_witness :
  environ Sample.ready !! "GROQ_API_KEY" = Some "gsk-2"
  /\ st_secrets Sample.no_secrets_file = None.
Proof.
  split.
  - destruct (proj2 (get_secret_failures_and_returned_values
                       Sample.ready "GROQ_API_KEY") "gsk-2" eq_refl)
      as [[_ (m & _ & H)] | (_ & H & _)].
    + reflexivity.
    + exact H.
  - destruct (proj1 (get_secret_failures_and_returned_values
                       Sample.no_secrets_file "GROQ_API_KEY")
                    StreamlitSecretNotFoundError eq_refl)
      as [(_ & _ & H) | (H & _)].
    + exact H.
    + discriminate H.
Defined.

(** X2: a stage whose credential is missing fails with the resolver's error
    before it does anything else: no request leaves, and the Transcriber has
    not even written its temporary copy. *)
Theorem missing_credential_stops_a_stage_before_any_request
        (w : World) (s : State) :
  (forall x file,
     credential s "OPENAI_API_KEY" = Raise x ->
     let '(r, s') := Backend.transcribe_audio_func w file s in
     r = Raise x /\ upstream_calls (new_events s s') = []
     /\ fs s' = fs s /\ handles s' = handles s)
  /\ (forall x text,
        credential s "GROQ_API_KEY" = Raise x ->
        let '(r, s') := Backend.detect_emotion_func w text s in
        r = Raise x /\ upstream_calls (new_events s s') = [])
  /\ (forall x text,
        credential s "GROQ_API_KEY" = Raise x ->
        let '(r, s') := Backend.generate_image_prompt_func w text s in
        r = Raise x /\ upstream_calls (new_events s s') = [])
  /\ (forall x prompt,
        credential s "CLIPDROP_API_KEY" = Raise x ->
        let '(r, s') := Backend.generate_image_func w prompt s in
        r = Raise x /\ upstream_calls (new_events s s') = []).
Proof.
  destruct s as [u c e f h t]. unfold credential.
  cbn [use_streamlit_secrets st_secrets environ].
  split; [|split; [|split]].
  - intros x file Hk. rewrite (transcribe_run_missing w _ _ _ _ _ _ _ x Hk).
    rewrite new_events_app. repeat split.
  - intros x text Hk. rewrite (stage_missing_emotion w _ _ _ _ _ _ _ x Hk).
    rewrite new_events_app. repeat split.
  - intros x text Hk. rewrite (generate_image_prompt_missing w _ _ _ _ _ _ _ x Hk).
    rewrite new_events_app. repeat split.
  - intros x prompt Hk. rewrite (generate_image_missing w _ _ _ _ _ _ _ x Hk).
    rewrite new_events_app. repeat split.
Qed.

Lemma missing_credential_stops_a_stage_before_any_request_witness :
  fst (Backend.generate_image_func Sample.nightmare (VStr "une ville")
                                   Sample.no_clipdrop)
  = Raise (Backend.missing "CLIPDROP_API_KEY").
Proof.
  pose proof
    (proj2 (proj2 (proj2 (missing_credential_stops_a_stage_before_any_request
                            Sample.nightmare Sample.no_clipdrop)))
           (Backend.missing "CLIPDROP_API_KEY") (VStr "une ville") eq_refl) as H.
  destruct (Backend.generate_image_func _ _ _) as [r s'].
  exact (proj1 H).
Defined.



Lemma trace_only_frame {A} (m : M A) (s : State) :
  trace_only m ->
  let s' := snd (m s) in
  use_streamlit_secrets s' = use_streamlit_secrets s
  /\ st_secrets s' = st_secrets s
  /\ environ s' = environ s
  /\ fs s' = fs s
  /\ handles s' = handles s
  /\ exists l, trace s' = trace s ++ l.
Proof.
  intros Hm. destruct s as [u c e f h t].
  destruct (Hm u c e f h t) as (r & l & E). cbv zeta. rewrite E.
  cbn [snd use_streamlit_secrets st_secrets environ fs handles trace].
  repeat split. eauto.
Qed.

(** X4: the EmotionClassifier, the PromptGenerator and the ImageSynthesizer
    leave the credential stores, the files and the open handles as they found
    them, on every input and outcome; all they do to the state is to extend
    the history. *)
Theorem completion_and_image_stages_touch_no_file
        (w : World) (s : State) (v : value) :
  let unchanged (s' : State) :=
    use_streamlit_secrets s' = use_streamlit_secrets s
    /\ st_secrets s' = st_secrets s
    /\ environ s' = environ s
    /\ fs s' = fs s
    /\ handles s' = handles s
    /\ exists l, trace s' = trace s ++ l in
  unchanged (snd (Backend.detect_emotion_func w v s))
  /\ unchanged (snd (Backend.generate_image_prompt_func w v s))
  /\ unchanged (snd (Backend.generate_image_func w v s)).
Proof.
  cbv zeta. split; [|split].
  - apply (trace_only_frame _ s (trace_only_detect_emotion w v)).
  - apply (trace_only_frame _ s (trace_only_generate_image_prompt w v)).
  - apply (trace_only_frame _ s (trace_only_generate_image w v)).
Qed.


(* ===================================================================== *)
(** * Further properties of the orchestrator of [/dream-to-image] *)
(* ===================================================================== *)

(** X6: the orchestrator of [/dream-to-image] returns no result, whatever
    its input, its keys and the answers of the services: every run ends with
    an error, raised in the Transcriber or in the EmotionClassifier.  The
    PromptGenerator and the ImageSynthesizer are not invoked, and nothing is
    sent to the text-to-image service. *)
Theorem dream_to_image_never_returns (w : World) (s : State) name media data :
  let '(r, s') := Backend.dream_to_image w (in_memory name media data) s in
  (exists x, r = Raise x)
  /\ invoked PromptGenerator (new_events s s') = false
  /\ invoked ImageSynthesizer (new_events s s') = false
  /\ (forall rq, ~ In (ImagePost rq) (new_events s s')).
Proof.
  destruct s as [u c e f h t].
  destruct (dream_to_image_raises w name media data u c e f h t)
    as (x & f' & l & -> & Hl & _).
  destruct (up_to_the_classifier_facts l Hl) as (Hp & Hi & Hpost & _).
  rewrite new_events_app. eauto.
Qed.

(** X7: the orchestrator stops at the first stage that fails and returns its
    error as it is; the stages after it are not invoked and send nothing.
    For the Transcriber the failure is a response that is not 200; for the
    EmotionClassifier it is the status error its client raises, once the
    client has sent the request again as many times as it would. *)
Theorem dream_to_image_stops_at_the_first_failure
        (w : World) (s : State) name media data k1 k2 :
  credential s "OPENAI_API_KEY" = Ret k1 ->
  credential s "GROQ_API_KEY" = Ret k2 ->
  let rq1 := Backend.stt_request_of k1 (name, data, media) in
  let run := Backend.dream_to_image w (in_memory name media data) s in
  let events := new_events s (snd run) in
  (* the Transcriber *)
  (status_code (stt_post w rq1) <> 200 ->
   fst run = Raise (HTTPException (status_code (stt_post w rq1))
                                  (text (stt_post w rq1)))
   /\ upstream_calls events = [SttPost rq1]
   /\ invoked EmotionClassifier events = false
   /\ invoked PromptGenerator events = false
   /\ invoked ImageSynthesizer events = false)
  (* the EmotionClassifier *)
  /\ (forall d txt n,
        status_code (stt_post w rq1) = 200 ->
        json (stt_post w rq1) = Some (VDict d) ->
        dict_get d "text" (VStr "") = VStr txt ->
        let rq2 := Backend.emotion_request k2
                     (Backend.emotion_instruction +:+ txt) in
        (n <= 2)%nat ->
        (forall i, (i < n)%nat ->
                   Backend.is_success (chat_post w i rq2) = false
                   /\ chat_should_retry w (chat_post w i rq2) = true) ->
        Backend.is_success (chat_post w n rq2) = false ->
        (n = 2%nat \/ chat_should_retry w (chat_post w n rq2) = false) ->
        fst run = Raise (APIStatusError (status_code (chat_post w n rq2))
                                        (text (chat_post w n rq2)))
        /\ upstream_calls events = SttPost rq1 :: repeat (ChatPost rq2) (S n)
        /\ invoked PromptGenerator events = false
        /\ invoked ImageSynthesizer events = false).
Proof.
  intros Hk1 Hk2 rq1 run events. subst run events.
  destruct s as [u c e f h t]. unfold credential in *.
  cbn beta iota delta [use_streamlit_secrets st_secrets environ] in *.
  split.
  - intros Hst. unfold Backend.dream_to_image. rewrite bind_eq.
    rewrite (transcribe_run w (in_memory name media data) data _ _ _ _ _ _ k1 Hk1)
      by reflexivity.
    cbn [in_memory filename content_type]. fold rq1.
    unfold transcription_of. apply Z.eqb_neq in Hst. rewrite Hst.
    cbn [negb fst snd]. rewrite new_events_app. repeat split.
  - intros d txt n Hst Hjs Hd.
    set (rq2 := Backend.emotion_request k2 (Backend.emotion_instruction +:+ txt)).
    cbv zeta. intros Hn Hbefore Hfail Hlast.
    assert (Hstt : transcription_of (stt_post w rq1)
                   = Ret (VDict [("transcription", VStr txt)]))
      by (rewrite (transcription_of_ok _ d Hst Hjs), Hd; reflexivity).
    destruct (dream_to_image_head w name media data u c e f h t k1 txt Hk1 Hstt)
      as [f' ->].
    rewrite bind_eq, (detect_emotion_run w txt _ _ _ _ _ _ k2 Hk2).
    fold rq1 rq2. unfold groq_last.
    rewrite (groq_call_retries w rq2 n Hn Hbefore (or_intror Hlast)).
    unfold awaited. rewrite Hfail. cbn [fst snd].
    rewrite <- !app_assoc. cbn [app]. rewrite new_events_app.
    split; [reflexivity|].
    split; [|split].
    + unfold upstream_calls. cbn [List.filter is_upstream_call]. f_equal.
      apply upstream_calls_chat_posts.
    + unfold invoked. cbn [existsb invokes orb].
      apply invoked_chat_posts.
    + unfold invoked. cbn [existsb invokes orb].
      apply invoked_chat_posts.
Qed.

Lemma dream_to_image_stops_at_the_first_failure_witness :
  fst (Backend.dream_to_image Sample2.over_quota Sample.clip Sample.ready)
  = Raise (HTTPException 429 "quota")
  /\ fst (Backend.dream_to_image Sample2.chat_down Sample.clip Sample.ready)
     = Raise (APIStatusError 503 "down")
  /\ fst (Backend.dream_to_image Sample2.chat_refuses Sample.clip Sample.ready)
     = Raise (APIStatusError 401 "invalid api key").
Proof.
  split; [|split].
  - apply (proj1 (dream_to_image_stops_at_the_first_failure
                    Sample2.over_quota Sample.ready "reve.mp3" "audio/mpeg"
                    (bytes_of_string "ID3") "sk-1" "gsk-2" eq_refl eq_refl)).
    vm_compute. discriminate.
  - apply (proj2 (dream_to_image_stops_at_the_first_failure
                    Sample2.chat_down Sample.ready "reve.mp3" "audio/mpeg"
                    (bytes_of_string "ID3") "sk-1" "gsk-2" eq_refl eq_refl)
                 [("text", VStr Sample.dream)] Sample.dream 2%nat
                 eq_refl eq_refl eq_refl ltac:(lia)
                 ltac:(intros [|[|i]] Hi; [split; reflexivity ..|lia])
                 eq_refl (or_introl eq_refl)).
  - apply (proj2 (dream_to_image_stops_at_the_first_failure
                    Sample2.chat_refuses Sample.ready "reve.mp3" "audio/mpeg"
                    (bytes_of_string "ID3") "sk-1" "gsk-2" eq_refl eq_refl)
                 [("text", VStr Sample.dream)] Sample.dream 0%nat
                 eq_refl eq_refl eq_refl ltac:(lia)
                 ltac:(intros i Hi; lia)
                 eq_refl (or_intror eq_refl)).
Defined.

(** X8: a 200 answer whose [text] is not a string (a null, a number, a
    list) passes the Transcriber and breaks the orchestrator in the
    EmotionClassifier, on the concatenation, with [TypeError]: the classifier
    has resolved its credential and has sent nothing. *)
Theorem dream_to_image_breaks_on_a_text_that_is_not_a_string
        (w : World) (s : State) name media data k1 k2 d v :
  credential s "OPENAI_API_KEY" = Ret k1 ->
  credential s "GROQ_API_KEY" = Ret k2 ->
  let rq1 := Backend.stt_request_of k1 (name, data, media) in
  status_code (stt_post w rq1) = 200 ->
  json (stt_post w rq1) = Some (VDict d) ->
  assoc "text" d = Some v ->
  (forall txt, v <> VStr txt) ->
  let '(r, s') := Backend.dream_to_image w (in_memory name media data) s in
  fst (Backend.transcribe_audio_func w (in_memory name media data) s)
  = Ret (VDict [("transcription", v)])
  /\ r = Raise TypeError
  /\ new_events s s'
     = [Invoke Transcriber; Resolve "OPENAI_API_KEY"; SttPost rq1;
        Invoke EmotionClassifier; Resolve "GROQ_API_KEY"].
Proof.
  intros Hk1 Hk2 rq1 Hst Hjs Hd Hv.
  destruct s as [u c e f h t]. unfold credential in *.
  cbn beta iota delta [use_streamlit_secrets st_secrets environ] in *.
  unfold Backend.dream_to_image. rewrite bind_eq.
  rewrite (transcribe_run w (in_memory name media data) data _ _ _ _ _ _ k1 Hk1)
    by reflexivity.
  cbn [in_memory filename content_type fst]. fold rq1.
  rewrite (transcription_of_ok _ d Hst Hjs). unfold dict_get. rewrite Hd.
  rewrite bind_eq, subscript_head.
  rewrite bind_eq, (detect_emotion_stops w v _ _ _ _ _ _ Hv), Hk2.
  rewrite <- !app_assoc. cbn [app]. rewrite new_events_app.
  repeat split.
Qed.

Lemma dream_to_image_breaks_on_a_text_that_is_not_a_string_witness :
  fst (Backend.dream_to_image Sample2.null_text Sample.clip Sample.ready)
  = Raise TypeError.
Proof.
  pose proof
    (dream_to_image_breaks_on_a_text_that_is_not_a_string
       Sample2.null_text Sample.ready "reve.mp3" "audio/mpeg"
       (bytes_of_string "ID3") "sk-1" "gsk-2" [("text", VNone)] VNone
       eq_refl eq_refl eq_refl eq_refl eq_refl
       ltac:(intros txt; discriminate)) as H.
  cbv zeta in H.
  change (in_memory "reve.mp3" "audio/mpeg" (bytes_of_string "ID3"))
    with Sample.clip in H.
  destruct (Backend.dream_to_image _ _ _) as [r s'].
  exact (proj1 (proj2 H)).
Defined.

(* ===================================================================== *)
(** * The HTTP surface keeps no state *)
(* ===================================================================== *)

Lemma stateless_ret {A} (a : A) : stateless (ret a).
Proof. intros u c e. exists (Ret a). intros f h t. now exists f, h, t. Qed.

Lemma stateless_raise {A} (x : exn) : stateless (@raise A x).
Proof. intros u c e. exists (Raise x). intros f h t. now exists f, h, t. Qed.

Lemma stateless_log ev : stateless (log ev).
Proof.
  intros u c e. exists (Ret tt). intros f h t. now exists f, h, (t ++ [ev]).
Qed.

Lemma stateless_get_secret name : stateless (Backend.get_secret name).
Proof.
  intros u c e. exists (Backend.resolve u c e name). intros f h t.
  now exists f, h, (t ++ [Resolve name]).
Qed.

Lemma stateless_bind {A B} (m : M A) (k : A -> M B) :
  stateless m -> (forall a, stateless (k a)) -> stateless (bind m k).
Proof.
  intros Hm Hk u c e. destruct (Hm u c e) as [[a|x] Hr].
  - destruct (Hk a u c e) as [r' Hr']. exists r'. intros f h t.
    destruct (Hr f h t) as (f1 & h1 & t1 & E). rewrite bind_eq, E. apply Hr'.
  - exists (Raise x). intros f h t.
    destruct (Hr f h t) as (f1 & h1 & t1 & E). rewrite bind_eq, E. eauto.
Qed.

Lemma stateless_subscript d k : stateless (subscript d k).
Proof.
  unfold subscript. destruct d; try apply stateless_raise.
  destruct (assoc k d); [apply stateless_ret | apply stateless_raise].
Qed.

Lemma stateless_str_add p v : stateless (str_add p v).
Proof. destruct v; try apply stateless_raise. apply stateless_ret. Qed.

Lemma stateless_first_content choices : stateless (Backend.first_content choices).
Proof.
  destruct choices as [|[a|] l];
    [apply stateless_raise | apply stateless_ret | apply stateless_raise].
Qed.

Lemma stateless_chat_completions_create w rq :
  stateless (Backend.chat_completions_create w rq).
Proof.
  intros u c e. eexists. intros f h t.
  rewrite chat_completions_create_run. eauto.
Qed.

Lemma stateless_mistral_completions_create rq :
  stateless (Api.mistral_completions_create rq).
Proof. apply stateless_raise. Qed.

Ltac stateless_steps :=
  repeat first
    [ apply stateless_ret
    | apply stateless_raise
    | apply stateless_log
    | apply stateless_get_secret
    | apply stateless_subscript
    | apply stateless_str_add
    | apply stateless_first_content
    | apply stateless_chat_completions_create
    | apply stateless_mistral_completions_create
    | apply stateless_bind; [|intros ?] ].

Lemma stateless_detect_emotion w v : stateless (Backend.detect_emotion_func w v).
Proof. unfold Backend.detect_emotion_func. stateless_steps. Qed.

Lemma stateless_generate_image_prompt w v :
  stateless (Backend.generate_image_prompt_func w v).
Proof. unfold Backend.generate_image_prompt_func. stateless_steps. Qed.

Lemma stateless_generate_image w v : stateless (Backend.generate_image_func w v).
Proof.
  unfold Backend.generate_image_func.
  apply stateless_bind; [apply stateless_log | intros _].
  apply stateless_bind; [apply stateless_get_secret | intros k].
  destruct (negb (json_serializable v)); [apply stateless_raise|].
  apply stateless_bind; [apply stateless_log | intros _].
  destruct (negb (status_code _ =? 200));
    [apply stateless_raise | apply stateless_ret].
Qed.

Lemma stateless_generate_mistral_prompt v :
  stateless (Api.generate_mistral_prompt_func v).
Proof. unfold Api.generate_mistral_prompt_func. stateless_steps. Qed.

Lemma stateless_transcribe w name media data :
  stateless (Backend.transcribe_audio_func w (in_memory name media data)).
Proof.
  intros u c e.
  destruct (Backend.resolve u c e "OPENAI_API_KEY") as [k|x] eqn:Hk.
  - eexists. intros f h t.
    rewrite (transcribe_run w (in_memory name media data) data _ _ _ _ _ _ k Hk)
      by reflexivity.
    cbn [in_memory filename content_type]. eauto.
  - exists (Raise x). intros f h t.
    rewrite (transcribe_run_missing w _ _ _ _ _ _ _ x Hk). eauto.
Qed.

Lemma stateless_dream_to_image w name media data :
  stateless (Backend.dream_to_image w (in_memory name media data)).
Proof.
  unfold Backend.dream_to_image.
  repeat first
    [ apply stateless_ret
    | apply stateless_subscript
    | apply stateless_transcribe
    | apply stateless_detect_emotion
    | apply stateless_generate_image_prompt
    | apply stateless_generate_image
    | apply stateless_bind; [|intros ?] ].
Qed.

Lemma stateless_outcome {A} (m : M A) (s1 s2 : State) :
  stateless m -> same_stores s1 s2 ->
  fst (m s1) = fst (m s2) /\ same_stores s1 (snd (m s1)).
Proof.
  intros Hm. destruct s1 as [u c e f1 h1 t1], s2 as [u2 c2 e2 f2 h2 t2].
  unfold same_stores. cbn [use_streamlit_secrets st_secrets environ].
  intros (<- & <- & <-).
  destruct (Hm u c e) as [r Hr].
  destruct (Hr f1 h1 t1) as (f1' & h1' & t1' & ->).
  destruct (Hr f2 h2 t2) as (f2' & h2' & t2' & ->).
  cbn [fst snd use_streamlit_secrets st_secrets environ]. repeat split.
Qed.

(** X9: no endpoint of the API reads or keeps a state of its own.  What it
    answers, the services answering alike, is the same in any two states
    that hold the same credentials, whatever files, open handles and history
    they have; and it leaves the credentials as they are. *)
Theorem endpoints_keep_no_state
        (w : World) name media data
        (text : Api.TextPayload) (prompt : Api.PromptPayload) :
  let stateless_endpoint (endpoint : M value) :=
    forall s1 s2, same_stores s1 s2 ->
                  fst (endpoint s1) = fst (endpoint s2)
                  /\ same_stores s1 (snd (endpoint s1)) in
  stateless_endpoint (Api.transcribe_audio w (in_memory name media data))
  /\ stateless_endpoint (Api.analyze_emotion w text)
  /\ stateless_endpoint (Api.generate_prompt w text)
  /\ stateless_endpoint (Api.generate_image w prompt)
  /\ stateless_endpoint (Api.mistral_prompt text)
  /\ stateless_endpoint (Backend.dream_to_image w (in_memory name media data)).
Proof.
  cbv zeta.
  split; [|split; [|split; [|split; [|split]]]];
    intros s1 s2; apply stateless_outcome.
  - apply stateless_transcribe.
  - apply stateless_detect_emotion.
  - apply stateless_generate_image_prompt.
  - apply stateless_generate_image.
  - apply stateless_generate_mistral_prompt.
  - apply stateless_dream_to_image.
Qed.

Lemma endpoints_keep_no_state_witness :
  fst (Api.transcribe_audio Sample2.over_quota Sample.clip Sample.ready)
  = fst (Api.transcribe_audio Sample2.over_quota Sample.clip Sample2.busy)
  /\ fst (Api.generate_image Sample.nightmare
            {| Api.payload_prompt := "une ville" |} Sample.ready)
     = fst (Api.generate_image Sample.nightmare
              {| Api.payload_prompt := "une ville" |} Sample2.busy).
Proof.
  split.
  - apply (proj1 (endpoints_keep_no_state Sample2.over_quota
                    "reve.mp3" "audio/mpeg" (bytes_of_string "ID3")
                    {| Api.payload_text := Sample.dream |}
                    {| Api.payload_prompt := "une ville" |})
                 Sample.ready Sample2.busy).
    split; [|split]; reflexivity.
  - apply (proj1 (proj2 (proj2 (proj2
             (endpoints_keep_no_state Sample.nightmare
                "reve.mp3" "audio/mpeg" (bytes_of_string "ID3")
                {| Api.payload_text := Sample.dream |}
                {| Api.payload_prompt := "une ville" |}))))
             Sample.ready Sample2.busy).
    split; [|split]; reflexivity.
Defined.

(* ===================================================================== *)
(** * The Mistral prompt generator *)
(* ===================================================================== *)

(** X10: [generate_mistral_prompt_func] never returns and never sends a
    request.  Without the Mistral key it raises the error of the resolver,
    whatever other keys are set.  With the key it raises [TypeError] on a
    text that is no string, and otherwise [AttributeError] when it reaches
    for [client.chat.completions], which the Mistral client does not have.
    All it leaves in the history is the lookup of its key. *)
Theorem mistral_prompt_generator_never_sends (s : State) (text : value) :
  let '(r, s') := Api.generate_mistral_prompt_func text s in
  new_events s s' = [Resolve "MISTRAL_API_KEY"]
  /\ (forall x, credential s "MISTRAL_API_KEY" = Raise x -> r = Raise x)
  /\ (forall k txt, credential s "MISTRAL_API_KEY" = Ret k ->
                    text = VStr txt -> r = Raise AttributeError)
  /\ (forall k, credential s "MISTRAL_API_KEY" = Ret k ->
                (forall txt, text <> VStr txt) -> r = Raise TypeError).
Proof.
  destruct s as [u c e f h t]. unfold credential.
  cbn [use_streamlit_secrets st_secrets environ].
  unfold Api.generate_mistral_prompt_func.
  rewrite bind_eq, get_secret_run.
  destruct (Backend.resolve u c e "MISTRAL_API_KEY") as [k|x].
  - rewrite bind_eq.
    assert (Hstr : (exists txt, text = VStr txt) \/ (forall txt, text <> VStr txt))
      by (destruct text; eauto; right; discriminate).
    destruct Hstr as [[txt ->] | Hstr].
    + cbn [str_add ret]. rewrite bind_eq.
      unfold Api.mistral_completions_create, raise.
      rewrite new_events_app.
      split; [reflexivity|]. split; [discriminate|].
      split; [reflexivity|]. intros k' _ Hnot. now destruct (Hnot txt).
    + assert (E : forall s0 : State,
                str_add Api.mistral_instruction text s0 = (Raise TypeError, s0))
        by (intros s0; destruct text; try reflexivity; now destruct (Hstr s)).
      rewrite E, new_events_app.
      split; [reflexivity|]. split; [discriminate|].
      split; [|reflexivity]. intros k' txt _ ->. now destruct (Hstr txt).
  - rewrite new_events_app.
    split; [reflexivity|]. split; [intros x' [= <-]; reflexivity|].
    split; intros; discriminate.
Qed.

Lemma mistral_prompt_generator_never_sends_witness :
  fst (Api.generate_mistral_prompt_func (VStr Sample.dream)
                                        Sample2.with_mistral_key)
  = Raise AttributeError
  /\ fst (Api.generate_mistral_prompt_func (VStr Sample.dream) Sample.ready)
     = Raise (Backend.missing "MISTRAL_API_KEY").
Proof.
  split.
  - pose proof (mistral_prompt_generator_never_sends
                  Sample2.with_mistral_key (VStr Sample.dream)) as H.
    destruct (Api.generate_mistral_prompt_func _ _) as [r s'].
    exact (proj1 (proj2 (proj2 H)) "mk-4" Sample.dream eq_refl eq_refl).
  - pose proof (mistral_prompt_generator_never_sends
                  Sample.ready (VStr Sample.dream)) as H.
    destruct (Api.generate_mistral_prompt_func _ _) as [r s'].
    exact (proj1 (proj2 H) (Backend.missing "MISTRAL_API_KEY") eq_refl).
Defined.

(* ===================================================================== *)
(** * What the pipeline of [app.py] shows *)
(* ===================================================================== *)

(** The whole run of the pipeline, started with no file object open. *)
Lemma pipeline_exact (w : World) (up : App.uploaded) u c e f t :
  let audio := mkstemp w f ("." +:+ Text.last_segment "." (App.name up)) in
  let f1 := <[audio := App.data up]> f in
  App.pipeline w up (St u c e f [] t)
  = (Ret tt,
     St u c e
        (delete audio
           (match Backend.resolve u c e "OPENAI_API_KEY" with
            | Ret _ => after_copy w audio (App.data up) f1
            | Raise _ => f1
            end))
        []
        (t ++ Display (Spinner "🔤 Transcription du rêve en cours...")
           :: pipeline_steps w audio (App.data up) u c e ++ [Sleep])).
Proof.
  intros audio f1.
  assert (Hf1 : f1 !! audio = Some (App.data up)) by apply lookup_insert_eq.
  unfold App.pipeline, pipeline_steps.
  rewrite bind_eq, named_temporary_file_run. fold audio f1.
  rewrite try_finally_eq, try_except_eq.
  rewrite bind_eq, show_run, bind_eq.
  destruct (Backend.resolve u c e "OPENAI_API_KEY") as [k|x] eqn:Hk.
  - rewrite (transcribe_audio_sync_run w audio (App.data up) _ _ _ _ _ k Hk Hf1).
    set (rq := Backend.stt_request_of k
                 (Text.basename audio, App.data up,
                  App.media_type w (Text.basename audio))).
    destruct (transcription_of (stt_post w rq)) as [resp|x] eqn:Hstt.
    + destruct (truthy (App.get_if_dict resp "transcription" (VStr "") (VStr "")))
        eqn:Htruthy; cbn [negb].
      * rewrite bind_eq, bind_eq, show_run, show_run.
        rewrite after_transcription_run.
        assert (Hcaught :
                  is_Exception
                    match Backend.resolve u c e "GROQ_API_KEY" with
                    | Ret _ => TypeError
                    | Raise x => x
                    end = true).
        { destruct (Backend.resolve u c e "GROQ_API_KEY") as [k2|x] eqn:Hk2;
            [reflexivity|].
          exact (resolve_raises_exception _ _ _ _ _ Hk2). }
        destruct (Backend.resolve u c e "GROQ_API_KEY") as [k2|x];
          rewrite Hcaught, show_run;
          rewrite (cleanup_run audio (App.data up))
            by apply after_copy_keeps_clip, Hf1;
          rewrite <- !app_assoc; reflexivity.
      * rewrite bind_eq, show_run. cbn [ret].
        rewrite (cleanup_run audio (App.data up))
          by apply after_copy_keeps_clip, Hf1.
        rewrite <- !app_assoc. reflexivity.
    + rewrite (transcription_of_raise_caught _ _ Hstt), show_run.
      rewrite (cleanup_run audio (App.data up))
        by apply after_copy_keeps_clip, Hf1.
      rewrite <- !app_assoc. reflexivity.
  - rewrite (transcribe_audio_sync_missing w audio (App.data up) _ _ _ _ _ x Hk Hf1).
    rewrite (resolve_raises_exception _ _ _ _ _ Hk), show_run.
    rewrite (cleanup_run audio (App.data up)) by exact Hf1.
    rewrite <- !app_assoc. reflexivity.
Qed.

Lemma pipeline_events (w : World) (up : App.uploaded) (s : State) :
  handles s = [] ->
  let audio := mkstemp w (fs s) ("." +:+ Text.last_segment "." (App.name up)) in
  fst (App.pipeline w up s) = Ret tt
  /\ new_events s (snd (App.pipeline w up s))
     = Display (Spinner "🔤 Transcription du rêve en cours...")
       :: pipeline_steps w audio (App.data up)
            (use_streamlit_secrets s) (st_secrets s) (environ s)
       ++ [Sleep].
Proof.
  intros Hh audio. destruct s as [u c e f h t]. cbn [handles] in Hh. subst h.
  cbn [fs use_streamlit_secrets st_secrets environ] in *.
  rewrite pipeline_exact. cbn [fst snd]. fold audio.
  rewrite new_events_app. split; reflexivity.
Qed.

(** X11: a failure of the Transcriber does not escape the pipeline of
    [app.py].  A missing speech-to-text key, or an answer that is not 200, is
    shown once in an error box; the run then goes to its cleanup and ends
    normally, having invoked no other stage. *)
Theorem app_shows_the_failure_of_the_transcriber
        (w : World) (s : State) (up : App.uploaded) :
  handles s = [] ->
  let audio := mkstemp w (fs s) ("." +:+ Text.last_segment "." (App.name up)) in
  let run := App.pipeline w up s in
  fst run = Ret tt
  /\ (forall x,
        credential s "OPENAI_API_KEY" = Raise x ->
        new_events s (snd run)
        = [Display (Spinner "🔤 Transcription du rêve en cours...");
           Invoke Transcriber; Resolve "OPENAI_API_KEY";
           Display (ErrorBox x); Sleep])
  /\ (forall k,
        credential s "OPENAI_API_KEY" = Ret k ->
        let rq := Backend.stt_request_of k
                    (Text.basename audio, App.data up,
                     App.media_type w (Text.basename audio)) in
        status_code (stt_post w rq) <> 200 ->
        new_events s (snd run)
        = [Display (Spinner "🔤 Transcription du rêve en cours...");
           Invoke Transcriber; Resolve "OPENAI_API_KEY"; SttPost rq;
           Display (ErrorBox (HTTPException (status_code (stt_post w rq))
                                            (text (stt_post w rq))));
           Sleep]).
Proof.
  intros Hh audio run.
  destruct (pipeline_events w up s Hh) as [Hr He].
  subst run. rewrite He. fold audio. unfold credential, pipeline_steps.
  split; [exact Hr|]. split.
  - intros x ->. reflexivity.
  - intros k -> Hst.
    unfold transcription_of. apply Z.eqb_neq in Hst. rewrite Hst. reflexivity.
Qed.

Lemma app_shows_the_failure_of_the_transcriber_witness :
  new_events Sample.no_keys (snd (App.pipeline Sample.silent Sample.upload
                                               Sample.no_keys))
  = [Display (Spinner "🔤 Transcription du rêve en cours...");
     Invoke Transcriber; Resolve "OPENAI_API_KEY";
     Display (ErrorBox (Backend.missing "OPENAI_API_KEY")); Sleep].
Proof.
  exact (proj1 (proj2 (app_shows_the_failure_of_the_transcriber
                         Sample.silent Sample.no_keys Sample.upload eq_refl))
               (Backend.missing "OPENAI_API_KEY") eq_refl).
Defined.

(** X12: in the pipeline of [app.py] a transcription that Python holds for
    false (a [text] that is missing, empty, null, zero, an empty list) gives
    the warning and nothing more: the run goes to its cleanup after the one
    request of the Transcriber. *)
Theorem app_warns_on_an_empty_transcription
        (w : World) (s : State) (up : App.uploaded) k d :
  handles s = [] ->
  credential s "OPENAI_API_KEY" = Ret k ->
  let audio := mkstemp w (fs s) ("." +:+ Text.last_segment "." (App.name up)) in
  let rq := Backend.stt_request_of k
              (Text.basename audio, App.data up,
               App.media_type w (Text.basename audio)) in
  status_code (stt_post w rq) = 200 ->
  json (stt_post w rq) = Some (VDict d) ->
  truthy (dict_get d "text" (VStr "")) = false ->
  new_events s (snd (App.pipeline w up s))
  = [Display (Spinner "🔤 Transcription du rêve en cours...");
     Invoke Transcriber; Resolve "OPENAI_API_KEY"; SttPost rq;
     Display (Warning "Aucune transcription détectée."); Sleep].
Proof.
  intros Hh Hk audio rq Hst Hjs Hfalse.
  destruct (pipeline_events w up s Hh) as [_ He].
  rewrite He. fold audio. unfold credential in Hk. unfold pipeline_steps.
  rewrite Hk. fold rq.
  rewrite (transcription_of_ok _ d Hst Hjs).
  cbn [App.get_if_dict dict_get assoc String.eqb Ascii.eqb Bool.eqb].
  rewrite Hfalse. reflexivity.
Qed.

Lemma app_warns_on_an_empty_transcription_witness :
  new_events Sample.ready (snd (App.pipeline Sample2.null_text Sample.upload
                                             Sample.ready))
  = [Display (Spinner "🔤 Transcription du rêve en cours...");
     Invoke Transcriber; Resolve "OPENAI_API_KEY";
     SttPost (Backend.stt_request_of "sk-1"
                ("tmp0.mp3", bytes_of_string "ID3", "audio/mpeg"));
     Display (Warning "Aucune transcription détectée."); Sleep].
Proof.
  exact (app_warns_on_an_empty_transcription
           Sample2.null_text Sample.ready Sample.upload "sk-1" [("text", VNone)]
           eq_refl eq_refl eq_refl eq_refl eq_refl).
Defined.

(** X13: in the pipeline of [app.py] a transcription that is not empty is
    shown, and the run then fails in the EmotionClassifier: the wrapper hands
    it a [Payload] object, which cannot be appended to the instruction.  With
    the Groq key set the error box shows [TypeError]; no emotion, prompt or
    image is ever shown. *)
Theorem app_fails_in_the_emotion_step
        (w : World) (s : State) (up : App.uploaded) k k2 d v :
  handles s = [] ->
  credential s "OPENAI_API_KEY" = Ret k ->
  credential s "GROQ_API_KEY" = Ret k2 ->
  let audio := mkstemp w (fs s) ("." +:+ Text.last_segment "." (App.name up)) in
  let rq := Backend.stt_request_of k
              (Text.basename audio, App.data up,
               App.media_type w (Text.basename audio)) in
  status_code (stt_post w rq) = 200 ->
  json (stt_post w rq) = Some (VDict d) ->
  dict_get d "text" (VStr "") = v ->
  truthy v = true ->
  new_events s (snd (App.pipeline w up s))
  = [Display (Spinner "🔤 Transcription du rêve en cours...");
     Invoke Transcriber; Resolve "OPENAI_API_KEY"; SttPost rq;
     Display (Subheader "📝 Rêve transcrit :");
     Display (Success v);
     Display (Spinner "🎭 Analyse de l’émotion du rêve...");
     Invoke EmotionClassifier; Resolve "GROQ_API_KEY";
     Display (ErrorBox TypeError); Sleep].
Proof.
  intros Hh Hk Hk2 audio rq Hst Hjs Hv Htrue.
  destruct (pipeline_events w up s Hh) as [_ He].
  rewrite He. fold audio. unfold credential in Hk, Hk2. unfold pipeline_steps.
  rewrite Hk, Hk2. fold rq.
  rewrite (transcription_of_ok _ d Hst Hjs), Hv.
  cbn [App.get_if_dict dict_get assoc String.eqb Ascii.eqb Bool.eqb].
  rewrite Htrue. reflexivity.
Qed.

Lemma app_fails_in_the_emotion_step_witness :
  new_events Sample.ready (snd (App.pipeline Sample.nightmare Sample.upload
                                             Sample.ready))
  = [Display (Spinner "🔤 Transcription du rêve en cours...");
     Invoke Transcriber; Resolve "OPENAI_API_KEY";
     SttPost (Backend.stt_request_of "sk-1"
                ("tmp0.mp3", bytes_of_string "ID3", "audio/mpeg"));
     Display (Subheader "📝 Rêve transcrit :");
     Display (Success (VStr Sample.dream));
     Display (Spinner "🎭 Analyse de l’émotion du rêve...");
     Invoke EmotionClassifier; Resolve "GROQ_API_KEY";
     Display (ErrorBox TypeError); Sleep].
Proof.
  exact (app_fails_in_the_emotion_step
           Sample.nightmare Sample.ready Sample.upload "sk-1" "gsk-2"
           [("text", VStr Sample.dream)] (VStr Sample.dream)
           eq_refl eq_refl eq_refl eq_refl eq_refl eq_refl eq_refl).
Defined.

(** X14: whatever the services answer, a run of the pipeline of [app.py]
    sends at most the one request of the Transcriber: never a completion
    request, never an image request; the PromptGenerator and the
    ImageSynthesizer are not invoked. *)
Theorem app_never_reaches_the_completion_service
        (w : World) (s : State) (up : App.uploaded) :
  handles s = [] ->
  let events := new_events s (snd (App.pipeline w up s)) in
  forallb is_stt_post (upstream_calls events) = true
  /\ (length (upstream_calls events) <= 1)%nat
  /\ invoked PromptGenerator events = false
  /\ invoked ImageSynthesizer events = false.
Proof.
  intros Hh events.
  destruct (pipeline_events w up s Hh) as [_ He].
  subst events. rewrite He. unfold pipeline_steps.
  destruct (Backend.resolve _ _ _ "OPENAI_API_KEY") as [k|x].
  - destruct (transcription_of _) as [resp|x].
    + destruct (truthy _); cbn; repeat split; lia.
    + cbn. repeat split; lia.
  - cbn. repeat split; lia.
Qed.

Lemma app_never_reaches_the_completion_service_witness :
  invoked ImageSynthesizer
    (new_events Sample.ready
       (snd (App.pipeline Sample.nightmare Sample.upload Sample.ready)))
  = false.
Proof.
  exact (proj2 (proj2 (proj2 (app_never_reaches_the_completion_service
                                Sample.nightmare Sample.ready Sample.upload
                                eq_refl)))).
Defined.

(* ===================================================================== *)
(** * Text: the last segment of a name, and stripping *)
(* ===================================================================== *)

Lemma chars_of_chars l : Text.chars (Text.of_chars l) = l.
Proof. apply list_ascii_of_string_of_list_ascii. Qed.

Lemma of_chars_chars s : Text.of_chars (Text.chars s) = s.
Proof. apply string_of_list_ascii_of_string. Qed.

Lemma chars_app a b : Text.chars (a +:+ b) = Text.chars a ++ Text.chars b.
Proof.
  induction a as [|x a IH]; [reflexivity|].
  change (String x a +:+ b) with (String x (a +:+ b)).
  unfold Text.chars in *. cbn [list_ascii_of_string app]. f_equal. exact IH.
Qed.

Lemma last_segment_aux_no_sep sep l acc :
  ~ In sep acc -> ~ In sep (Text.last_segment_aux sep l acc).
Proof.
  revert acc. induction l as [|x l IH]; intros acc Hacc; cbn [Text.last_segment_aux].
  - rewrite <- in_rev. exact Hacc.
  - destruct (Ascii.eqb_spec x sep) as [-> | Hne].
    + apply IH. intros [].
    + apply IH. intros [E | Hin]; [now apply Hne | now apply Hacc].
Qed.

Lemma last_segment_aux_without_sep sep l acc :
  ~ In sep l -> Text.last_segment_aux sep l acc = rev acc ++ l.
Proof.
  revert acc. induction l as [|x l IH]; intros acc Hl; cbn [Text.last_segment_aux].
  - now rewrite app_nil_r.
  - destruct (Ascii.eqb_spec x sep) as [-> | Hne].
    + destruct Hl. now left.
    + rewrite IH by (intros Hin; apply Hl; now right).
      cbn [rev]. now rewrite <- app_assoc.
Qed.

Lemma last_segment_aux_after_sep sep a b acc :
  Text.last_segment_aux sep (a ++ sep :: b) acc = Text.last_segment_aux sep b [].
Proof.
  revert acc. induction a as [|x a IH]; intros acc; cbn [app Text.last_segment_aux].
  - now rewrite Ascii.eqb_refl.
  - destruct (Ascii.eqb x sep); apply IH.
Qed.

Lemma last_segment_after sep a b :
  ~ In sep (Text.chars b) -> Text.last_segment sep (a +:+ String sep b) = b.
Proof.
  intros Hb. unfold Text.last_segment. rewrite chars_app.
  change (Text.chars (String sep b)) with (sep :: Text.chars b).
  rewrite last_segment_aux_after_sep, (last_segment_aux_without_sep _ _ _ Hb).
  apply of_chars_chars.
Qed.

(** X15: [s.split(sep)[-1]], as the application computes the extension of a
    name: the result never holds the separator; a name without separator is
    returned whole, so that the upload [reve] gets the suffix [.reve]; and
    what follows the last separator is returned, whatever comes before. *)
Theorem last_segment_is_what_follows_the_last_separator (sep : ascii) :
  (forall s, ~ In sep (Text.chars (Text.last_segment sep s)))
  /\ (forall s, ~ In sep (Text.chars s) -> Text.last_segment sep s = s)
  /\ (forall a b, ~ In sep (Text.chars b) ->
                  Text.last_segment sep (a +:+ String sep b) = b).
Proof.
  unfold Text.last_segment. split; [|split].
  - intros s. rewrite chars_of_chars. apply last_segment_aux_no_sep. intros [].
  - intros s Hs. rewrite (last_segment_aux_without_sep _ _ _ Hs).
    apply of_chars_chars.
  - intros a b Hb. rewrite chars_app.
    change (Text.chars (String sep b)) with (sep :: Text.chars b).
    rewrite last_segment_aux_after_sep, (last_segment_aux_without_sep _ _ _ Hb).
    apply of_chars_chars.
Qed.

Lemma last_segment_is_what_follows_the_last_separator_witness :
  Text.last_segment "." "mon.reve.mp3" = "mp3"
  /\ Text.last_segment "." "reve" = "reve".
Proof.
  split.
  - apply (proj2 (proj2 (last_segment_is_what_follows_the_last_separator "."))
                 "mon.reve" "mp3").
    cbn. intros [H | [H | [H | []]]]; discriminate H.
  - apply (proj1 (proj2 (last_segment_is_what_follows_the_last_separator "."))).
    cbn. intros [H | [H | [H | [H | []]]]]; discriminate H.
Defined.

(** X16: the media type [DummyUploadFile] declares is read off what follows
    the last dot of the file name, lower-cased: [audio/mpeg] for [mp3],
    [audio/wav] for [wav], and [application/octet-stream] for anything else;
    the directories of the path and the dots before the last play no part. *)
Theorem media_type_is_read_off_the_extension (w : World) :
  (forall path,
     content_type (App.dummy_file w path) = "audio/mpeg"
     \/ content_type (App.dummy_file w path) = "audio/wav"
     \/ content_type (App.dummy_file w path) = "application/octet-stream")
  /\ (forall dir stem ext,
        ~ In "."%char (Text.chars ext) ->
        ~ In "/"%char (Text.chars stem) ->
        ~ In "/"%char (Text.chars ext) ->
        filename (App.dummy_file w (dir +:+ String "/" (stem +:+ String "." ext)))
        = stem +:+ String "." ext
        /\ content_type
             (App.dummy_file w (dir +:+ String "/" (stem +:+ String "." ext)))
           = if String.eqb (str_lower w ext) "mp3" then "audio/mpeg"
             else if String.eqb (str_lower w ext) "wav" then "audio/wav"
             else "application/octet-stream").
Proof.
  split.
  - intros path. cbn [App.dummy_file content_type]. unfold App.media_type.
    destruct (String.eqb _ "mp3"); [now left|].
    destruct (String.eqb _ "wav"); [right; now left | right; now right].
  - intros dir stem ext Hdot Hstem Hext.
    cbn [App.dummy_file content_type filename]. unfold App.media_type, Text.basename.
    assert (Hbase : Text.last_segment "/" (dir +:+ String "/" (stem +:+ String "." ext))
                    = stem +:+ String "." ext).
    { apply last_segment_after.
      rewrite chars_app. change (Text.chars (String "." ext)) with ("."%char :: Text.chars ext).
      intros Hin. apply in_app_or in Hin. destruct Hin as [Hin | [E | Hin]].
      - now apply Hstem.
      - discriminate E.
      - now apply Hext. }
    rewrite Hbase. split; [reflexivity|].
    rewrite (last_segment_after "." stem ext Hdot).
    reflexivity.
Qed.

Lemma media_type_is_read_off_the_extension_witness :
  content_type (App.dummy_file Sample.silent "/tmp/mon.reve.MP3") = "audio/mpeg".
Proof.
  apply (proj2 (media_type_is_read_off_the_extension Sample.silent)
               "/tmp" "mon.reve" "MP3").
  - cbn. intros [H | [H | [H | []]]]; discriminate H.
  - cbn. intros H.
    repeat (destruct H as [H | H]; [discriminate H|]). exact H.
  - cbn. intros [H | [H | [H | []]]]; discriminate H.
Defined.

(** ** Stripping *)

Lemma drop_prefix_split p l r :
  Text.drop_prefix p l = Some r -> l = p ++ r.
Proof.
  revert l. induction p as [|a p IH]; intros l; cbn [Text.drop_prefix].
  - intros [= ->]. reflexivity.
  - destruct l as [|b l]; [discriminate|].
    destruct (Ascii.eqb_spec a b) as [-> | _]; [|discriminate].
    intros H. cbn [app]. f_equal. apply IH, H.
Qed.

Lemma drop_prefix_app p l r q :
  Text.drop_prefix p l = Some r -> Text.drop_prefix p (l ++ q) = Some (r ++ q).
Proof.
  revert l. induction p as [|a p IH]; intros l; cbn [Text.drop_prefix].
  - intros [= ->]. reflexivity.
  - destruct l as [|b l]; [discriminate|]. cbn [app].
    destruct (Ascii.eqb a b); [apply IH | discriminate].
Qed.

Lemma drop_any_split toks l r :
  Text.drop_any toks l = Some r -> exists p, In p toks /\ l = p ++ r.
Proof.
  induction toks as [|tok toks IH]; cbn [Text.drop_any]; [discriminate|].
  destruct (Text.drop_prefix tok l) as [r'|] eqn:E.
  - intros [= ->]. exists tok. split; [now left | apply drop_prefix_split, E].
  - intros H. destruct (IH H) as (p & Hin & ->). exists p. split; [now right | reflexivity].
Qed.

Lemma drop_any_app toks l q :
  Text.drop_any toks l <> None -> Text.drop_any toks (l ++ q) <> None.
Proof.
  induction toks as [|tok toks IH]; cbn [Text.drop_any]; [easy|].
  destruct (Text.drop_prefix tok l) as [r|] eqn:E.
  - intros _. rewrite (drop_prefix_app _ _ _ q E). discriminate.
  - intros H. destruct (Text.drop_prefix tok (l ++ q)); [discriminate | apply IH, H].
Qed.

Lemma drop_leading_done toks fuel l :
  Forall (fun tok => tok <> []) toks ->
  (length l <= fuel)%nat ->
  Text.drop_any toks (Text.drop_leading toks fuel l) = None.
Proof.
  intros Htoks. revert l.
  induction fuel as [|fuel IH]; intros l Hl; cbn [Text.drop_leading].
  - destruct l; [|cbn in Hl; lia].
    destruct (Text.drop_any toks []) as [r|] eqn:E; [|reflexivity].
    destruct (drop_any_split _ _ _ E) as (p & Hin & Hp).
    rewrite List.Forall_forall in Htoks. specialize (Htoks p Hin).
    destruct p; [contradiction | discriminate].
  - destruct (Text.drop_any toks l) as [r|] eqn:E; [|exact E].
    apply IH.
    destruct (drop_any_split _ _ _ E) as (p & Hin & ->).
    rewrite List.Forall_forall in Htoks. specialize (Htoks p Hin).
    rewrite length_app in Hl. destruct p; [contradiction|]. cbn in Hl. lia.
Qed.

Lemma drop_leading_suffix toks fuel l :
  exists p, l = p ++ Text.drop_leading toks fuel l.
Proof.
  revert l. induction fuel as [|fuel IH]; intros l; cbn [Text.drop_leading].
  - now exists [].
  - destruct (Text.drop_any toks l) as [r|] eqn:E; [|now exists []].
    destruct (drop_any_split _ _ _ E) as (p & _ & ->).
    destruct (IH r) as [p' Hp']. exists (p ++ p').
    rewrite <- app_assoc. f_equal. exact Hp'.
Qed.

Lemma drop_leading_nothing toks fuel l :
  Text.drop_any toks l = None -> Text.drop_leading toks fuel l = l.
Proof. intros E. destruct fuel; cbn [Text.drop_leading]; [|rewrite E]; reflexivity. Qed.

Lemma whitespace_tokens_not_empty :
  Forall (fun tok : list ascii => tok <> []) Text.whitespace
  /\ Forall (fun tok : list ascii => tok <> []) (map (@rev ascii) Text.whitespace).
Proof. split; repeat constructor; discriminate. Qed.

Lemma lstrip_done l : Text.drop_any Text.whitespace (Text.lstrip l) = None.
Proof.
  apply drop_leading_done; [apply whitespace_tokens_not_empty | reflexivity].
Qed.

Lemma rstrip_done l :
  Text.drop_any (map (@rev ascii) Text.whitespace) (rev (Text.rstrip l)) = None.
Proof.
  unfold Text.rstrip. rewrite rev_involutive.
  apply drop_leading_done; [apply whitespace_tokens_not_empty|].
  now rewrite length_rev.
Qed.

Lemma rstrip_prefix l : exists q, l = Text.rstrip l ++ q.
Proof.
  unfold Text.rstrip.
  destruct (drop_leading_suffix (map (@rev ascii) Text.whitespace) (length l) (rev l))
    as [p Hp].
  exists (rev p). rewrite <- rev_app_distr, <- Hp. now rewrite rev_involutive.
Qed.

Lemma strip_done (s : string) :
  Text.drop_any Text.whitespace (Text.chars (Text.strip s)) = None
  /\ Text.drop_any (map (@rev ascii) Text.whitespace)
                   (rev (Text.chars (Text.strip s))) = None.
Proof.
  unfold Text.strip. rewrite chars_of_chars. split; [|apply rstrip_done].
  destruct (rstrip_prefix (Text.lstrip (Text.chars s))) as [q Hq].
  destruct (Text.drop_any Text.whitespace (Text.rstrip (Text.lstrip (Text.chars s))))
    as [r|] eqn:E; [|reflexivity].
  exfalso.
  apply (drop_any_app Text.whitespace
           (Text.rstrip (Text.lstrip (Text.chars s))) q);
    [rewrite E; discriminate|].
  rewrite <- Hq. apply lstrip_done.
Qed.

Lemma strip_nothing (s : string) :
  Text.drop_any Text.whitespace (Text.chars s) = None ->
  Text.drop_any (map (@rev ascii) Text.whitespace) (rev (Text.chars s)) = None ->
  Text.strip s = s.
Proof.
  intros Hl Hr. unfold Text.strip, Text.lstrip.
  rewrite (drop_leading_nothing _ _ _ Hl). unfold Text.rstrip.
  rewrite (drop_leading_nothing _ _ _ Hr), rev_involutive.
  apply of_chars_chars.
Qed.

(** X17: [strip] leaves a text that neither starts nor ends with a white
    space character (in particular not with a space, a tabulation or a line
    break), returns unchanged a text that has none at either end, and
    stripping twice is stripping once. *)
Theorem strip_removes_the_surrounding_white_space (s : string) :
  Text.drop_any Text.whitespace (Text.chars (Text.strip s)) = None
  /\ Text.drop_any (map (@rev ascii) Text.whitespace)
                   (rev (Text.chars (Text.strip s))) = None
  /\ (forall c rest,
        In c [" "%char; Text.ch 9; Text.ch 10; Text.ch 13] ->
        Text.chars (Text.strip s) <> c :: rest
        /\ Text.chars (Text.strip s) <> rest ++ [c])
  /\ (Text.drop_any Text.whitespace (Text.chars s) = None ->
      Text.drop_any (map (@rev ascii) Text.whitespace) (rev (Text.chars s)) = None ->
      Text.strip s = s)
  /\ Text.strip (Text.strip s) = Text.strip s.
Proof.
  destruct (strip_done s) as [Hl Hr].
  split; [exact Hl|]. split; [exact Hr|]. split; [|split].
  - intros c rest Hc. split; intros E.
    + rewrite E in Hl.
      destruct Hc as [<- | [<- | [<- | [<- | []]]]]; discriminate Hl.
    + rewrite E, rev_app_distr in Hr.
      destruct Hc as [<- | [<- | [<- | [<- | []]]]]; discriminate Hr.
  - apply strip_nothing.
  - apply strip_nothing; assumption.
Qed.

Lemma strip_removes_the_surrounding_white_space_witness :
  Text.strip "une ville" = "une ville".
Proof.
  apply (proj1 (proj2 (proj2 (proj2
           (strip_removes_the_surrounding_white_space "une ville")))));
    reflexivity.
Defined.


(* ===================================================================== *)
(** * The shape of the data URI *)
(* ===================================================================== *)

Lemma b64encode_length (data : list byte) :
  String.length (Base64.b64encode data) = (4 * ((List.length data + 2) / 3))%nat.
Proof.
  induction data as [|x|x y|x y z rest IH] using list_ind3.
  - reflexivity.
  - cbn [Base64.b64encode].
    destruct (Base64.sextets3 x "000" "000") as [[[s0 s1] s2] s3]. reflexivity.
  - cbn [Base64.b64encode].
    destruct (Base64.sextets3 x y "000") as [[[s0 s1] s2] s3]. reflexivity.
  - cbn [Base64.b64encode].
    destruct (Base64.sextets3 x y z) as [[[s0 s1] s2] s3].
    cbn [String.length List.length]. rewrite IH.
    replace (S (S (S (List.length rest))) + 2)%nat
      with (List.length rest + 2 + 1 * 3)%nat by lia.
    rewrite Nat.div_add by lia. lia.
Qed.

Lemma encode_sextet_character (s : Base64.sextet) :
  b64_character (Base64.encode_sextet s).
Proof. left. rewrite decode_encode_sextet. discriminate. Qed.

Lemma b64encode_characters (data : list byte) :
  Forall b64_character (Text.chars (Base64.b64encode data)).
Proof.
  induction data as [|x|x y|x y z rest IH] using list_ind3.
  - constructor.
  - cbn [Base64.b64encode].
    destruct (Base64.sextets3 x "000" "000") as [[[s0 s1] s2] s3].
    unfold Text.chars. cbn [list_ascii_of_string].
    repeat (apply List.Forall_cons;
            [first [apply encode_sextet_character | now right]|]).
    apply List.Forall_nil.
  - cbn [Base64.b64encode].
    destruct (Base64.sextets3 x y "000") as [[[s0 s1] s2] s3].
    unfold Text.chars. cbn [list_ascii_of_string].
    repeat (apply List.Forall_cons;
            [first [apply encode_sextet_character | now right]|]).
    apply List.Forall_nil.
  - cbn [Base64.b64encode].
    destruct (Base64.sextets3 x y z) as [[[s0 s1] s2] s3].
    unfold Text.chars in *. cbn [list_ascii_of_string].
    repeat (apply List.Forall_cons; [apply encode_sextet_character|]). exact IH.
Qed.

Lemma b64encode_inj (a b : list byte) :
  Base64.b64encode a = Base64.b64encode b -> a = b.
Proof.
  intros E. pose proof (b64decode_b64encode a) as Ha.
  rewrite E, b64decode_b64encode in Ha. now injection Ha.
Qed.

(** X19: the image that [generate_image_func] returns on a 200 answer is the
    prefix [data:image/png;base64,] followed by a payload of 4 characters for
    every 3 bytes of the answer, rounded up, all of them letters of the base64
    alphabet or the padding sign; and the payload determines the bytes: no
    other byte string encodes to it. *)
Theorem image_data_uri_is_well_formed (w : World) (s : State) prompt k :
  credential s "CLIPDROP_API_KEY" = Ret k ->
  let response := image_post w (Backend.image_request_of k (VStr prompt)) in
  status_code response = 200 ->
  exists payload,
    fst (Backend.generate_image_func w (VStr prompt) s)
    = Ret (VDict [("image", VStr ("data:image/png;base64," +:+ payload))])
    /\ String.length payload
       = (4 * ((List.length (content response) + 2) / 3))%nat
    /\ Forall b64_character (Text.chars payload)
    /\ (forall other, Base64.b64encode other = payload ->
                      other = content response).
Proof.
  intros Hk response Hst.
  destruct s as [u c e f h t]. unfold credential in Hk.
  cbn [use_streamlit_secrets st_secrets environ] in Hk.
  exists (Base64.b64encode (content response)).
  split; [|split; [|split]].
  - rewrite (generate_image_run w prompt _ _ _ _ _ _ k Hk). cbn [fst].
    fold response. unfold image_of. rewrite Hst. reflexivity.
  - apply b64encode_length.
  - apply b64encode_characters.
  - intros other. apply b64encode_inj.
Qed.

Lemma image_data_uri_is_well_formed_witness :
  exists payload,
    fst (Backend.generate_image_func Sample.nightmare (VStr "une ville") Sample.ready)
    = Ret (VDict [("image", VStr ("data:image/png;base64," +:+ payload))])
    /\ String.length payload = 8%nat
    /\ Forall b64_character (Text.chars payload)
    /\ (forall other, Base64.b64encode other = payload -> other = Sample.png).
Proof.
  exact (image_data_uri_is_well_formed Sample.nightmare Sample.ready
           "une ville" "cd-3" eq_refl eq_refl).
Defined.


(* ===================================================================== *)
(** * Missing keys, as the orchestrator meets them *)
(* ===================================================================== *)

(** X21: the orchestrator of [/dream-to-image] checks no key ahead of time.
    Without the speech-to-text key it fails at once, with no request; with it
    and without the Groq key, the speech-to-text request is sent and
    answered first, and the run fails only then, in the EmotionClassifier,
    before any completion request. *)
Theorem dream_to_image_meets_missing_keys_in_stage_order
        (w : World) (s : State) name media data :
  let run := Backend.dream_to_image w (in_memory name media data) s in
  (forall x,
     credential s "OPENAI_API_KEY" = Raise x ->
     fst run = Raise x
     /\ new_events s (snd run) = [Invoke Transcriber; Resolve "OPENAI_API_KEY"])
  /\ (forall k1 x d txt,
        credential s "OPENAI_API_KEY" = Ret k1 ->
        credential s "GROQ_API_KEY" = Raise x ->
        let rq1 := Backend.stt_request_of k1 (name, data, media) in
        status_code (stt_post w rq1) = 200 ->
        json (stt_post w rq1) = Some (VDict d) ->
        dict_get d "text" (VStr "") = VStr txt ->
        fst run = Raise x
        /\ new_events s (snd run)
           = [Invoke Transcriber; Resolve "OPENAI_API_KEY"; SttPost rq1;
              Invoke EmotionClassifier; Resolve "GROQ_API_KEY"]).
Proof.
  intros run. subst run.
  destruct s as [u c e f h t]. unfold credential.
  cbn beta iota delta [use_streamlit_secrets st_secrets environ].
  split.
  - intros x Hk. unfold Backend.dream_to_image. rewrite bind_eq.
    rewrite (transcribe_run_missing w _ _ _ _ _ _ _ x Hk).
    cbn [fst snd]. rewrite new_events_app. split; reflexivity.
  - intros k1 x d txt Hk1 Hk2 Hst Hjs Hd.
    assert (Hstt : transcription_of
                     (stt_post w (Backend.stt_request_of k1 (name, data, media)))
                   = Ret (VDict [("transcription", VStr txt)]))
      by (rewrite (transcription_of_ok _ d Hst Hjs), Hd; reflexivity).
    destruct (dream_to_image_head w name media data u c e f h t k1 txt Hk1 Hstt)
      as [f' ->].
    rewrite bind_eq, (stage_missing_emotion w _ _ _ _ _ _ _ x Hk2).
    cbn [fst snd]. rewrite <- !app_assoc. cbn [app]. rewrite new_events_app.
    split; reflexivity.
Qed.

Lemma dream_to_image_meets_missing_keys_in_stage_order_witness :
  fst (Backend.dream_to_image Sample.nightmare Sample.clip Sample.no_keys)
  = Raise (Backend.missing "OPENAI_API_KEY")
  /\ fst (Backend.dream_to_image Sample.nightmare Sample.clip Sample2.only_openai)
     = Raise (Backend.missing "GROQ_API_KEY").
Proof.
  split.
  - exact (proj1 (proj1 (dream_to_image_meets_missing_keys_in_stage_order
                           Sample.nightmare Sample.no_keys
                           "reve.mp3" "audio/mpeg" (bytes_of_string "ID3"))
                        (Backend.missing "OPENAI_API_KEY") eq_refl)).
  - exact (proj1 (proj2 (dream_to_image_meets_missing_keys_in_stage_order
                           Sample.nightmare Sample2.only_openai
                           "reve.mp3" "audio/mpeg" (bytes_of_string "ID3"))
                        "sk-1" (Backend.missing "GROQ_API_KEY")
                        [("text", VStr Sample.dream)] Sample.dream
                        eq_refl eq_refl eq_refl eq_refl eq_refl)).
Defined.
